(** * TOSCA to HOT translation (tacker/vnfm/infra_drivers/openstack/translate_template.py)

    A shallow embedding of the [TOSCAToHOT] translator and the properties
    of its parameter resolution, port synthesis, legacy translation,
    scaling expansion and alarm expansion.

    Python documents (the nested dicts, lists and scalars that YAML
    parsing yields) are embedded as the tree type [value].  A dict is an
    association list in insertion order, because the code iterates over
    dicts; its keys are text and its numbers are integers.  Methods that
    mutate an argument return the mutated object; methods that can raise
    return a [result]. *)

From Stdlib Require Import String Ascii List ZArith Lia Bool.
From Stdlib Require Import DecimalString DecimalPos.
Import ListNotations.

Local Open Scope string_scope.
Local Open Scope list_scope.
Local Open Scope Z_scope.

Set Warnings "-register-all".

(** ** Documents *)

Inductive value : Type :=
| VNone
| VBool (b : bool)
| VInt (z : Z)
| VStr (s : string)
| VList (l : list value)
| VDict (d : list (string * value)).

Definition dict := list (string * value).

(** ** Exceptions and the error monad *)

Inductive exn : Type :=
| InputValuesMissing (key : string)
| ParamYAMLNotWellFormed
| ParamYAMLInputMissing
| IPAddrInvalidInput
| UserDataFormatNotFound
| KeyError (key : string)
| IndexError
| TypeError
| ValueError
| AttributeError
| AssertionError
| UnboundLocalError (name : string).

Inductive result (A : Type) : Type :=
| Ok (a : A)
| Raise (e : exn).

Arguments Ok {A} a.
Arguments Raise {A} e.

Definition bind {A B : Type} (c : result A) (k : A -> result B) : result B :=
  match c with
  | Ok a => k a
  | Raise e => Raise e
  end.

Notation "x <- c ;; k" := (bind c (fun x => k))
  (at level 61, c at next level, right associativity).
Notation "' p <- c ;; k" := (bind c (fun x => match x with p => k end))
  (at level 61, p pattern, c at next level, right associativity).

(** ** Strings *)

(** [t in s] for two Python strings. *)
Fixpoint str_in (t s : string) : bool :=
  if String.prefix t s then true
  else match s with
       | EmptyString => false
       | String _ s' => str_in t s'
       end.

Definition string_of_Z (z : Z) : string :=
  NilZero.string_of_int (Z.to_int z).

Fixpoint join (sep : string) (l : list string) : string :=
  match l with
  | [] => ""
  | [x] => x
  | x :: r => (x ++ sep ++ join sep r)%string
  end.

Definition is_space (c : ascii) : bool :=
  let n := nat_of_ascii c in
  (Nat.eqb n 32 || (Nat.leb 9 n && Nat.leb n 13))%bool.

Fixpoint lstrip (s : string) : string :=
  match s with
  | String c r => if is_space c then lstrip r else s
  | EmptyString => s
  end.

Fixpoint rstrip (s : string) : string :=
  match s with
  | EmptyString => EmptyString
  | String c r =>
      match rstrip r with
      | EmptyString => if is_space c then EmptyString else String c EmptyString
      | r' => String c r'
      end
  end.

Definition is_digit (c : ascii) : bool :=
  let n := nat_of_ascii c in (Nat.leb 48 n && Nat.leb n 57)%bool.

Fixpoint all_digits (s : string) : bool :=
  match s with
  | EmptyString => true
  | String c r => (is_digit c && all_digits r)%bool
  end.

Definition digits_to_Z (s : string) : option Z :=
  match s with
  | EmptyString => None
  | _ => if all_digits s
         then option_map Z.of_uint (NilZero.uint_of_string s)
         else None
  end.

(** [int(s)] for a string: blanks around the numeral are dropped, one sign
    is accepted, the rest must be decimal digits. *)
Definition int_of_str (s : string) : option Z :=
  match lstrip (rstrip s) with
  | String "-" r => option_map Z.opp (digits_to_Z r)
  | String "+" r => digits_to_Z r
  | r => digits_to_Z r
  end.

(** ** Dict operations (insertion-ordered) *)

Fixpoint dict_get (k : string) (d : dict) : option value :=
  match d with
  | [] => None
  | (k', v) :: r => if String.eqb k k' then Some v else dict_get k r
  end.

Definition dict_has (k : string) (d : dict) : bool :=
  match dict_get k d with Some _ => true | None => false end.

(** [d[k] = v]: an existing key keeps its place, a new one goes last. *)
Fixpoint dict_set (k : string) (v : value) (d : dict) : dict :=
  match d with
  | [] => [(k, v)]
  | (k', v') :: r =>
      if String.eqb k k' then (k, v) :: r else (k', v') :: dict_set k v r
  end.

Definition dict_del (k : string) (d : dict) : dict :=
  filter (fun e => negb (String.eqb k (fst e))) d.

(** [d.pop(k, default)]: the value and the dict without the key. *)
Definition dict_pop (k : string) (default : value) (d : dict) : value * dict :=
  match dict_get k d with
  | Some v => (v, dict_del k d)
  | None => (default, d)
  end.

(** [d.update(other)] *)
Definition dict_update (d other : dict) : dict :=
  fold_left (fun acc e => dict_set (fst e) (snd e) acc) other d.

Definition dict_keys (d : dict) : list string := map fst d.

(** ** Python primitives on documents *)

Definition truthy (v : value) : bool :=
  match v with
  | VNone => false
  | VBool b => b
  | VInt z => negb (Z.eqb z 0)
  | VStr s => negb (String.eqb s "")
  | VList l => match l with [] => false | _ => true end
  | VDict d => match d with [] => false | _ => true end
  end.

(** [repr(v)].  Text is quoted as Python quotes text that holds no quote,
    backslash or control character; a dict is shown with braces. *)
Fixpoint py_repr (v : value) : string :=
  match v with
  | VNone => "None"
  | VBool true => "True"
  | VBool false => "False"
  | VInt z => string_of_Z z
  | VStr s => ("'" ++ s ++ "'")%string
  | VList l => ("[" ++ join ", " (map py_repr l) ++ "]")%string
  | VDict d =>
      ("{" ++ join ", "
              (map (fun e => ("'" ++ fst e ++ "': " ++ py_repr (snd e))%string) d)
           ++ "}")%string
  end.

(** [str(v)], also what [%s] formats. *)
Definition py_str (v : value) : string :=
  match v with
  | VStr s => s
  | _ => py_repr v
  end.

(** [a == b].  Booleans compare as the integers 0 and 1; dicts compare as
    mappings, whatever the order of their keys. *)
Fixpoint py_eq (a b : value) {struct a} : bool :=
  match a, b with
  | VNone, VNone => true
  | VBool x, VBool y => Bool.eqb x y
  | VBool x, VInt y => Z.eqb (Z.b2z x) y
  | VInt x, VBool y => Z.eqb x (Z.b2z y)
  | VInt x, VInt y => Z.eqb x y
  | VStr x, VStr y => String.eqb x y
  | VList x, VList y =>
      (fix eq_list (x : list value) (y : list value) {struct x} : bool :=
         match x, y with
         | [], [] => true
         | u :: x', w :: y' => (py_eq u w && eq_list x' y')%bool
         | _, _ => false
         end) x y
  | VDict x, VDict y =>
      (Nat.eqb (length x) (length y) &&
       (fix sub_dict (x : dict) {struct x} : bool :=
          match x with
          | [] => true
          | (k, u) :: x' =>
              (match dict_get k y with
               | Some w => py_eq u w
               | None => false
               end && sub_dict x')%bool
          end) x)%bool
  | _, _ => false
  end.

(** [k in c] *)
Definition py_in (k c : value) : result bool :=
  match c with
  | VDict d =>
      match k with
      | VStr s => Ok (dict_has s d)
      | VList _ | VDict _ => Raise TypeError
      | _ => Ok false
      end
  | VList l => Ok (existsb (py_eq k) l)
  | VStr s =>
      match k with
      | VStr t => Ok (str_in t s)
      | _ => Raise TypeError
      end
  | _ => Raise TypeError
  end.

Definition list_index (l : list value) (i : Z) : result value :=
  let n := Z.of_nat (length l) in
  let j := if i <? 0 then i + n else i in
  if (j <? 0) || (n <=? j) then Raise IndexError
  else match nth_error l (Z.to_nat j) with
       | Some v => Ok v
       | None => Raise IndexError
       end.

Definition str_index (s : string) (i : Z) : result value :=
  let n := Z.of_nat (String.length s) in
  let j := if i <? 0 then i + n else i in
  if (j <? 0) || (n <=? j) then Raise IndexError
  else match String.get (Z.to_nat j) s with
       | Some c => Ok (VStr (String c EmptyString))
       | None => Raise IndexError
       end.

(** [c[k]] *)
Definition py_getitem (c k : value) : result value :=
  match c with
  | VDict d =>
      match k with
      | VStr s => match dict_get s d with
                  | Some v => Ok v
                  | None => Raise (KeyError s)
                  end
      | VList _ | VDict _ => Raise TypeError
      | _ => Raise (KeyError (py_repr k))
      end
  | VList l =>
      match k with
      | VInt i => list_index l i
      | VBool b => list_index l (Z.b2z b)
      | _ => Raise TypeError
      end
  | VStr s =>
      match k with
      | VInt i => str_index s i
      | VBool b => str_index s (Z.b2z b)
      | _ => Raise TypeError
      end
  | _ => Raise TypeError
  end.

(** [c[k]] with a text key. *)
Definition getitem (c : value) (k : string) : result value :=
  py_getitem c (VStr k).

(** [k in c] with a text key. *)
Definition contains (k : string) (c : value) : result bool :=
  py_in (VStr k) c.

(** [c[k] = v] with a text key. *)
Definition setitem (c : value) (k : string) (v : value) : result value :=
  match c with
  | VDict d => Ok (VDict (dict_set k v d))
  | _ => Raise TypeError
  end.

(** [int(v)] *)
Definition py_int (v : value) : result Z :=
  match v with
  | VInt z => Ok z
  | VBool b => Ok (Z.b2z b)
  | VStr s => match int_of_str s with
              | Some z => Ok z
              | None => Raise ValueError
              end
  | _ => Raise TypeError
  end.

(** [v[:n]] *)
Definition py_slice_to (n : nat) (v : value) : result value :=
  match v with
  | VStr s => Ok (VStr (String.substring 0 n s))
  | VList l => Ok (VList (firstn n l))
  | _ => Raise TypeError
  end.

(** [list(d.items())[0]] *)
Definition first_item (v : value) : result (string * value) :=
  match v with
  | VDict [] => Raise IndexError
  | VDict (e :: _) => Ok e
  | _ => Raise AttributeError
  end.

(** [v.get(k, default)] *)
Definition py_get (v : value) (k : string) (default : value) : result value :=
  match v with
  | VDict d => Ok (match dict_get k d with Some x => x | None => default end)
  | _ => Raise AttributeError
  end.

(** [for x in v]: the sequence a [for] loop walks. *)
Definition py_iter (v : value) : result (list value) :=
  match v with
  | VList l => Ok l
  | VDict d => Ok (map VStr (dict_keys d))
  | VStr s => Ok (map (fun c => VStr (String c EmptyString)) (list_ascii_of_string s))
  | _ => Raise TypeError
  end.

(** One element of a sequence given to [dict.update]: it must itself be a
    sequence of two items, the key and the value. *)
Definition update_pair (item : value) : result (value * value) :=
  items <- py_iter item ;;
  match items with
  | [k; v] => Ok (k, v)
  | _ => Raise ValueError
  end.

(** [t.update(items)] for a sequence [items] of pairs.  The dicts of this
    development have text keys: a pair whose key is a number, a truth value
    or [None] has no image here and is taken with the unhashable keys. *)
Fixpoint update_pairs (items : list value) (t : dict) : result dict :=
  match items with
  | [] => Ok t
  | item :: rest =>
      '(k, v) <- update_pair item ;;
      match k with
      | VStr key => update_pairs rest (dict_set key v t)
      | _ => Raise TypeError
      end
  end.

(** [t.update(other)]: a mapping updates key by key, anything else is
    walked as a sequence of pairs. *)
Definition py_update (t : dict) (other : value) : result dict :=
  match other with
  | VDict l => Ok (dict_update t l)
  | _ => items <- py_iter other ;; update_pairs items t
  end.

(** [c[k1][k2] = v]: the inner object is mutated in place, so the outer
    one sees the change. *)
Definition setitem2 (c : value) (k1 k2 : string) (v : value) : result value :=
  inner <- getitem c k1 ;;
  inner' <- setitem inner k2 v ;;
  setitem c k1 inner'.

(** ** Module constants *)

Definition HEAT_VERSION_INCOMPATIBILITY_MAP : list (string * dict) :=
  [("OS::Neutron::Port", [("port_security_enabled", VStr "value_specs")])].

(** [yaml.load(HEAT_TEMPLATE_BASE)] *)
Definition HEAT_TEMPLATE_BASE : dict :=
  [("heat_template_version", VStr "2013-05-23")].

Definition ALARMING_POLICY : string := "tosca.policies.tacker.Alarming".
Definition SCALING_POLICY : string := "tosca.policies.tacker.Scaling".

Definition get_scaling_policy_name (action policy_name : string) : string :=
  (policy_name ++ "_scale_" ++ action)%string.

(** ** The translator object *)

Record TOSCAToHOT : Type := mkTOSCAToHOT {
  vnf : value;
  heatclient : string -> string -> bool;   (* resource_attr_support *)
  attributes : value;
  vnfd_yaml : value;
  unsupported_props : value;
  heat_template_yaml : value;
  monitoring_dict : value;
  fields : value
}.

(** [TOSCAToHOT.__init__] *)
Definition init (vnf : value) (heatclient : string -> string -> bool)
  : TOSCAToHOT :=
  {| vnf := vnf; heatclient := heatclient; attributes := VDict [];
     vnfd_yaml := VNone; unsupported_props := VDict [];
     heat_template_yaml := VNone; monitoring_dict := VNone;
     fields := VNone |}.

Definition set_vnf (self : TOSCAToHOT) (v : value) : TOSCAToHOT :=
  {| vnf := v; heatclient := heatclient self; attributes := attributes self;
     vnfd_yaml := vnfd_yaml self; unsupported_props := unsupported_props self;
     heat_template_yaml := heat_template_yaml self;
     monitoring_dict := monitoring_dict self; fields := fields self |}.

Definition set_unsupported_props (self : TOSCAToHOT) (v : value) : TOSCAToHOT :=
  {| vnf := vnf self; heatclient := heatclient self;
     attributes := attributes self; vnfd_yaml := vnfd_yaml self;
     unsupported_props := v; heat_template_yaml := heat_template_yaml self;
     monitoring_dict := monitoring_dict self; fields := fields self |}.

Definition set_heat_template_yaml (self : TOSCAToHOT) (v : value) : TOSCAToHOT :=
  {| vnf := vnf self; heatclient := heatclient self;
     attributes := attributes self; vnfd_yaml := vnfd_yaml self;
     unsupported_props := unsupported_props self; heat_template_yaml := v;
     monitoring_dict := monitoring_dict self; fields := fields self |}.

Definition set_monitoring_dict (self : TOSCAToHOT) (v : value) : TOSCAToHOT :=
  {| vnf := vnf self; heatclient := heatclient self;
     attributes := attributes self; vnfd_yaml := vnfd_yaml self;
     unsupported_props := unsupported_props self;
     heat_template_yaml := heat_template_yaml self;
     monitoring_dict := v; fields := fields self |}.

Definition set_fields (self : TOSCAToHOT) (v : value) : TOSCAToHOT :=
  {| vnf := vnf self; heatclient := heatclient self;
     attributes := attributes self; vnfd_yaml := vnfd_yaml self;
     unsupported_props := unsupported_props self;
     heat_template_yaml := heat_template_yaml self;
     monitoring_dict := monitoring_dict self; fields := v |}.

(** ** Parameter resolution: [_update_params] *)

(** [for key, value in iteritems(original)], the body being [step].  The
    body may replace the entry it visits; an exception leaves the entries
    not yet visited as they were. *)
Definition iter_items (step : string -> value -> value * result unit)
  : dict -> dict * result unit :=
  fix loop (items : dict) : dict * result unit :=
    match items with
    | [] => ([], Ok tt)
    | (key, v) :: rest =>
        match step key v with
        | (v', Ok _) =>
            let '(rest', r) := loop rest in ((key, v') :: rest', r)
        | (v', Raise e) => ((key, v') :: rest, Raise e)
        end
    end.

(** The loop body of [_update_params]; [rec] is the method itself, for
    its recursive calls.  Of [str(value)] the body reads only whether
    'get_input' occurs in it, which the punctuation that Python puts
    around keys and values does not change. *)
Definition update_params_entry
  (rec : value -> value -> bool -> value * result unit)
  (paramvalues : value) (matched : bool)
  (key : string) (v : value) : value * result unit :=
  match v with
  | VDict vd =>
      if negb (str_in "get_input" (py_str v)) then (v, Ok tt)
      else if negb matched then
        match contains key paramvalues with
        | Raise e => (v, Raise e)
        | Ok false => (v, Raise (InputValuesMissing key))
        | Ok true =>
            match getitem paramvalues key with
            | Raise e => (v, Raise e)
            | Ok sub =>
                match contains "param" sub with
                | Raise e => (v, Raise e)
                | Ok true =>
                    match getitem sub "param" with
                    | Raise e => (v, Raise e)
                    | Ok p => rec v p true
                    end
                | Ok false => rec v sub false
                end
            end
        end
      else if dict_has "get_input" vd then
        match dict_get "get_input" vd with
        | None => (v, Raise (KeyError "get_input"))
        | Some name =>
            match py_in name paramvalues with
            | Raise e => (v, Raise e)
            | Ok true =>
                match py_getitem paramvalues name with
                | Raise e => (v, Raise e)
                | Ok x => (x, Ok tt)
                end
            | Ok false => (v, Raise (InputValuesMissing key))
            end
        end
      else rec v paramvalues true
  | _ => (v, Ok tt)
  end.

(** [_update_params(original, paramvalues, match)].  [original] is mutated
    in place: the function returns it as it stands when the call ends,
    together with the outcome of the call. *)
Fixpoint update_params (original paramvalues : value) (matched : bool)
  {struct original} : value * result unit :=
  match original with
  | VDict items =>
      let '(items', r) :=
        iter_items (update_params_entry update_params paramvalues matched)
                   items in
      (VDict items', r)
  | _ => (original, Raise AttributeError)
  end.

(** ** Port synthesis *)

(** [_make_port_dict] *)
Definition make_port_dict (self : TOSCAToHOT) : dict :=
  let port_dict := [("type", VStr "OS::Neutron::Port")] in
  let properties :=
    if truthy (unsupported_props self)
    then [("value_specs", VDict [("port_security_enabled", VBool false)])]
    else [("port_security_enabled", VBool false)] in
  (* port_dict['properties'].setdefault('fixed_ips', []) *)
  let properties :=
    if dict_has "fixed_ips" properties then properties
    else dict_set "fixed_ips" (VList []) properties in
  dict_set "properties" (VDict properties) port_dict.

(** [_make_mgmt_outputs_dict] *)
Definition make_mgmt_outputs_dict (vdu_id port : string) (template_dict : value)
  : result value :=
  let mgmt_ip := ("mgmt_ip-" ++ vdu_id)%string in
  outputs_dict <- getitem template_dict "outputs" ;;
  outputs_dict <-
    setitem outputs_dict mgmt_ip
      (VDict [("description", VStr "management ip address");
              ("value",
               VDict [("get_attr",
                       VList [VStr port; VStr "fixed_ips"; VInt 0;
                              VStr "ip_address"])])]) ;;
  setitem template_dict "outputs" outputs_dict.

(** [_handle_port_creation].  Both callers pass a dict for
    [network_param] and a list for [ip_list]. *)
Definition handle_port_creation (self : TOSCAToHOT) (vdu_id : string)
  (network_param : dict) (template_dict : value)
  (ip_list : list value) (mgmt_flag : value) : result (string * value) :=
  network <- getitem (VDict network_param) "network" ;;
  let port := (vdu_id ++ "-" ++ py_str network ++ "-port")%string in
  let port_dict := make_port_dict self in
  template_dict <-
    (if truthy mgmt_flag
     then make_mgmt_outputs_dict vdu_id port template_dict
     else Ok template_dict) ;;
  properties <- getitem (VDict port_dict) "properties" ;;
  fixed_ips <- getitem properties "fixed_ips" ;;
  fixed_ips <-
    match fixed_ips with
    | VList l =>
        Ok (VList (l ++ map (fun ip => VDict [("ip_address", ip)]) ip_list))
    | _ => Raise AttributeError
    end ;;
  properties <- setitem properties "fixed_ips" fixed_ips ;;
  properties <-
    match properties with
    | VDict p => Ok (VDict (dict_update p network_param))
    | _ => Raise AttributeError
    end ;;
  let port_dict := dict_set "properties" properties port_dict in
  template_dict <- setitem2 template_dict "resources" port (VDict port_dict) ;;
  Ok (port, template_dict).

(** One turn of the loop of [_process_vdu_network_interfaces]: the spec as
    the pops leave it, the entry appended to [networks_list], and the
    template. *)
Definition network_interface (self : TOSCAToHOT) (vdu_id : string)
  (network_param template_dict : value) : result (value * value * value) :=
  match network_param with
  | VDict np =>
      '(port, np, template_dict) <-
        (if dict_has "addresses" np then
           let '(ip_list, np) := dict_pop "addresses" (VList []) np in
           match ip_list with
           | VList ips =>
               let '(mgmt_flag, np) := dict_pop "management" (VBool false) np in
               '(port, template_dict) <-
                 handle_port_creation self vdu_id np template_dict
                                      ips mgmt_flag ;;
               Ok (Some port, np, template_dict)
           | _ => Raise IPAddrInvalidInput
           end
         else Ok (None, np, template_dict)) ;;
      let '(flag, np) := dict_pop "management" (VBool false) np in
      '(port, template_dict) <-
        (if truthy flag then
           '(port, template_dict) <-
             handle_port_creation self vdu_id np template_dict
                                  [] (VBool true) ;;
           Ok (Some port, template_dict)
         else Ok (port, template_dict)) ;;
      let entry :=
        match port with
        | Some port => [("port", VDict [("get_resource", VStr port)])]
        | None => np
        end in
      Ok (VDict np, VDict entry, template_dict)
  | VStr _ => Raise AttributeError
  | _ => Raise TypeError
  end.

(** The loop of [_process_vdu_network_interfaces] over the interfaces
    [(name, network_param)]: the interfaces as mutated, [networks_list]
    and the template. *)
Fixpoint network_interfaces_loop (self : TOSCAToHOT) (vdu_id : string)
  (interfaces : dict) (networks_list : list value) (template_dict : value)
  : result (dict * list value * value) :=
  match interfaces with
  | [] => Ok ([], networks_list, template_dict)
  | (name, network_param) :: rest =>
      '(network_param, entry, template_dict) <-
        network_interface self vdu_id network_param template_dict ;;
      '(rest, networks_list, template_dict) <-
        network_interfaces_loop self vdu_id rest (networks_list ++ [entry])
                                template_dict ;;
      Ok ((name, network_param) :: rest, networks_list, template_dict)
  end.

(** [_process_vdu_network_interfaces]: [vdu_dict], [properties] and
    [template_dict] as the call leaves them. *)
Definition process_vdu_network_interfaces (self : TOSCAToHOT) (vdu_id : string)
  (vdu_dict : dict) (properties : dict) (template_dict : value)
  : result (dict * dict * value) :=
  let properties := dict_set "networks" (VList []) properties in
  interfaces <- getitem (VDict vdu_dict) "network_interfaces" ;;
  match interfaces with
  | VDict ifs =>
      '(ifs, networks_list, template_dict) <-
        network_interfaces_loop self vdu_id ifs [] template_dict ;;
      Ok (dict_set "network_interfaces" (VDict ifs) vdu_dict,
          dict_set "networks" (VList networks_list) properties,
          template_dict)
  | _ => Raise AttributeError
  end.

(** [_get_unsupported_resource_props], over the incompatibility table. *)
Definition unsupported_of (heat_client : string -> string -> bool)
  (table : list (string * dict)) : dict :=
  fold_left
    (fun unsupported_resource_props entry =>
       let '(res, prop_dict) := entry in
       let unsupported_props :=
         fold_left
           (fun unsupported_props pv =>
              if negb (heat_client res (fst pv))
              then dict_update unsupported_props prop_dict
              else unsupported_props)
           prop_dict [] in
       if truthy (VDict unsupported_props)
       then dict_set res (VDict unsupported_props) unsupported_resource_props
       else unsupported_resource_props)
    table [].

Definition get_unsupported_resource_props (self : TOSCAToHOT)
  (heat_client : string -> string -> bool) : TOSCAToHOT :=
  set_unsupported_props self
    (VDict (unsupported_of heat_client HEAT_VERSION_INCOMPATIBILITY_MAP)).

(** ** Scaling expansion *)

(** [_convert_to_heat_scaling_group] *)
Definition convert_to_heat_scaling_group (policy_prp : value)
  (scale_resource_type : value) (name : string) : result value :=
  let group_hot := [("type", VStr "OS::Heat::AutoScalingGroup")] in
  min_size <- getitem policy_prp "min_instances" ;;
  max_size <- getitem policy_prp "max_instances" ;;
  desired_capacity <- getitem policy_prp "default_instances" ;;
  cooldown <- getitem policy_prp "cooldown" ;;
  let properties :=
    [("min_size", min_size); ("max_size", max_size);
     ("desired_capacity", desired_capacity); ("cooldown", cooldown);
     ("resource", VDict [("type", scale_resource_type)])] in
  Ok (VDict (dict_set "properties" (VDict properties) group_hot)).

(** [_get_scale_group_name] *)
Definition get_scale_group_name (targets : value) : string := "G1".

(** [_convert_to_heat_scaling_policy]: [(resources, scaling_group_names)]. *)
Definition convert_to_heat_scaling_policy (policy_prp : value)
  (scale_resource_type : value) (name : string) : result (dict * dict) :=
  targets <- getitem policy_prp "targets" ;;
  let scale_grp := get_scale_group_name targets in
  let scaling_group_names := dict_set name (VStr scale_grp) [] in
  group <- convert_to_heat_scaling_group policy_prp scale_resource_type
                                         scale_grp ;;
  let resources := dict_set scale_grp group [] in
  let grp_id := VDict [("get_resource", VStr scale_grp)] in
  let policy_hot := [("type", VStr "OS::Heat::ScalingPolicy")] in
  cooldown <- getitem policy_prp "cooldown" ;;
  increment <- getitem policy_prp "increment" ;;
  let properties :=
    [("adjustment_type", VStr "change_in_capacity");
     ("cooldown", cooldown);
     ("scaling_adjustment", increment);
     ("auto_scaling_group_id", grp_id)] in
  let policy_hot := dict_set "properties" (VDict properties) policy_hot in
  (* Add scale_out policy *)
  let resources :=
    dict_set (get_scaling_policy_name "out" name) (VDict policy_hot) resources in
  (* Add scale_in policy *)
  increment <- getitem policy_prp "increment" ;;
  i <- py_int increment ;;
  let in_value := VStr ("-" ++ string_of_Z i) in
  policy_hot_in <-
    setitem2 (VDict policy_hot) "properties" "scaling_adjustment" in_value ;;
  let resources :=
    dict_set (get_scaling_policy_name "in" name) policy_hot_in resources in
  Ok (resources, scaling_group_names).

(** The policy loop of [_generate_hot_scaling], which stops at the first
    scaling policy. *)
Fixpoint scaling_policies_loop (policies : list value)
  (scale_resource_type : value) : result (dict * dict) :=
  match policies with
  | [] => Ok ([], [])
  | policy_dict :: rest =>
      '(name, policy) <- first_item policy_dict ;;
      type <- getitem policy "type" ;;
      if py_eq type (VStr SCALING_POLICY) then
        properties <- getitem policy "properties" ;;
        convert_to_heat_scaling_policy properties scale_resource_type name
      else scaling_policies_loop rest scale_resource_type
  end.

(** [_generate_hot_scaling]:
    [(is_scaling_needed, scaling_group_names, template_dict)]. *)
Definition generate_hot_scaling (vnfd_dict : value)
  (scale_resource_type : value) : result (bool * dict * dict) :=
  let template_dict := HEAT_TEMPLATE_BASE in
  let template_dict :=
    dict_set "description" (VStr "Tacker scaling template") template_dict in
  let template_dict := dict_set "parameters" (VDict []) template_dict in
  has_policies <- contains "policies" vnfd_dict ;;
  '(resources, scaling_group_names) <-
    (if has_policies : bool then
       policies <- getitem vnfd_dict "policies" ;;
       policies <- py_iter policies ;;
       scaling_policies_loop policies scale_resource_type
     else Ok ([], [])) ;;
  let template_dict := dict_set "resources" (VDict resources) template_dict in
  Ok (Nat.ltb 0 (length resources), scaling_group_names, template_dict).

(** ** Alarm expansion *)

(** [_convert_to_heat_monitoring_prop] *)
Definition convert_to_heat_monitoring_prop (mon_policy vnf : value)
  : result value :=
  '(name, mon_policy_dict) <- first_item mon_policy ;;
  triggers <- getitem mon_policy_dict "triggers" ;;
  tpl_trigger_name <- getitem triggers "resize_compute" ;;
  tpl_condition <- getitem tpl_trigger_name "condition" ;;
  meter_name <- getitem tpl_trigger_name "metrics" ;;
  comparison_operator <- getitem tpl_condition "comparison_operator" ;;
  period <- getitem tpl_condition "period" ;;
  evaluation_periods <- getitem tpl_condition "evaluations" ;;
  statistic <- getitem tpl_condition "method" ;;
  description <- getitem tpl_condition "constraint" ;;
  threshold <- getitem tpl_condition "threshold" ;;
  let properties :=
    [("meter_name", meter_name);
     ("comparison_operator", comparison_operator);
     ("period", period);
     ("evaluation_periods", evaluation_periods);
     ("statistic", statistic);
     ("description", description);
     ("threshold", threshold)] in
  (* alarm url process here *)
  vnf_attributes <- getitem vnf "attributes" ;;
  url <- py_get vnf_attributes "alarm_url" VNone ;;
  let alarm_url := VStr (py_str url) in
  if truthy alarm_url
  then Ok (VDict (dict_set "alarm_actions" (VList [alarm_url]) properties))
  else Ok (VDict properties).

(** The policy loop of [_convert_to_heat_monitoring_resource], which stops
    at the first scaling policy: [(mon_policy_hot, sub_heat_dict)]. *)
Fixpoint correlate_loop (policies : list value) (vnf : value)
  (mon_policy_hot sub_heat_dict : value) : result (value * value) :=
  match policies with
  | [] => Ok (mon_policy_hot, sub_heat_dict)
  | policies_item :: rest =>
      '(policy_name, policy_dt) <- first_item policies_item ;;
      type <- getitem policy_dt "type" ;;
      if py_eq type (VStr SCALING_POLICY) then
        vnf_id <- getitem vnf "id" ;;
        let metadata_dict := VDict [("metering.vnf_id", vnf_id)] in
        resources <- getitem sub_heat_dict "resources" ;;
        vdu1 <- getitem resources "VDU1" ;;
        vdu1 <- setitem2 vdu1 "properties" "metadata" metadata_dict ;;
        resources <- setitem resources "VDU1" vdu1 ;;
        sub_heat_dict <- setitem sub_heat_dict "resources" resources ;;
        vnf_id <- getitem vnf "id" ;;
        let matching_metadata_dict :=
          VDict [("metadata.user_metadata.vnf_id", vnf_id)] in
        mon_policy_hot <-
          setitem2 mon_policy_hot "properties" "matching_metadata"
                   matching_metadata_dict ;;
        Ok (mon_policy_hot, sub_heat_dict)
      else correlate_loop rest vnf mon_policy_hot sub_heat_dict
  end.

(** [_convert_to_heat_monitoring_resource]:
    [(mon_policy_hot, sub_heat_dict)]. *)
Definition convert_to_heat_monitoring_resource
  (mon_policy vnf sub_heat_dict topology_tpl_dict : value)
  : result (value * value) :=
  let mon_policy_hot := [("type", VStr "OS::Aodh::Alarm")] in
  properties <- convert_to_heat_monitoring_prop mon_policy vnf ;;
  let mon_policy_hot := VDict (dict_set "properties" properties mon_policy_hot) in
  has_policies <- contains "policies" topology_tpl_dict ;;
  if has_policies : bool then
    policies <- getitem topology_tpl_dict "policies" ;;
    policies <- py_iter policies ;;
    correlate_loop policies vnf mon_policy_hot sub_heat_dict
  else Ok (mon_policy_hot, sub_heat_dict).

(** [heat_dict['resources'].update(alarm_resource)] *)
Definition update_resources (heat_dict : value) (alarm_resource : dict)
  : result value :=
  resources <- getitem heat_dict "resources" ;;
  match resources with
  | VDict r => setitem heat_dict "resources" (VDict (dict_update r alarm_resource))
  | _ => Raise AttributeError
  end.

(** The policy loop of [_generate_hot_alarm_resource], which stops at the
    first alarming policy:
    [(is_enabled_alarm, alarm_resource, heat_dict, sub_heat_dict)]. *)
Fixpoint alarm_policies_loop (policies : list value)
  (vnf topology_tpl_dict heat_dict sub_heat_dict : value)
  : result (bool * dict * value * value) :=
  match policies with
  | [] => Ok (false, [], heat_dict, sub_heat_dict)
  | policy_dict :: rest =>
      '(name, policy_tpl_dict) <- first_item policy_dict ;;
      type <- getitem policy_tpl_dict "type" ;;
      if py_eq type (VStr ALARMING_POLICY) then
        '(mon_policy_hot, sub_heat_dict) <-
          convert_to_heat_monitoring_resource policy_dict vnf sub_heat_dict
                                              topology_tpl_dict ;;
        let alarm_resource := dict_set name mon_policy_hot [] in
        heat_dict <- update_resources heat_dict alarm_resource ;;
        Ok (true, alarm_resource, heat_dict, sub_heat_dict)
      else alarm_policies_loop rest vnf topology_tpl_dict
                               heat_dict sub_heat_dict
  end.

Section Externals.

(** The YAML and JSON libraries and the TOSCA parser's loader are outside
    the translator.  [yaml_load] is [None] where [yaml.load] raises. *)
Variable yaml_load : string -> option value.
Variable yaml_dump : value -> string.
Variable json_dumps : value -> string.
Variable simple_ordered_parse : value -> result value.

(** [_generate_hot_alarm_resource]: the object, whose
    [heat_template_yaml] is rewritten, and
    [(is_enabled_alarm, alarm_resource, sub_heat_tpl_yaml)]. *)
Definition generate_hot_alarm_resource (self : TOSCAToHOT)
  (topology_tpl_dict : value) : result (TOSCAToHOT * (bool * dict * value)) :=
  let heat_tpl := heat_template_yaml self in
  heat_dict <- simple_ordered_parse heat_tpl ;;
  let sub_heat_dict := heat_dict in
  has_policies <- contains "policies" topology_tpl_dict ;;
  '(is_enabled_alarm, alarm_resource, heat_dict, sub_heat_dict) <-
    (if has_policies : bool then
       policies <- getitem topology_tpl_dict "policies" ;;
       policies <- py_iter policies ;;
       alarm_policies_loop policies (vnf self) topology_tpl_dict
                           heat_dict sub_heat_dict
     else Ok (false, [], heat_dict, sub_heat_dict)) ;;
  let self := set_heat_template_yaml self (VStr (yaml_dump heat_dict)) in
  let sub_heat_tpl_yaml := VStr (yaml_dump sub_heat_dict) in
  Ok (self, (is_enabled_alarm, alarm_resource, sub_heat_tpl_yaml)).

(** [vnf['attributes'][k] = v] *)
Definition set_attribute (vnf : value) (k : string) (v : value) : result value :=
  setitem2 vnf "attributes" k v.

(** [_handle_scaling] *)
Definition handle_scaling (self : TOSCAToHOT) (vnfd_dict : value)
  : result TOSCAToHOT :=
  let vnf := vnf self in
  topology <- getitem vnfd_dict "topology_template" ;;
  '(is_scaling_needed, scaling_group_names, main_dict) <-
    generate_hot_scaling topology (VStr "scaling.yaml") ;;
  topology <- getitem vnfd_dict "topology_template" ;;
  '(self, (is_enabled_alarm, alarm_resource, sub_heat_tpl_yaml)) <-
    generate_hot_alarm_resource self topology ;;
  self <-
    (if (is_enabled_alarm && negb is_scaling_needed)%bool then
       fields <- setitem (fields self) "template" (heat_template_yaml self) ;;
       Ok (set_fields self fields)
     else Ok self) ;;
  if is_scaling_needed : bool then
    main_dict <-
      (if is_enabled_alarm : bool
       then update_resources (VDict main_dict) alarm_resource
       else Ok (VDict main_dict)) ;;
    let main_yaml := VStr (yaml_dump main_dict) in
    fields <- setitem (fields self) "template" main_yaml ;;
    fields <-
      setitem fields "files"
        (VDict [("scaling.yaml",
                 if is_enabled_alarm : bool then sub_heat_tpl_yaml
                 else heat_template_yaml self)]) ;;
    let self := set_fields self fields in
    vnf <- set_attribute vnf "heat_template" main_yaml ;;
    vnf <- set_attribute vnf "scaling.yaml" (heat_template_yaml self) ;;
    vnf <- set_attribute vnf "scaling_group_names"
             (VStr (json_dumps (VDict scaling_group_names))) ;;
    Ok (set_vnf self vnf)
  else
    vnf_attributes <- getitem vnf "attributes" ;;
    heat_template <- py_get vnf_attributes "heat_template" VNone ;;
    if negb (truthy heat_template) then
      template <- getitem (fields self) "template" ;;
      vnf <- set_attribute vnf "heat_template" template ;;
      Ok (set_vnf self vnf)
    else Ok (set_vnf self vnf).

(** ** Legacy translation *)

(** [_process_parameterized_input]: [vnfd_dict] as resolved.  The [pop]
    of a list takes no default, and the other documents have no [pop]. *)
Definition process_parameterized_input (dev_attrs vnfd_dict : value)
  : result value :=
  match dev_attrs with
  | VDict da =>
      let '(param_vattrs_yaml, da) := dict_pop "param_values" VNone da in
      if truthy param_vattrs_yaml then
        match match param_vattrs_yaml with
              | VStr s => yaml_load s
              | _ => None
              end with
        | None => Raise ParamYAMLNotWellFormed
        | Some param_vattrs_dict =>
            let '(vnfd_dict, r) :=
              update_params vnfd_dict param_vattrs_dict false in
            _ <- r ;;
            Ok vnfd_dict
        end
      else Raise ParamYAMLInputMissing
  | VList _ => Raise TypeError
  | _ => Raise AttributeError
  end.

(** [template_dict.setdefault('resources', {})[vdu_id] = {"type": ...}] *)
Definition add_server (template_dict : value) (vdu_id : string) : result value :=
  match template_dict with
  | VDict td =>
      let resources :=
        match dict_get "resources" td with
        | Some r => r
        | None => VDict []
        end in
      resources <-
        setitem resources vdu_id (VDict [("type", VStr "OS::Nova::Server")]) ;;
      Ok (VDict (dict_set "resources" resources td))
  | _ => Raise AttributeError
  end.

(** The unit loop's body up to the network interfaces: [vdu_dict] as a
    dict, the unit's [properties], and the template. *)
Definition vdu_server (self : TOSCAToHOT) (vdu_id : string)
  (vdu_dict template_dict : value) : result (dict * dict * value) :=
  template_dict <- add_server template_dict vdu_id ;;
  image <- getitem vdu_dict "vm_image" ;;
  flavor <- getitem vdu_dict "instance_type" ;;
  let properties := [("image", image); ("flavor", flavor)] in
  match vdu_dict with
  | VDict vd =>
      if dict_has "network_interfaces" vd
      then process_vdu_network_interfaces self vdu_id vd properties
                                          template_dict
      else Ok (vd, properties, template_dict)
  | _ => Raise TypeError
  end.

(** The user-data fields of the unit loop's body. *)
Definition vdu_user_data (vdu_dict properties : dict) : result dict :=
  if (dict_has "user_data" vdu_dict
      && dict_has "user_data_format" vdu_dict)%bool then
    user_data_format <- getitem (VDict vdu_dict) "user_data_format" ;;
    let properties := dict_set "user_data_format" user_data_format properties in
    user_data <- getitem (VDict vdu_dict) "user_data" ;;
    Ok (dict_set "user_data" user_data properties)
  else if (dict_has "user_data" vdu_dict
           || dict_has "user_data_format" vdu_dict)%bool then
    Raise UserDataFormatNotFound
  else Ok properties.

(** [for key, value in metadata.items(): metadata[key] = value[:255]] *)
Fixpoint truncate_metadata (metadata : dict) : result dict :=
  match metadata with
  | [] => Ok []
  | (key, v) :: rest =>
      v <- py_slice_to 255 v ;;
      rest <- truncate_metadata rest ;;
      Ok ((key, v) :: rest)
  end.

(** Placement, config drive and key name of the unit loop's body.  The
    [update] method of the metadata is looked up before the config is
    read. *)
Definition vdu_placement_config_key (vdu_dict properties : dict) : result dict :=
  properties <-
    (if dict_has "placement_policy" vdu_dict then
       placement_policy <- getitem (VDict vdu_dict) "placement_policy" ;;
       has_zone <- contains "availability_zone" placement_policy ;;
       if has_zone : bool then
         zone <- getitem placement_policy "availability_zone" ;;
         Ok (dict_set "availability_zone" zone properties)
       else Ok properties
     else Ok properties) ;;
  properties <-
    (if dict_has "config" vdu_dict then
       let properties := dict_set "config_drive" (VBool true) properties in
       let metadata :=
         match dict_get "metadata" properties with
         | Some m => m
         | None => VDict []
         end in
       match metadata with
       | VDict m =>
           config <- getitem (VDict vdu_dict) "config" ;;
           m <- py_update m config ;;
           m <- truncate_metadata m ;;
           Ok (dict_set "metadata" (VDict m) properties)
       | _ => Raise AttributeError
       end
     else Ok properties) ;;
  if dict_has "key_name" vdu_dict then
    key_name <- getitem (VDict vdu_dict) "key_name" ;;
    Ok (dict_set "key_name" key_name properties)
  else Ok properties.

(** The monitoring part of the unit loop's body: [vdu_dict] and
    [monitoring_dict]. *)
Definition vdu_monitoring (vdu_id : string) (vdu_dict monitoring_dict : dict)
  : result (dict * dict) :=
  monitoring_policy <- py_get (VDict vdu_dict) "monitoring_policy" (VStr "noop") ;;
  failure_policy <- py_get (VDict vdu_dict) "failure_policy" (VStr "noop") ;;
  (* Convert the old monitoring specification to the new network. *)
  let vdu_dict :=
    if (py_eq monitoring_policy (VStr "ping")
        && py_eq failure_policy (VStr "respawn"))%bool
    then dict_del "failure_policy"
           (dict_set "monitoring_policy"
              (VDict [("ping",
                       VDict [("actions",
                               VDict [("failure", VStr "respawn")])])])
              vdu_dict)
    else vdu_dict in
  if negb (py_eq monitoring_policy (VStr "noop")) then
    let monitoring_dict := dict_set "vdus" (VDict []) monitoring_dict in
    policy <- getitem (VDict vdu_dict) "monitoring_policy" ;;
    monitoring_dict <- setitem2 (VDict monitoring_dict) "vdus" vdu_id policy ;;
    match monitoring_dict with
    | VDict m => Ok (vdu_dict, m)
    | _ => Raise TypeError
    end
  else Ok (vdu_dict, monitoring_dict).

(** [self.vnf.setdefault('attributes', {})[vdu_id] =
     jsonutils.dumps({key: vdu_dict[key]})] for [key = 'service_type'] *)
Definition vdu_service_type (self : TOSCAToHOT) (vdu_id : string)
  (vdu_dict : dict) : result TOSCAToHOT :=
  if dict_has "service_type" vdu_dict then
    service_type <- getitem (VDict vdu_dict) "service_type" ;;
    match vnf self with
    | VDict v =>
        let vnf_attributes :=
          match dict_get "attributes" v with
          | Some a => a
          | None => VDict []
          end in
        vnf_attributes <-
          setitem vnf_attributes vdu_id
            (VStr (json_dumps (VDict [("service_type", service_type)]))) ;;
        Ok (set_vnf self (VDict (dict_set "attributes" vnf_attributes v)))
    | _ => Raise AttributeError
    end
  else Ok self.

(** The locals that the unit loop of [_generate_hot_from_legacy] carries
    from one unit to the next.  [l_heat_template_yaml] is [None] until the
    loop body has bound the variable. *)
Record legacy_locals : Type := mkLocals {
  l_self : TOSCAToHOT;
  l_template_dict : value;
  l_monitoring_dict : dict;
  l_heat_template_yaml : option string
}.

(** The body of the unit loop.  [properties] is the dict held by
    [template_dict['resources'][vdu_id]], which the ports added in between
    do not replace (a port name is longer than the unit's name); the
    template shows the final content of [properties] when it is dumped. *)
Definition legacy_vdu (st : legacy_locals) (vdu_id : string) (vdu_dict : value)
  : result legacy_locals :=
  '(vdu_dict, properties, template_dict) <-
    vdu_server (l_self st) vdu_id vdu_dict (l_template_dict st) ;;
  properties <- vdu_user_data vdu_dict properties ;;
  properties <- vdu_placement_config_key vdu_dict properties ;;
  '(vdu_dict, monitoring_dict) <-
    vdu_monitoring vdu_id vdu_dict (l_monitoring_dict st) ;;
  (* to pass necessary parameters to plugin upwards. *)
  self <- vdu_service_type (l_self st) vdu_id vdu_dict ;;
  template_dict <-
    setitem2 template_dict "resources" vdu_id
      (VDict [("type", VStr "OS::Nova::Server");
              ("properties", VDict properties)]) ;;
  Ok {| l_self := self;
        l_template_dict := template_dict;
        l_monitoring_dict := monitoring_dict;
        l_heat_template_yaml := Some (yaml_dump template_dict) |}.

(** [for vdu_id, vdu_dict in vnfd_dict.get('vdus', {}).items()] *)
Fixpoint legacy_loop (vdus : dict) (st : legacy_locals) : result legacy_locals :=
  match vdus with
  | [] => Ok st
  | (vdu_id, vdu_dict) :: rest =>
      st <- legacy_vdu st vdu_id vdu_dict ;;
      legacy_loop rest st
  end.

(** [_generate_hot_from_legacy] before the unit loop: the descriptor as
    resolved and the template. *)
Definition legacy_prelude (self : TOSCAToHOT) (vnfd_dict dev_attrs : value)
  : result (value * value) :=
  has_template <- contains "template" (fields self) ;;
  if has_template : bool then Raise AssertionError else
  has_template_url <- contains "template_url" (fields self) ;;
  if has_template_url : bool then Raise AssertionError else
  let template_dict := dict_set "outputs" (VDict []) HEAT_TEMPLATE_BASE in
  has_input <- contains "get_input" (vnfd_yaml self) ;;
  vnfd_dict <-
    (if has_input : bool
     then process_parameterized_input dev_attrs vnfd_dict
     else Ok vnfd_dict) ;;
  has_description <- contains "description" vnfd_dict ;;
  template_dict <-
    (if has_description : bool then
       description <- getitem vnfd_dict "description" ;;
       Ok (dict_set "description" description template_dict)
     else Ok template_dict) ;;
  Ok (vnfd_dict, VDict template_dict).

(** [_generate_hot_from_legacy] *)
Definition generate_hot_from_legacy (self : TOSCAToHOT)
  (vnfd_dict dev_attrs : value) : result TOSCAToHOT :=
  '(vnfd_dict, template_dict) <- legacy_prelude self vnfd_dict dev_attrs ;;
  vdus <- py_get vnfd_dict "vdus" (VDict []) ;;
  match vdus with
  | VDict units =>
      st <- legacy_loop units
              {| l_self := self; l_template_dict := template_dict;
                 l_monitoring_dict := []; l_heat_template_yaml := None |} ;;
      match l_heat_template_yaml st with
      | None => Raise (UnboundLocalError "heat_template_yaml")
      | Some heat_template_yaml =>
          Ok (set_monitoring_dict
                (set_heat_template_yaml (l_self st) (VStr heat_template_yaml))
                (VDict (l_monitoring_dict st)))
      end
  | _ => Raise AttributeError
  end.

(** ** Descriptor and fields: [_get_vnfd], [_update_fields] *)

(** [jsonutils.loads], which is outside the translator. *)
Variable json_loads : value -> result value.

Definition set_attributes (self : TOSCAToHOT) (v : value) : TOSCAToHOT :=
  {| vnf := vnf self; heatclient := heatclient self; attributes := v;
     vnfd_yaml := vnfd_yaml self; unsupported_props := unsupported_props self;
     heat_template_yaml := heat_template_yaml self;
     monitoring_dict := monitoring_dict self; fields := fields self |}.

Definition set_vnfd_yaml (self : TOSCAToHOT) (v : value) : TOSCAToHOT :=
  {| vnf := vnf self; heatclient := heatclient self;
     attributes := attributes self; vnfd_yaml := v;
     unsupported_props := unsupported_props self;
     heat_template_yaml := heat_template_yaml self;
     monitoring_dict := monitoring_dict self; fields := fields self |}.

(** [d.copy()]: dicts and lists have one; the copy is the same document. *)
Definition py_copy (d : value) : result value :=
  match d with
  | VDict _ | VList _ => Ok d
  | _ => Raise AttributeError
  end.

(** [d.pop(key)]: the popped value and [d] without it.  A list pops by
    position, so that a text key is a type error; the other documents have
    no [pop]. *)
Definition py_pop (d : value) (key : string) : result (value * value) :=
  match d with
  | VDict x =>
      match dict_get key x with
      | Some v => Ok (v, VDict (dict_del key x))
      | None => Raise (KeyError key)
      end
  | VList _ => Raise TypeError
  | _ => Raise AttributeError
  end.

(** [_get_vnfd].  The attributes of the descriptor are copied, so the
    service record keeps its own.  The copy of a list has no
    [pop(key, default)]. *)
Definition get_vnfd (self : TOSCAToHOT) : result TOSCAToHOT :=
  vnfd <- getitem (vnf self) "vnfd" ;;
  vnfd_attributes <- getitem vnfd "attributes" ;;
  attributes <- py_copy vnfd_attributes ;;
  match attributes with
  | VDict a =>
      let '(vnfd_yaml, a) := dict_pop "vnfd" VNone a in
      Ok (set_vnfd_yaml (set_attributes self (VDict a)) vnfd_yaml)
  | _ => Raise TypeError
  end.

(** [dict((key, d.pop(key)) for key in keys if key in d)]: the dict made
    of the popped entries, and [d] without them. *)
Fixpoint pop_present (keys : list string) (d : value) : result (dict * value) :=
  match keys with
  | [] => Ok ([], d)
  | key :: rest =>
      found <- contains key d ;;
      if found then
        '(v, d) <- py_pop d key ;;
        '(taken, d) <- pop_present rest d ;;
        Ok ((key, v) :: taken, d)
      else pop_present rest d
  end.

(** [for key in keys: if key in attributes:
       fields[key] = jsonutils.loads(attributes.pop(key))] *)
Fixpoint load_keys (keys : list string) (fields : dict) (attributes : value)
  : result (dict * value) :=
  match keys with
  | [] => Ok (fields, attributes)
  | key :: rest =>
      found <- contains key attributes ;;
      if found then
        '(v, attributes) <- py_pop attributes key ;;
        loaded <- json_loads v ;;
        load_keys rest (dict_set key loaded fields) attributes
      else load_keys rest fields attributes
  end.

(** [for key in keys: if key in dev_attrs:
       fields.setdefault(key, {}).update(jsonutils.loads(dev_attrs.pop(key)))].
    The [update] method of the target is looked up before its argument is
    evaluated. *)
Fixpoint merge_keys (keys : list string) (fields : dict) (dev_attrs : value)
  : result (dict * value) :=
  match keys with
  | [] => Ok (fields, dev_attrs)
  | key :: rest =>
      found <- contains key dev_attrs ;;
      if found then
        match (match dict_get key fields with
               | Some target => target
               | None => VDict []
               end) with
        | VDict target =>
            '(v, dev_attrs) <- py_pop dev_attrs key ;;
            loaded <- json_loads v ;;
            merged <- py_update target loaded ;;
            merge_keys rest (dict_set key (VDict merged) fields) dev_attrs
        | _ => Raise AttributeError
        end
      else merge_keys rest fields dev_attrs
  end.

(** [_update_fields]: the translator and the returned [dev_attrs]. *)
Definition update_fields (self : TOSCAToHOT) : result (TOSCAToHOT * value) :=
  let attributes := attributes self in
  '(fields, attributes) <-
    pop_present ["stack_name"; "template_url"; "template"] attributes ;;
  '(fields, attributes) <-
    load_keys ["files"; "parameters"] fields attributes ;;
  (* overwrite parameters with given dev_attrs for vnf creation *)
  vnf_attributes <- getitem (vnf self) "attributes" ;;
  dev_attrs <- py_copy vnf_attributes ;;
  '(taken, dev_attrs) <-
    pop_present ["stack_name"; "template_url"; "template"] dev_attrs ;;
  let fields := dict_update fields taken in
  '(fields, dev_attrs) <-
    merge_keys ["files"; "parameters"] fields dev_attrs ;;
  Ok (set_fields (set_attributes self attributes) (VDict fields), dev_attrs).

(** * Vocabulary of the properties, and sample inputs *)

(** The [scaling_adjustment] of the policy resource that scaling
    expansion emits for [action] ("out" or "in"). *)
Definition scaling_adjustment_of (action name : string)
  (r : result (dict * dict)) : option value :=
  match r with
  | Ok (resources, _) =>
      match dict_get (get_scaling_policy_name action name) resources with
      | Some (VDict policy_hot) =>
          match dict_get "properties" policy_hot with
          | Some (VDict properties) => dict_get "scaling_adjustment" properties
          | _ => None
          end
      | _ => None
      end
  | Raise _ => None
  end.

Definition SP1_properties (increment : value) : value :=
  VDict [("min_instances", VInt 1); ("max_instances", VInt 3);
         ("default_instances", VInt 1); ("cooldown", VInt 60);
         ("increment", increment); ("targets", VList [VStr "VDU1"])].

(** A descriptor with two units that both take an input, and caller
    values for the first unit only. *)
Definition two_unit_items : dict :=
  [("vdus",
    VDict [("vdu1", VDict [("vm_image", VDict [("get_input", VStr "image")])]);
           ("vdu2", VDict [("vm_image", VDict [("get_input", VStr "image")])])])].

Definition two_unit_descriptor : value := VDict two_unit_items.

(** The same descriptor once resolution has failed on it. *)
Definition two_unit_descriptor_after : value :=
  VDict [("vdus",
          VDict [("vdu1", VDict [("vm_image", VStr "cirros")]);
                 ("vdu2", VDict [("vm_image",
                                  VDict [("get_input", VStr "image")])])])].

Definition first_unit_values : value :=
  VDict [("vdus",
          VDict [("vdu1", VDict [("param", VDict [("image", VStr "cirros")])])])].

(** The substitute that the Unsupported-Property Map records for a
    property of a resource type, if it records one. *)
Definition substitute_of (unsupported_props : value) (res prop : string)
  : option value :=
  match unsupported_props with
  | VDict m =>
      match dict_get res m with
      | Some (VDict p) => dict_get prop p
      | _ => None
      end
  | _ => None
  end.

(** The key under which a run switches port security off, as its
    Unsupported-Property Map gives it: the substitute that the map records
    for the property on the port resource type, or the property itself
    when the map records none. *)
Definition port_security_key (self : TOSCAToHOT) : string :=
  match substitute_of (unsupported_props self)
                      "OS::Neutron::Port" "port_security_enabled" with
  | Some (VStr key) => key
  | _ => "port_security_enabled"
  end.

(** The value that switches port security off under that key. *)
Definition port_security_off (self : TOSCAToHOT) : value :=
  match substitute_of (unsupported_props self)
                      "OS::Neutron::Port" "port_security_enabled" with
  | Some (VStr _) => VDict [("port_security_enabled", VBool false)]
  | _ => VBool false
  end.

(** The number of resources in a template. *)
Definition resource_count (template_dict : value) : nat :=
  match template_dict with
  | VDict td =>
      match dict_get "resources" td with
      | Some (VDict r) => length r
      | _ => 0%nat
      end
  | _ => 0%nat
  end.

Definition cpu_alarm_policy : value :=
  VDict [("vdu_hcpu_usage_scaling_out",
          VDict [("type", VStr ALARMING_POLICY);
                 ("triggers",
                  VDict [("resize_compute",
                          VDict [("event_type", VStr "threshold");
                                 ("metrics", VStr "cpu_util");
                                 ("condition",
                                  VDict [("threshold", VInt 50);
                                         ("constraint",
                                          VStr "utilization greater_than 50%");
                                         ("period", VInt 600);
                                         ("evaluations", VInt 1);
                                         ("method", VStr "avg");
                                         ("comparison_operator", VStr "gt")]);
                                 ("action", VList [VStr "SP1"])])])])].

Definition vnf_without_alarm_url : value :=
  VDict [("id", VStr "vnf-1"); ("attributes", VDict [])].

(** [alarm_actions] of the properties that alarm expansion computes. *)
Definition alarm_actions_of (r : result value) : option value :=
  match r with
  | Ok (VDict properties) => dict_get "alarm_actions" properties
  | _ => None
  end.

(** [v[k1][k2]...] *)
Fixpoint getpath (v : value) (path : list string) : result value :=
  match path with
  | [] => Ok v
  | k :: rest => x <- getitem v k ;; getpath x rest
  end.

(** The type of a policy entry of a topology, as the policy loops read
    it. *)
Definition policy_type (policy_dict : value) : result value :=
  '(name, policy) <- first_item policy_dict ;;
  getitem policy "type".


(** A legacy descriptor whose unit collection is absent or empty. *)
Definition has_no_units (vnfd_dict : value) : bool :=
  match vnfd_dict with
  | VDict d =>
      match dict_get "vdus" d with
      | None => true
      | Some (VDict []) => true
      | Some _ => false
      end
  | _ => false
  end.

Definition ping_unit : value :=
  VDict [("vm_image", VStr "cirros"); ("instance_type", VStr "m1.tiny");
         ("monitoring_policy", VStr "ping");
         ("failure_policy", VStr "respawn")].

Definition two_monitored_units : value :=
  VDict [("vdus", VDict [("vdu1", ping_unit); ("vdu2", ping_unit)])].

Definition legacy_translator : TOSCAToHOT :=
  {| vnf := VDict [("id", VStr "vnf-1"); ("attributes", VDict [])];
     heatclient := fun _ _ => true;
     attributes := VDict [];
     vnfd_yaml := VStr "vdus: {vdu1: {}, vdu2: {}}";
     unsupported_props := VDict [];
     heat_template_yaml := VNone;
     monitoring_dict := VNone;
     fields := VDict [] |}.

Definition monitoring_of (r : result TOSCAToHOT) : result value :=
  self <- r ;; Ok (monitoring_dict self).

(** A property of the compute resource of a unit in a template. *)
Definition resource_property (template_dict : value) (vdu_id prop : string)
  : result value :=
  getpath template_dict ["resources"; vdu_id; "properties"; prop].

(** Stand-ins for the libraries in the instances that close the file:
    [repr] as the serializer, a loader that rejects every text, and a
    parser that answers with one template. *)
Definition repr_dump (v : value) : string := py_repr v.
Definition no_yaml (s : string) : option value := None.

Definition flat_template : value :=
  VDict [("heat_template_version", VStr "2013-05-23");
         ("resources",
          VDict [("VDU1",
                  VDict [("type", VStr "OS::Nova::Server");
                         ("properties",
                          VDict [("image", VStr "cirros");
                                 ("flavor", VStr "m1.tiny")])])])].

Definition parse_flat (v : value) : result value := Ok flat_template.

Definition mgmt_interface : dict :=
  [("network", VStr "net_mgmt"); ("management", VBool true);
   ("addresses", VList [VStr "10.0.0.5"])].

Definition empty_template : value :=
  VDict [("heat_template_version", VStr "2013-05-23");
         ("outputs", VDict []); ("resources", VDict [])].


Definition translated : TOSCAToHOT :=
  {| vnf := VDict [("id", VStr "vnf-1");
                   ("attributes", VDict [("heat_template", VStr "persisted")])];
     heatclient := fun _ _ => true;
     attributes := VDict [];
     vnfd_yaml := VStr "tosca_definitions_version: tosca_simple_profile_for_nfv_1_0_0";
     unsupported_props := VDict [];
     heat_template_yaml := VStr "fresh";
     monitoring_dict := VDict [];
     fields := VDict [("template", VStr "fresh")] |}.

Definition plain_vnfd : value :=
  VDict [("tosca_definitions_version",
          VStr "tosca_simple_profile_for_nfv_1_0_0");
         ("topology_template", VDict [("node_templates", VDict [])])].

Definition no_unit_vnfd : value :=
  VDict [("description", VStr "empty"); ("vdus", VDict [])].

Definition lone_user_data_unit : dict :=
  [("vm_image", VStr "cirros"); ("instance_type", VStr "m1.tiny");
   ("user_data", VStr "#!/bin/sh")].

Definition complete_user_data_unit : dict :=
  [("vm_image", VStr "cirros"); ("instance_type", VStr "m1.tiny");
   ("user_data", VStr "#!/bin/sh"); ("user_data_format", VStr "RAW")].

Definition plain_unit : dict :=
  [("vm_image", VStr "cirros"); ("instance_type", VStr "m1.tiny")].

(** A unit with a lone user-data field and no image, and a unit with both
    user-data fields whose config holds a number. *)
Definition imageless_unit : dict := [("user_data", VStr "#!/bin/sh")].

Definition numeric_config_unit : dict :=
  [("vm_image", VStr "cirros"); ("instance_type", VStr "m1.tiny");
   ("user_data", VStr "#!/bin/sh"); ("user_data_format", VStr "RAW");
   ("config", VDict [("retries", VInt 5)])].

(** A management interface whose spec switches port security on, directly
    and through the compatibility property. *)
Definition open_interface_unit : dict :=
  [("network_interfaces",
    VDict [("management",
            VDict [("network", VStr "net_mgmt"); ("management", VBool true);
                   ("port_security_enabled", VBool true)])])].

Definition open_compat_interface_unit : dict :=
  [("network_interfaces",
    VDict [("management",
            VDict [("network", VStr "net_mgmt"); ("management", VBool true);
                   ("value_specs",
                    VDict [("port_security_enabled", VBool true)])])])].



Definition first_unit_locals : legacy_locals :=
  {| l_self := legacy_translator;
     l_template_dict :=
       VDict [("heat_template_version", VStr "2013-05-23");
              ("outputs", VDict [])];
     l_monitoring_dict := [];
     l_heat_template_yaml := None |}.

(** ** Vocabulary of the further properties *)

(** An entry that [_update_params] passes over: its value is no dict, or
    'get_input' does not occur in the text of the dict. *)
Definition resolved_entry (e : string * value) : bool :=
  match snd e with
  | VDict _ => negb (str_in "get_input" (py_str (snd e)))
  | _ => true
  end.

(** An entry that is passed over, or whose value is a placeholder
    [{get_input: name}] for a name that the values [p] hold. *)
Definition direct_placeholder (p : dict) (e : string * value) : bool :=
  (resolved_entry e ||
   match snd e with
   | VDict vd =>
       match dict_get "get_input" vd with
       | Some (VStr name) => dict_has name p
       | _ => false
       end
   | _ => false
   end)%bool.

(** The entry with its placeholder replaced by the value of its name in
    [p]. *)
Definition substitute_entry (p : dict) (e : string * value) : string * value :=
  if resolved_entry e then e
  else match snd e with
       | VDict vd =>
           match dict_get "get_input" vd with
           | Some (VStr name) =>
               match dict_get name p with
               | Some x => (fst e, x)
               | None => e
               end
           | _ => e
           end
       | _ => e
       end.

Definition resolved_descriptor : dict :=
  [("description", VStr "demo");
   ("vdus", VDict [("vdu1", VDict [("vm_image", VStr "cirros")])])].

Definition flat_placeholders : dict :=
  [("vm_image", VDict [("get_input", VStr "image")]);
   ("instance_type", VStr "m1.tiny");
   ("key_name", VDict [("get_input", VStr "key")])].

Definition flat_values : dict :=
  [("image", VStr "cirros"); ("key", VStr "admin")].

(** The resource that [_handle_port_creation] puts into the template. *)
Definition port_name (vdu_id : string) (network : value) : string :=
  (vdu_id ++ "-" ++ py_str network ++ "-port")%string.

Definition fixed_ips_of (ip_list : list value) : value :=
  VList (map (fun ip => VDict [("ip_address", ip)]) ip_list).

Definition mgmt_output (port : string) : value :=
  VDict [("description", VStr "management ip address");
         ("value",
          VDict [("get_attr",
                  VList [VStr port; VStr "fixed_ips"; VInt 0;
                         VStr "ip_address"])])].

Definition data_interface : dict :=
  [("network", VStr "net0"); ("vnic_type", VStr "direct")].

(** A policy entry of a topology that is well formed and not of [type]. *)
Definition other_policy (type : string) (policy_dict : value) : Prop :=
  exists t, policy_type policy_dict = Ok t /\ py_eq t (VStr type) = false.

(** The main template of a topology without scaling policy. *)
Definition scaling_template_without_resources : dict :=
  [("heat_template_version", VStr "2013-05-23");
   ("description", VStr "Tacker scaling template");
   ("parameters", VDict []);
   ("resources", VDict [])].

Definition placement_policy_entry : value :=
  VDict [("SP0", VDict [("type", VStr "tosca.policies.Placement")])].

Definition SP1_policy (increment : value) : value :=
  VDict [("SP1", VDict [("type", VStr SCALING_POLICY);
                        ("properties", SP1_properties increment)])].

Definition vnf_with_alarm_url : value :=
  VDict [("id", VStr "vnf-1");
         ("attributes", VDict [("alarm_url", VStr "http://host/alarm")])].

(** The structured form of the legacy pair [monitoring_policy: ping],
    [failure_policy: respawn]. *)
Definition ping_respawn : value :=
  VDict [("ping", VDict [("actions", VDict [("failure", VStr "respawn")])])].

(** What [value[:255]] cannot slice. *)
Definition unsliceable (v : value) : bool :=
  match v with
  | VStr _ | VList _ => false
  | _ => true
  end.

Definition configured_unit : dict :=
  [("vm_image", VStr "cirros"); ("instance_type", VStr "m1.tiny");
   ("config", VDict [("param0", VStr "key0"); ("param1", VStr "key1")]);
   ("service_type", VStr "firewall")].

(** Stand-in for the JSON loader in the instances: three known texts. *)
Definition sample_loads (v : value) : result value :=
  match v with
  | VStr "A" => Ok (VDict [("flavor", VStr "small"); ("zone", VStr "nova")])
  | VStr "B" => Ok (VDict [("flavor", VStr "large")])
  | VStr "C" => Ok (VList [VStr "user_data.sh"])
  | _ => Raise ValueError
  end.

Definition descriptor_attributes : dict :=
  [("vnfd", VStr "vdus: {}"); ("stack_name", VStr "from_descriptor");
   ("parameters", VStr "A"); ("service_type", VStr "firewall")].

Definition record_attributes : dict :=
  [("stack_name", VStr "from_record"); ("parameters", VStr "B");
   ("param_values", VStr "vdus: {}")].

Definition recorded_vnf (attrs : dict) : value :=
  VDict [("id", VStr "vnf-1");
         ("attributes", VDict attrs);
         ("vnfd", VDict [("attributes", VDict descriptor_attributes)])].

Definition fresh_translator (attrs : dict) : TOSCAToHOT :=
  init (recorded_vnf attrs) (fun _ _ => true).

Definition scaling_vnfd : value :=
  VDict [("tosca_definitions_version",
          VStr "tosca_simple_profile_for_nfv_1_0_0");
         ("topology_template",
          VDict [("policies", VList [SP1_policy (VInt 1); cpu_alarm_policy])])].

Definition input_translator : TOSCAToHOT :=
  {| vnf := VDict [("id", VStr "vnf-1"); ("attributes", VDict [])];
     heatclient := fun _ _ => true;
     attributes := VDict [];
     vnfd_yaml := VStr "vdus: {vdu1: {vm_image: {get_input: image}}}";
     unsupported_props := VDict [];
     heat_template_yaml := VNone;
     monitoring_dict := VNone;
     fields := VDict [] |}.

Definition described_translator (record : dict) : TOSCAToHOT :=
  set_vnfd_yaml
    (set_attributes (fresh_translator record)
                    (VDict (dict_del "vnfd" descriptor_attributes)))
    (VStr "vdus: {}").

Definition alarm_only_topology : dict :=
  [("policies", VList ([placement_policy_entry] ++ [cpu_alarm_policy]))].

Definition described_unit_vnfd : value :=
  VDict [("description", VStr "demo");
         ("vdus", VDict [("vdu1", VDict configured_unit)])].

(** * Properties *)

(** ** Dicts *)

Lemma dict_get_set_same (k : string) (v : value) (d : dict) :
  dict_get k (dict_set k v d) = Some v.
Proof.
  induction d as [|[k' v'] d IH]; simpl.
  - now rewrite String.eqb_refl.
  - destruct (String.eqb k k') eqn:E; simpl.
    + now rewrite String.eqb_refl.
    + now rewrite E.
Qed.

Lemma dict_get_set_other (k k' : string) (v : value) (d : dict) :
  k <> k' -> dict_get k (dict_set k' v d) = dict_get k d.
Proof.
  intros Hne. induction d as [|[k2 v2] d IH]; simpl.
  - apply String.eqb_neq in Hne. now rewrite Hne.
  - destruct (String.eqb k' k2) eqn:E; simpl.
    + apply String.eqb_eq in E. subst k2.
      apply String.eqb_neq in Hne. now rewrite Hne.
    + now rewrite IH.
Qed.

Lemma dict_has_set_other (k k' : string) (v : value) (d : dict) :
  k <> k' -> dict_has k (dict_set k' v d) = dict_has k d.
Proof. intros H. unfold dict_has. now rewrite dict_get_set_other. Qed.

Lemma dict_set_length (k : string) (v : value) (d : dict) :
  (length (dict_set k v d) <= S (length d))%nat.
Proof.
  induction d as [|[k' v'] d IH]; simpl.
  - lia.
  - destruct (String.eqb k k'); simpl; lia.
Qed.

Lemma dict_get_del_same (k : string) (d : dict) :
  dict_get k (dict_del k d) = None.
Proof.
  induction d as [|[k' v'] d IH]; simpl; [reflexivity|].
  destruct (String.eqb k k') eqn:E; simpl; [exact IH|].
  now rewrite E.
Qed.

Lemma dict_get_del_other (k k' : string) (d : dict) :
  k <> k' -> dict_get k (dict_del k' d) = dict_get k d.
Proof.
  intros Hne. induction d as [|[k2 v2] d IH]; simpl; [reflexivity|].
  destruct (String.eqb k' k2) eqn:E; simpl.
  - apply String.eqb_eq in E. subst k2.
    apply String.eqb_neq in Hne. now rewrite Hne.
  - now rewrite IH.
Qed.

Lemma dict_get_app (k : string) (a b : dict) :
  dict_get k (a ++ b) =
    match dict_get k a with Some v => Some v | None => dict_get k b end.
Proof.
  induction a as [|[k' v'] a IH]; [reflexivity|].
  cbn [app dict_get]. destruct (String.eqb k k'); [reflexivity | exact IH].
Qed.

(** [d.update(other)]: a key of [other] gets the value that [other] gives
    it last, any other key keeps the value it has in [d]. *)
Lemma dict_get_update (k : string) (d other : dict) :
  dict_get k (dict_update d other) =
    match dict_get k (rev other) with
    | Some v => Some v
    | None => dict_get k d
    end.
Proof.
  unfold dict_update. revert d.
  induction other as [|[k' v'] other IH]; intros d; [reflexivity|].
  cbn [fold_left rev fst snd]. rewrite IH, dict_get_app.
  destruct (dict_get k (rev other)); [reflexivity|].
  cbn [dict_get]. destruct (String.eqb k k') eqn:E.
  - apply String.eqb_eq in E. subst. apply dict_get_set_same.
  - apply dict_get_set_other. now apply String.eqb_neq.
Qed.

Lemma dict_get_In (k : string) (v : value) (d : dict) :
  NoDup (dict_keys d) -> In (k, v) d -> dict_get k d = Some v.
Proof.
  induction d as [|[k' v'] d IH]; intros Hnd Hin; [contradiction|].
  cbn [dict_keys map fst] in Hnd. inversion Hnd as [|? ? Hnotin Hnd']; subst.
  cbn [dict_get]. destruct Hin as [Heq|Hin].
  - inversion Heq; subst. now rewrite String.eqb_refl.
  - destruct (String.eqb k k') eqn:E.
    + apply String.eqb_eq in E. subst k'. exfalso. apply Hnotin.
      change k with (fst (k, v)). now apply in_map.
    + now apply IH.
Qed.

Lemma dict_get_Some_In (k : string) (v : value) (d : dict) :
  dict_get k d = Some v -> In (k, v) d.
Proof.
  induction d as [|[k' v'] d IH]; [discriminate|].
  cbn [dict_get]. destruct (String.eqb k k') eqn:E.
  - apply String.eqb_eq in E. intros H. inversion H; subst. now left.
  - intros H. right. now apply IH.
Qed.

Lemma dict_get_rev (k : string) (d : dict) :
  NoDup (dict_keys d) -> dict_get k (rev d) = dict_get k d.
Proof.
  intros Hnd.
  assert (Hnd' : NoDup (dict_keys (rev d))).
  { unfold dict_keys. rewrite map_rev. now apply NoDup_rev. }
  destruct (dict_get k d) as [v|] eqn:E.
  - apply dict_get_In; [exact Hnd'|].
    apply -> in_rev. now apply dict_get_Some_In.
  - destruct (dict_get k (rev d)) as [v|] eqn:E'; [|reflexivity].
    apply dict_get_Some_In in E'. apply in_rev in E'.
    rewrite (dict_get_In k v d Hnd E') in E. discriminate.
Qed.

(** ** Strings *)

Lemma append_eqb_prefix (p a b : string) :
  String.eqb (p ++ a) (p ++ b) = String.eqb a b.
Proof.
  induction p as [|c p IH]; simpl; [reflexivity|].
  now rewrite Ascii.eqb_refl.
Qed.

Lemma append_length_ge (p a : string) :
  (String.length a <= String.length (p ++ a))%nat.
Proof. induction p; simpl; lia. Qed.

Lemma neq_by_length (a b : string) :
  String.length a <> String.length b -> a <> b.
Proof. intros H E. now subst. Qed.

(** The name of a unit's port is never the name of the unit. *)
Lemma port_name_not_unit (vdu_id network : string) :
  (vdu_id ++ "-" ++ network ++ "-port")%string <> vdu_id.
Proof.
  apply neq_by_length.
  assert (H : forall a b, String.length (a ++ b) = (String.length a + String.length b)%nat).
  { induction a; intros b; cbn; [reflexivity | now rewrite IHa]. }
  rewrite H. cbn. lia.
Qed.

Lemma string_of_Z_opp (i : Z) :
  0 < i -> string_of_Z (- i) = ("-" ++ string_of_Z i)%string.
Proof. destruct i; intros H; try lia. reflexivity. Qed.

Lemma digit_not_space (c : ascii) : is_digit c = true -> is_space c = false.
Proof.
  destruct c as [[] [] [] [] [] [] [] []]; intros H;
    first [reflexivity | discriminate H].
Qed.

Lemma all_digits_rstrip (s : string) : all_digits s = true -> rstrip s = s.
Proof.
  induction s as [|c r IH]; [reflexivity|].
  cbn [all_digits rstrip]. intros H. apply andb_prop in H. destruct H as [Hc Hr].
  rewrite (IH Hr). destruct r; [|reflexivity].
  now rewrite (digit_not_space c Hc).
Qed.

Lemma all_digits_lstrip (s : string) : all_digits s = true -> lstrip s = s.
Proof.
  destruct s as [|c r]; [reflexivity|].
  cbn [all_digits lstrip]. intros H. apply andb_prop in H. destruct H as [Hc _].
  now rewrite (digit_not_space c Hc).
Qed.

Lemma string_of_uint_digits (d : Decimal.uint) :
  all_digits (NilEmpty.string_of_uint d) = true.
Proof. induction d; cbn [NilEmpty.string_of_uint all_digits]; auto. Qed.

(** [int] reads the decimal text of a negative integer back as that
    integer. *)
Lemma int_of_str_negative (p : positive) :
  int_of_str (string_of_Z (Z.neg p)) = Some (Z.neg p).
Proof.
  unfold string_of_Z. cbn [Z.to_int NilZero.string_of_int].
  assert (Hnil : Pos.to_uint p <> Decimal.Nil).
  { intros E. pose proof (DecimalPos.Unsigned.of_to p) as H.
    rewrite E in H. discriminate H. }
  assert (Hs : NilZero.string_of_uint (Pos.to_uint p)
               = NilEmpty.string_of_uint (Pos.to_uint p)).
  { unfold NilZero.string_of_uint. destruct (Pos.to_uint p); congruence. }
  pose proof (string_of_uint_digits (Pos.to_uint p)) as Hd.
  rewrite <- Hs in Hd.
  remember (NilZero.string_of_uint (Pos.to_uint p)) as digits eqn:Edigits.
  assert (Hne : digits <> EmptyString).
  { subst digits. rewrite Hs. destruct (Pos.to_uint p); try congruence;
      discriminate. }
  unfold int_of_str.
  assert (Hr : rstrip (String "-" digits) = String "-" digits).
  { cbn [rstrip]. rewrite (all_digits_rstrip digits Hd).
    destruct digits; [congruence | reflexivity]. }
  rewrite Hr. cbn [lstrip]. change (is_space "-") with false. cbv iota.
  unfold digits_to_Z. rewrite Hd.
  destruct digits as [|c r]; [congruence|].
  rewrite Edigits, (NilZero.usu _ Hnil). cbn [option_map].
  unfold Z.of_uint. rewrite DecimalPos.Unsigned.of_to. reflexivity.
Qed.

(** ** Scaling expansion (C1) *)

Lemma scale_names_differ (name : string) :
  get_scaling_policy_name "out" name <> get_scaling_policy_name "in" name.
Proof.
  unfold get_scaling_policy_name. intros E.
  apply String.eqb_eq in E. rewrite append_eqb_prefix in E. discriminate.
Qed.

Lemma scale_name_not_group (action name : string) :
  get_scaling_policy_name action name <> "G1".
Proof.
  unfold get_scaling_policy_name. apply neq_by_length.
  pose proof (append_length_ge name ("_scale_" ++ action)) as H.
  remember (String.length (name ++ "_scale_" ++ action)) as n.
  simpl in H |- *. lia.
Qed.

(** C1, as the code has it: for a positive integer increment [I], scaling
    expansion emits a scale-out policy whose [scaling_adjustment] is the
    integer [I] and a scale-in policy whose [scaling_adjustment] is the
    decimal text of [-I], which [int] reads back as [-I]; the scale-in
    resource is the scale-out resource with only that property replaced. *)
Theorem scaling_policy_adjustments
  (policy_prp scale_resource_type : value) (name : string) (I : Z)
  (targets min_instances max_instances default_instances cooldown : value) :
  0 < I ->
  getitem policy_prp "targets" = Ok targets ->
  getitem policy_prp "min_instances" = Ok min_instances ->
  getitem policy_prp "max_instances" = Ok max_instances ->
  getitem policy_prp "default_instances" = Ok default_instances ->
  getitem policy_prp "cooldown" = Ok cooldown ->
  getitem policy_prp "increment" = Ok (VInt I) ->
  exists resources names properties,
    convert_to_heat_scaling_policy policy_prp scale_resource_type name
      = Ok (resources, names) /\
    dict_get (get_scaling_policy_name "out" name) resources
      = Some (VDict [("type", VStr "OS::Heat::ScalingPolicy");
                     ("properties", VDict properties)]) /\
    dict_get "scaling_adjustment" properties = Some (VInt I) /\
    dict_get (get_scaling_policy_name "in" name) resources
      = Some (VDict [("type", VStr "OS::Heat::ScalingPolicy");
                     ("properties",
                      VDict (dict_set "scaling_adjustment"
                               (VStr (string_of_Z (- I))) properties))]) /\
    py_int (VStr (string_of_Z (- I))) = Ok (- I).
Proof.
  intros HI Ht Hmin Hmax Hdef Hcd Hinc.
  unfold convert_to_heat_scaling_policy, convert_to_heat_scaling_group.
  rewrite Ht, Hmin, Hmax, Hdef, Hcd, Hinc. cbn [bind py_int].
  rewrite <- (string_of_Z_opp I HI).
  eexists _, _, _. split; [reflexivity|].
  split; [|split; [|split]].
  - rewrite dict_get_set_other by apply scale_names_differ.
    apply dict_get_set_same.
  - reflexivity.
  - apply dict_get_set_same.
  - destruct I as [|p|p]; try lia.
    cbn [Z.opp py_int]. now rewrite int_of_str_negative.
Qed.

Lemma scaling_policy_adjustments_witness :
  exists resources names properties,
    convert_to_heat_scaling_policy (SP1_properties (VInt 1))
      (VStr "scaling.yaml") "SP1" = Ok (resources, names) /\
    dict_get (get_scaling_policy_name "out" "SP1") resources
      = Some (VDict [("type", VStr "OS::Heat::ScalingPolicy");
                     ("properties", VDict properties)]) /\
    dict_get "scaling_adjustment" properties = Some (VInt 1) /\
    dict_get (get_scaling_policy_name "in" "SP1") resources
      = Some (VDict [("type", VStr "OS::Heat::ScalingPolicy");
                     ("properties",
                      VDict (dict_set "scaling_adjustment"
                               (VStr (string_of_Z (- 1))) properties))]) /\
    py_int (VStr (string_of_Z (- 1))) = Ok (- 1).
Proof.
  apply (scaling_policy_adjustments (SP1_properties (VInt 1))
           (VStr "scaling.yaml") "SP1" 1
           (VList [VStr "VDU1"]) (VInt 1) (VInt 3) (VInt 1) (VInt 60));
    [lia | reflexivity ..].
Defined.

(** C1 as stated fails: with increment 1 the scale-in adjustment is the
    text "-1", which is not the integer -1. *)
Lemma scale_in_adjustment_is_text :
  let r := convert_to_heat_scaling_policy (SP1_properties (VInt 1))
             (VStr "scaling.yaml") "SP1" in
  scaling_adjustment_of "out" "SP1" r = Some (VInt 1) /\
  scaling_adjustment_of "in" "SP1" r = Some (VStr "-1") /\
  scaling_adjustment_of "in" "SP1" r <> Some (VInt (- 1)).
Proof. cbv zeta. repeat split. vm_compute. discriminate. Qed.

(** ** Parameter resolution (C2) *)

Lemma update_params_unfold (items : dict) (paramvalues : value) (matched : bool) :
  update_params (VDict items) paramvalues matched =
  let '(items', r) :=
    iter_items (update_params_entry update_params paramvalues matched) items in
  (VDict items', r).
Proof. reflexivity. Qed.

(** The loop keeps the keys of the dict it walks, whatever the outcome. *)
Lemma iter_items_keys (step : string -> value -> value * result unit)
  (d d' : dict) (r : result unit) :
  iter_items step d = (d', r) -> dict_keys d' = dict_keys d.
Proof.
  revert d' r. induction d as [|[k v] d IH]; intros d' r H; simpl in H.
  - now inversion H.
  - destruct (step k v) as [v' [[]|e]].
    + destruct (iter_items step d) as [rest' r'] eqn:E.
      inversion H; subst. simpl. f_equal. eapply IH. reflexivity.
    + inversion H; subst. reflexivity.
Qed.

(** A loop that raises stopped at one entry: the entries before it were
    processed to the end, the entries after it were not touched. *)
Lemma iter_items_raise (step : string -> value -> value * result unit)
  (d d' : dict) (e : exn) :
  iter_items step d = (d', Raise e) ->
  exists pre pre' k v v' post,
    d = pre ++ (k, v) :: post /\
    d' = pre' ++ (k, v') :: post /\
    iter_items step pre = (pre', Ok tt) /\
    step k v = (v', Raise e).
Proof.
  revert d'. induction d as [|[k v] d IH]; intros d' H; simpl in H.
  - discriminate.
  - destruct (step k v) as [v' [[]|e']] eqn:Es.
    + destruct (iter_items step d) as [rest' r'] eqn:E.
      inversion H; subst.
      destruct (IH rest' eq_refl) as (pre & pre' & k0 & v0 & v0' & post &
                                      Hd & Hd' & Hpre & Hstep).
      exists ((k, v) :: pre), ((k, v') :: pre'), k0, v0, v0', post.
      subst. repeat split; try reflexivity; try assumption.
      simpl. now rewrite Es, Hpre.
    + inversion H; subst.
      exists [], [], k, v, v', d. repeat split. assumption.
Qed.

(** C2 as stated fails: resolution raises the missing-input condition for
    "vdu2" after it has put the value of "image" into "vdu1", and the
    descriptor stays so. *)
Lemma update_params_not_atomic :
  update_params two_unit_descriptor first_unit_values false =
    (two_unit_descriptor_after, Raise (InputValuesMissing "vdu2")) /\
  fst (update_params two_unit_descriptor first_unit_values false)
    <> two_unit_descriptor.
Proof. split; [reflexivity | vm_compute; discriminate]. Qed.

(** C2, as the code has it: when parameter resolution of a descriptor
    fails with the missing-input condition, the walk stopped at one entry.
    The entries after it are unchanged, the entries before it hold the
    result of their completed resolution, and the entry itself is as its
    own resolution left it when it raised; the descriptor keeps its
    keys. *)
Theorem update_params_failure_point
  (items : dict) (paramvalues : value) (matched : bool)
  (key : string) (original' : value) :
  update_params (VDict items) paramvalues matched
    = (original', Raise (InputValuesMissing key)) ->
  exists pre pre' k v v' post,
    items = pre ++ (k, v) :: post /\
    original' = VDict (pre' ++ (k, v') :: post) /\
    dict_keys (pre' ++ (k, v') :: post) = dict_keys items /\
    update_params (VDict pre) paramvalues matched = (VDict pre', Ok tt) /\
    update_params_entry update_params paramvalues matched k v
      = (v', Raise (InputValuesMissing key)).
Proof.
  rewrite update_params_unfold.
  destruct (iter_items _ items) as [items' r] eqn:E. intros H.
  inversion H; subst.
  pose proof (iter_items_keys _ _ _ _ E) as Hk.
  destruct (iter_items_raise _ _ _ _ E)
    as (pre & pre' & k & v & v' & post & Hd & Hd' & Hpre & Hstep).
  exists pre, pre', k, v, v', post. subst.
  repeat split; try assumption.
  rewrite update_params_unfold, Hpre. reflexivity.
Qed.

Lemma update_params_failure_point_witness :
  exists pre pre' k v v' post,
    two_unit_items = pre ++ (k, v) :: post /\
    two_unit_descriptor_after = VDict (pre' ++ (k, v') :: post) /\
    dict_keys (pre' ++ (k, v') :: post) = dict_keys two_unit_items /\
    update_params (VDict pre) first_unit_values false = (VDict pre', Ok tt) /\
    update_params_entry update_params first_unit_values false k v
      = (v', Raise (InputValuesMissing "vdu2")).
Proof.
  apply (update_params_failure_point two_unit_items first_unit_values false
           "vdu2" two_unit_descriptor_after).
  reflexivity.
Defined.

(** ** Port synthesis (C5) *)

Lemma bind_Ok {A B : Type} (c : result A) (k : A -> result B) (b : B) :
  bind c k = Ok b -> exists a, c = Ok a /\ k a = Ok b.
Proof. destruct c as [a|e]; simpl; intros H; [eauto | discriminate]. Qed.

Ltac bind_inv H :=
  let a := fresh "a" in
  let Ha := fresh "Ha" in
  apply bind_Ok in H; destruct H as (a & Ha & H).

Lemma getitem_Ok_dict (c : value) (k : string) (v : value) :
  getitem c k = Ok v -> exists d, c = VDict d /\ dict_get k d = Some v.
Proof.
  unfold getitem, py_getitem. destruct c; try discriminate.
  destruct (dict_get k d) eqn:E; [|discriminate].
  intros H. inversion H; subst. eauto.
Qed.

Lemma setitem_Ok_dict (c : value) (k : string) (v c' : value) :
  setitem c k v = Ok c' -> exists d, c = VDict d /\ c' = VDict (dict_set k v d).
Proof.
  unfold setitem. destruct c; try discriminate.
  intros H. inversion H; subst. eauto.
Qed.

Lemma make_mgmt_outputs_dict_resources (vdu_id port : string) (td td' : value) :
  make_mgmt_outputs_dict vdu_id port td = Ok td' ->
  resource_count td' = resource_count td.
Proof.
  unfold make_mgmt_outputs_dict. intros H.
  bind_inv H. bind_inv H.
  apply getitem_Ok_dict in Ha. destruct Ha as (d & -> & _).
  apply setitem_Ok_dict in H. destruct H as (d' & Hd & ->).
  inversion Hd; subst d'. simpl.
  rewrite dict_get_set_other by discriminate. reflexivity.
Qed.

Lemma setitem2_resources (td : value) (port : string) (v td' : value) :
  setitem2 td "resources" port v = Ok td' ->
  (resource_count td' <= S (resource_count td))%nat.
Proof.
  unfold setitem2. intros H. bind_inv H. bind_inv H.
  apply getitem_Ok_dict in Ha. destruct Ha as (d & -> & Hr).
  apply setitem_Ok_dict in Ha0. destruct Ha0 as (r & -> & ->).
  apply setitem_Ok_dict in H. destruct H as (d' & Hd & ->).
  inversion Hd; subst d'. simpl.
  rewrite dict_get_set_same, Hr. apply dict_set_length.
Qed.

(** One call of [_handle_port_creation] adds at most one resource. *)
Lemma handle_port_creation_resources (self : TOSCAToHOT) (vdu_id : string)
  (np : dict) (td : value) (ips : list value) (flag : value)
  (port : string) (td' : value) :
  handle_port_creation self vdu_id np td ips flag = Ok (port, td') ->
  (resource_count td' <= S (resource_count td))%nat.
Proof.
  unfold handle_port_creation. intros H.
  bind_inv H. bind_inv H. do 5 bind_inv H. bind_inv H.
  inversion H; subst.
  apply setitem2_resources in Ha6.
  destruct (truthy flag).
  - apply make_mgmt_outputs_dict_resources in Ha0. lia.
  - inversion Ha0; subst. exact Ha6.
Qed.

Lemma dict_pop_absent (k : string) (default : value) (d : dict) :
  dict_get k (snd (dict_pop k default d)) = None.
Proof.
  unfold dict_pop. destruct (dict_get k d) eqn:E; simpl.
  - apply dict_get_del_same.
  - exact E.
Qed.

(** The two shapes of one turn of the interface loop. *)
Lemma network_interface_eq (self : TOSCAToHOT) (vdu_id : string)
  (np : dict) (template_dict : value) :
  network_interface self vdu_id (VDict np) template_dict =
    if dict_has "addresses" np then
      let '(ip_list, np1) := dict_pop "addresses" (VList []) np in
      let '(mgmt_flag, np2) := dict_pop "management" (VBool false) np1 in
      match ip_list with
      | VList ips =>
          '(port, template_dict') <-
            handle_port_creation self vdu_id np2 template_dict ips mgmt_flag ;;
          Ok (VDict np2, VDict [("port", VDict [("get_resource", VStr port)])],
              template_dict')
      | _ => Raise IPAddrInvalidInput
      end
    else
      let '(flag, np1) := dict_pop "management" (VBool false) np in
      if truthy flag then
        '(port, template_dict') <-
          handle_port_creation self vdu_id np1 template_dict [] (VBool true) ;;
        Ok (VDict np1, VDict [("port", VDict [("get_resource", VStr port)])],
            template_dict')
      else Ok (VDict np1, VDict np1, template_dict).
Proof.
  unfold network_interface. destruct (dict_has "addresses" np) eqn:Ha.
  - destruct (dict_pop "addresses" (VList []) np) as [ip_list np1].
    pose proof (dict_pop_absent "management" (VBool false) np1) as Habs.
    destruct (dict_pop "management" (VBool false) np1) as [mgmt_flag np2].
    cbn [snd] in Habs.
    destruct ip_list; try reflexivity.
    destruct (handle_port_creation self vdu_id np2 template_dict l mgmt_flag)
      as [[port td']|e]; [|reflexivity].
    cbn [bind]. unfold dict_pop. rewrite Habs. reflexivity.
  - cbn [bind].
    destruct (dict_pop "management" (VBool false) np) as [flag np1].
    destruct (truthy flag); [|reflexivity].
    destruct (handle_port_creation self vdu_id np1 template_dict [] (VBool true))
      as [[port td']|e]; reflexivity.
Qed.

Lemma dict_pop_other (k k' : string) (default : value) (d : dict) :
  k <> k' ->
  dict_get k (snd (dict_pop k' default d)) = dict_get k d.
Proof.
  intros H. unfold dict_pop. destruct (dict_get k' d); cbn [snd];
    [now apply dict_get_del_other | reflexivity].
Qed.

(** C5: one network-interface spec yields at most one port resource.  With
    an address list in the spec the address branch pops the management flag
    and makes the only call of [_handle_port_creation]: the management
    branch then finds no flag.  Without one, the management branch makes
    the only call, and only if the flag is truthy. *)
Theorem one_port_per_interface (self : TOSCAToHOT) (vdu_id : string)
  (np : dict) (template_dict : value) :
  (forall np' entry template_dict',
     network_interface self vdu_id (VDict np) template_dict
       = Ok (np', entry, template_dict') ->
     (resource_count template_dict' <= S (resource_count template_dict))%nat) /\
  (dict_has "addresses" np = true ->
   network_interface self vdu_id (VDict np) template_dict =
     let '(ip_list, np1) := dict_pop "addresses" (VList []) np in
     let '(mgmt_flag, np2) := dict_pop "management" (VBool false) np1 in
     match ip_list with
     | VList ips =>
         '(port, template_dict') <-
           handle_port_creation self vdu_id np2 template_dict ips mgmt_flag ;;
         Ok (VDict np2, VDict [("port", VDict [("get_resource", VStr port)])],
             template_dict')
     | _ => Raise IPAddrInvalidInput
     end) /\
  (dict_has "addresses" np = false ->
   network_interface self vdu_id (VDict np) template_dict =
     let '(flag, np1) := dict_pop "management" (VBool false) np in
     if truthy flag then
       '(port, template_dict') <-
         handle_port_creation self vdu_id np1 template_dict [] (VBool true) ;;
       Ok (VDict np1, VDict [("port", VDict [("get_resource", VStr port)])],
           template_dict')
     else Ok (VDict np1, VDict np1, template_dict)).
Proof.
  assert (Haddr : dict_has "addresses" np = true ->
    network_interface self vdu_id (VDict np) template_dict =
     let '(ip_list, np1) := dict_pop "addresses" (VList []) np in
     let '(mgmt_flag, np2) := dict_pop "management" (VBool false) np1 in
     match ip_list with
     | VList ips =>
         '(port, template_dict') <-
           handle_port_creation self vdu_id np2 template_dict ips mgmt_flag ;;
         Ok (VDict np2, VDict [("port", VDict [("get_resource", VStr port)])],
             template_dict')
     | _ => Raise IPAddrInvalidInput
     end).
  { intros Ha. unfold network_interface. rewrite Ha.
    destruct (dict_pop "addresses" (VList []) np) as [ip_list np1].
    pose proof (dict_pop_absent "management" (VBool false) np1) as Habs.
    destruct (dict_pop "management" (VBool false) np1) as [mgmt_flag np2].
    simpl in Habs.
    destruct ip_list; try reflexivity.
    destruct (handle_port_creation self vdu_id np2 template_dict l mgmt_flag)
      as [[port td']|e]; [|reflexivity].
    simpl. unfold dict_pop. rewrite Habs. reflexivity. }
  assert (Hnoaddr : dict_has "addresses" np = false ->
    network_interface self vdu_id (VDict np) template_dict =
     let '(flag, np1) := dict_pop "management" (VBool false) np in
     if truthy flag then
       '(port, template_dict') <-
         handle_port_creation self vdu_id np1 template_dict [] (VBool true) ;;
       Ok (VDict np1, VDict [("port", VDict [("get_resource", VStr port)])],
           template_dict')
     else Ok (VDict np1, VDict np1, template_dict)).
  { intros Ha. unfold network_interface. rewrite Ha. simpl.
    destruct (dict_pop "management" (VBool false) np) as [flag np1].
    destruct (truthy flag); [|reflexivity].
    destruct (handle_port_creation self vdu_id np1 template_dict [] (VBool true))
      as [[port td']|e]; reflexivity. }
  split; [|split; assumption].
  intros np' entry td' H.
  destruct (dict_has "addresses" np) eqn:Ha.
  - rewrite (Haddr eq_refl) in H.
    destruct (dict_pop "addresses" (VList []) np) as [ip_list np1].
    destruct (dict_pop "management" (VBool false) np1) as [mgmt_flag np2].
    destruct ip_list; try discriminate.
    destruct (handle_port_creation self vdu_id np2 template_dict l mgmt_flag)
      as [[port td1]|e] eqn:E; [|discriminate].
    simpl in H. inversion H; subst.
    eapply handle_port_creation_resources; eassumption.
  - rewrite (Hnoaddr eq_refl) in H.
    destruct (dict_pop "management" (VBool false) np) as [flag np1].
    destruct (truthy flag).
    + destruct (handle_port_creation self vdu_id np1 template_dict []
                  (VBool true)) as [[port td1]|e] eqn:E; [|discriminate].
      simpl in H. inversion H; subst.
      eapply handle_port_creation_resources; eassumption.
    + inversion H; subst. lia.
Qed.

(** ** Alarm expansion (C6, C7) *)

Arguments getitem : simpl never.
Arguments setitem : simpl never.
Arguments setitem2 : simpl never.
Arguments contains : simpl never.
Arguments py_get : simpl never.

(** C7 at a run without notification target: [str] turns the missing
    [alarm_url] into the text "None", which is truthy, so the alarm gets
    the action list ["None"]. *)
Theorem alarm_actions_without_url :
  alarm_actions_of
    (convert_to_heat_monitoring_prop cpu_alarm_policy vnf_without_alarm_url)
  = Some (VList [VStr "None"]).
Proof. reflexivity. Qed.

Lemma getitem_VDict_Some (d : dict) (k : string) (v : value) :
  dict_get k d = Some v -> getitem (VDict d) k = Ok v.
Proof. unfold getitem, py_getitem. now intros ->. Qed.

Lemma getitem_VDict_None (d : dict) (k : string) :
  dict_get k d = None -> getitem (VDict d) k = Raise (KeyError k).
Proof. unfold getitem, py_getitem. now intros ->. Qed.

Ltac getitem_step :=
  erewrite getitem_VDict_Some
    by (first [apply dict_get_set_same | eassumption | reflexivity]);
  cbn [bind].





(** ** Final assembly (C9) *)

Lemma generate_hot_alarm_resource_frame (self self1 : TOSCAToHOT)
  (topology : value) (r : bool * dict * value) :
  generate_hot_alarm_resource self topology = Ok (self1, r) ->
  vnf self1 = vnf self /\ fields self1 = fields self.
Proof.
  unfold generate_hot_alarm_resource. intros H.
  bind_inv H. bind_inv H. bind_inv H.
  destruct a1 as [[[en ar] hd] sd]. inversion H; subst. split; reflexivity.
Qed.

Lemma setitem2_getpath (c : value) (k1 k2 : string) (v c' : value) :
  setitem2 c k1 k2 v = Ok c' -> getpath c' [k1; k2] = Ok v.
Proof.
  unfold setitem2. intros H. bind_inv H. bind_inv H.
  apply getitem_Ok_dict in Ha. destruct Ha as (d & -> & Hd).
  apply setitem_Ok_dict in Ha0. destruct Ha0 as (i & -> & ->).
  apply setitem_Ok_dict in H. destruct H as (d' & Hd' & ->).
  inversion Hd'; subst d'.
  cbn [getpath]. repeat getitem_step. reflexivity.
Qed.

(** C9: in a run without scaling expansion, [_handle_scaling] leaves the
    service record as it was when the record already holds a template
    (a truthy "heat_template" attribute); it writes the attribute, from
    the "template" field, only when the record holds none (the attribute
    is missing or empty). *)
Theorem persisted_template_kept
  (self self1 : TOSCAToHOT) (vnfd_dict topology vnf_attributes heat_template : value)
  (scaling_group_names main_dict alarm_resource f : dict)
  (is_enabled_alarm : bool) (sub_heat_tpl_yaml : value) :
  getitem vnfd_dict "topology_template" = Ok topology ->
  generate_hot_scaling topology (VStr "scaling.yaml")
    = Ok (false, scaling_group_names, main_dict) ->
  generate_hot_alarm_resource self topology
    = Ok (self1, (is_enabled_alarm, alarm_resource, sub_heat_tpl_yaml)) ->
  fields self = VDict f ->
  getitem (vnf self) "attributes" = Ok vnf_attributes ->
  py_get vnf_attributes "heat_template" VNone = Ok heat_template ->
  (truthy heat_template = true ->
   exists self', handle_scaling self vnfd_dict = Ok self' /\
                 vnf self' = vnf self) /\
  (truthy heat_template = false ->
   forall self', handle_scaling self vnfd_dict = Ok self' ->
     exists template,
       getitem (fields self') "template" = Ok template /\
       getpath (vnf self') ["attributes"; "heat_template"] = Ok template).
Proof.
  intros Htopo Hscal Halarm Hf Hattr Hget.
  destruct (generate_hot_alarm_resource_frame _ _ _ _ Halarm) as [Hv1 Hf1].
  unfold handle_scaling.
  rewrite Htopo. cbn [bind]. rewrite Hscal. cbn [bind].
  rewrite Halarm. cbn [bind negb]. rewrite Bool.andb_true_r.
  assert (Hself2 : exists self2,
    (if is_enabled_alarm
     then fields0 <- setitem (fields self1) "template" (heat_template_yaml self1) ;;
          Ok (set_fields self1 fields0)
     else Ok self1) = Ok self2 /\ vnf self2 = vnf self).
  { destruct is_enabled_alarm.
    - rewrite Hf1, Hf. unfold setitem. cbn [bind]. eexists. split; [reflexivity|].
      exact Hv1.
    - eexists. split; [reflexivity | exact Hv1]. }
  destruct Hself2 as (self2 & -> & Hv2). cbn [bind].
  rewrite Hattr. cbn [bind]. rewrite Hget. cbn [bind].
  split; intros Ht; rewrite Ht; cbn [negb].
  - eexists. split; reflexivity.
  - intros self' H. bind_inv H. bind_inv H. inversion H; subst self'.
    exists a. split; [exact Ha|].
    unfold set_attribute in Ha0. apply setitem2_getpath in Ha0. exact Ha0.
Qed.

(** ** Legacy translation (C3, C8, C10) *)

Lemma iter_items_no_units (step : string -> value -> value * result unit)
  (d d' : dict) (r : result unit) :
  (forall k, step k (VDict []) = (VDict [], Ok tt)) ->
  iter_items step d = (d', r) ->
  has_no_units (VDict d) = true -> has_no_units (VDict d') = true.
Proof.
  intros Hstep. revert d' r.
  induction d as [|[k v] d IH]; intros d' r H Hno; simpl in H.
  - inversion H; subst. exact Hno.
  - cbn [has_no_units dict_get] in Hno |- *.
    destruct (String.eqb "vdus" k) eqn:Ek.
    + destruct v as [| | | | |[|]]; try discriminate.
      rewrite Hstep in H.
      destruct (iter_items step d) as [rest' r'].
      inversion H; subst. cbn [has_no_units dict_get]. rewrite Ek. reflexivity.
    + destruct (step k v) as [v' [[]|e]].
      * destruct (iter_items step d) as [rest' r'] eqn:E.
        inversion H; subst. cbn [has_no_units dict_get]. rewrite Ek.
        apply (IH rest' r eq_refl Hno).
      * inversion H; subst. cbn [has_no_units dict_get]. rewrite Ek. exact Hno.
Qed.

Lemma update_params_no_units (original paramvalues : value) (matched : bool)
  (original' : value) (r : result unit) :
  update_params original paramvalues matched = (original', r) ->
  has_no_units original = true -> has_no_units original' = true.
Proof.
  destruct original; try discriminate.
  rewrite update_params_unfold.
  destruct (iter_items _ d) as [items' r'] eqn:E.
  intros H Hno. inversion H; subst.
  eapply iter_items_no_units; [|exact E|exact Hno].
  intros k. reflexivity.
Qed.

Lemma legacy_prelude_no_units (self : TOSCAToHOT)
  (vnfd_dict dev_attrs vnfd_dict' template_dict : value) :
  legacy_prelude self vnfd_dict dev_attrs = Ok (vnfd_dict', template_dict) ->
  has_no_units vnfd_dict = true -> has_no_units vnfd_dict' = true.
Proof.
  unfold legacy_prelude. intros H Hno.
  bind_inv H. destruct a; [discriminate|].
  bind_inv H. destruct a; [discriminate|].
  bind_inv H. bind_inv H. bind_inv H. bind_inv H.
  inversion H; subst a0. clear H.
  destruct a.
  - unfold process_parameterized_input in Ha2.
    destruct dev_attrs; try discriminate.
    destruct (dict_pop "param_values" VNone d) as [pv da].
    destruct (truthy pv); [|discriminate].
    destruct (match pv with VStr s => yaml_load s | _ => None end)
      as [values|]; [|discriminate].
    destruct (update_params vnfd_dict values false) as [doc r] eqn:E.
    destruct r as [[]|e]; [|discriminate].
    inversion Ha2; subst doc.
    eapply update_params_no_units; eassumption.
  - inversion Ha2; subst. exact Hno.
Qed.

(** C10: for a legacy descriptor without units, [_generate_hot_from_legacy]
    never returns: a failure of the steps before the unit loop is raised as
    it is, and otherwise the unbound [heat_template_yaml] raises the name
    error. *)
Theorem legacy_without_units (self : TOSCAToHOT) (vnfd_dict dev_attrs : value) :
  has_no_units vnfd_dict = true ->
  generate_hot_from_legacy self vnfd_dict dev_attrs =
    match legacy_prelude self vnfd_dict dev_attrs with
    | Ok _ => Raise (UnboundLocalError "heat_template_yaml")
    | Raise e => Raise e
    end /\
  exists e, generate_hot_from_legacy self vnfd_dict dev_attrs = Raise e.
Proof.
  intros Hno.
  assert (Heq : generate_hot_from_legacy self vnfd_dict dev_attrs =
    match legacy_prelude self vnfd_dict dev_attrs with
    | Ok _ => Raise (UnboundLocalError "heat_template_yaml")
    | Raise e => Raise e
    end).
  { unfold generate_hot_from_legacy.
    destruct (legacy_prelude self vnfd_dict dev_attrs)
      as [[vnfd_dict' template_dict]|e] eqn:E; [|reflexivity].
    cbn [bind].
    pose proof (legacy_prelude_no_units _ _ _ _ _ E Hno) as Hno'.
    unfold has_no_units in Hno'. unfold py_get.
    destruct vnfd_dict' as [| | | | |d]; try discriminate.
    destruct (dict_get "vdus" d) as [[| | | | |[|]]|]; try discriminate;
      reflexivity. }
  split; [exact Heq|].
  rewrite Heq. destruct (legacy_prelude self vnfd_dict dev_attrs); eauto.
Qed.

(** C3 at a descriptor with two monitored units: the monitoring document
    holds the policy of the last unit only, because each unit resets
    [monitoring_dict['vdus']] before it adds its own policy. *)
Theorem monitoring_keeps_last_unit_only :
  let r := monitoring_of
             (generate_hot_from_legacy legacy_translator two_monitored_units
                                       (VDict [])) in
  r = Ok (VDict [("vdus",
                  VDict [("vdu2",
                          VDict [("ping",
                                  VDict [("actions",
                                          VDict [("failure",
                                                  VStr "respawn")])])])])]) /\
  (x <- r ;; getpath x ["vdus"; "vdu1"]) = Raise (KeyError "vdu1").
Proof. split; reflexivity. Qed.

Lemma legacy_loop_app (pre rest : dict) (st0 : legacy_locals) :
  legacy_loop (pre ++ rest) st0 = (st <- legacy_loop pre st0 ;; legacy_loop rest st).
Proof.
  revert st0. induction pre as [|[vdu_id vdu_dict] pre IH]; intros st0.
  - reflexivity.
  - cbn [app legacy_loop].
    destruct (legacy_vdu st0 vdu_id vdu_dict) as [st1|e]; cbn [bind];
      [apply IH | reflexivity].
Qed.

(** The first steps of the loop body leave the unit's other fields alone
    and put no user data among the properties. *)
Lemma vdu_server_frame (self : TOSCAToHOT) (vdu_id : string)
  (vd vd' props : dict) (td td' : value) :
  vdu_server self vdu_id (VDict vd) td = Ok (vd', props, td') ->
  (forall k, k <> "network_interfaces" -> dict_get k vd' = dict_get k vd) /\
  dict_get "user_data" props = None /\
  dict_get "user_data_format" props = None.
Proof.
  unfold vdu_server. intros H. do 3 bind_inv H.
  destruct (dict_has "network_interfaces" vd).
  - unfold process_vdu_network_interfaces in H. bind_inv H.
    destruct a2; try discriminate. bind_inv H.
    destruct a2 as [[ifs nl] t]. inversion H; subst.
    split; [|split].
    + intros k Hk. now apply dict_get_set_other.
    + reflexivity.
    + reflexivity.
  - inversion H; subst. repeat split.
Qed.

Lemma vdu_placement_config_key_frame (vd props props' : dict) (k : string) :
  vdu_placement_config_key vd props = Ok props' ->
  k <> "availability_zone" -> k <> "config_drive" ->
  k <> "metadata" -> k <> "key_name" ->
  dict_get k props' = dict_get k props.
Proof.
  unfold vdu_placement_config_key. intros H Hz Hc Hm Hk.
  bind_inv H. bind_inv H.
  assert (E1 : dict_get k a = dict_get k props).
  { destruct (dict_has "placement_policy" vd); [|now inversion Ha].
    do 2 bind_inv Ha. destruct a2; [|now inversion Ha].
    bind_inv Ha. inversion Ha; subst. now apply dict_get_set_other. }
  assert (E2 : dict_get k a0 = dict_get k a).
  { destruct (dict_has "config" vd); [|now inversion Ha0].
    destruct (match dict_get "metadata" (dict_set "config_drive" (VBool true) a)
              with Some m => m | None => VDict [] end); try discriminate.
    do 3 bind_inv Ha0. inversion Ha0; subst.
    rewrite !dict_get_set_other by assumption. reflexivity. }
  destruct (dict_has "key_name" vd).
  - bind_inv H. inversion H; subst.
    rewrite dict_get_set_other by assumption. congruence.
  - inversion H; subst. congruence.
Qed.

Lemma legacy_vdu_properties (st st' : legacy_locals) (vdu_id : string)
  (vd vd' props : dict) (td' : value) :
  vdu_server (l_self st) vdu_id (VDict vd) (l_template_dict st)
    = Ok (vd', props, td') ->
  legacy_vdu st vdu_id (VDict vd) = Ok st' ->
  exists props1 props2,
    vdu_user_data vd' props = Ok props1 /\
    vdu_placement_config_key vd' props1 = Ok props2 /\
    forall k, resource_property (l_template_dict st') vdu_id k
              = getitem (VDict props2) k.
Proof.
  intros Hs H. unfold legacy_vdu in H. rewrite Hs in H. cbn [bind] in H.
  bind_inv H. bind_inv H. bind_inv H. destruct a1 as [vd2 mon].
  bind_inv H. bind_inv H. inversion H; subst st'. cbn [l_template_dict].
  exists a, a0. repeat split; try assumption.
  intros k. unfold resource_property.
  apply setitem2_getpath in Ha3.
  cbn [getpath] in Ha3 |- *.
  destruct (getitem a2 "resources") as [r|]; [|discriminate].
  cbn [bind] in Ha3 |- *.
  destruct (getitem r vdu_id) as [u|]; [|discriminate].
  cbn [bind] in Ha3 |- *. inversion Ha3; subst u.
  getitem_step.
  destruct (getitem (VDict a0) k); reflexivity.
Qed.

Lemma setitem2_VDict (t r : dict) (k1 k2 : string) (v : value) :
  dict_get k1 t = Some (VDict r) ->
  setitem2 (VDict t) k1 k2 v
    = Ok (VDict (dict_set k1 (VDict (dict_set k2 v r)) t)).
Proof.
  intros H. unfold setitem2. rewrite (getitem_VDict_Some _ _ _ H).
  reflexivity.
Qed.

(** A template that holds a [resources] dict keeps one through the port
    synthesis of a unit. *)
Lemma setitem2_resources_dict (c : value) (k : string) (v c' : value) :
  setitem2 c "resources" k v = Ok c' ->
  exists t r, c' = VDict t /\ dict_get "resources" t = Some (VDict r).
Proof.
  unfold setitem2. intros H.
  apply bind_Ok in H. destruct H as (inner & Hi & H).
  apply bind_Ok in H. destruct H as (inner' & Hs & H).
  apply setitem_Ok_dict in Hs. destruct Hs as (r & -> & ->).
  apply setitem_Ok_dict in H. destruct H as (d & -> & ->).
  eexists _, _. split; [reflexivity | apply dict_get_set_same].
Qed.

Lemma handle_port_creation_resources_dict (self : TOSCAToHOT) (vdu_id : string)
  (np : dict) (td : value) (ips : list value) (flag : value)
  (port : string) (td' : value) :
  handle_port_creation self vdu_id np td ips flag = Ok (port, td') ->
  exists t r, td' = VDict t /\ dict_get "resources" t = Some (VDict r).
Proof.
  unfold handle_port_creation. intros H.
  bind_inv H. bind_inv H. do 5 bind_inv H. bind_inv H.
  inversion H; subst.
  eapply setitem2_resources_dict; eassumption.
Qed.

Lemma network_interfaces_loop_resources_dict (self : TOSCAToHOT)
  (vdu_id : string) (ifs ifs' : dict) (nl nl' : list value) (td td' : value) :
  network_interfaces_loop self vdu_id ifs nl td = Ok (ifs', nl', td') ->
  (exists t r, td = VDict t /\ dict_get "resources" t = Some (VDict r)) ->
  exists t r, td' = VDict t /\ dict_get "resources" t = Some (VDict r).
Proof.
  revert ifs' nl nl' td td'.
  induction ifs as [|[name np] ifs IH]; intros ifs' nl nl' td td' H Htd.
  - cbn in H. inversion H; subst. exact Htd.
  - cbn [network_interfaces_loop] in H.
    apply bind_Ok in H. destruct H as ([[np1 entry] td1] & Hone & H).
    apply bind_Ok in H. destruct H as ([[rest nl1] td2] & Hloop & H).
    inversion H; subst.
    apply (IH _ _ _ _ _ Hloop).
    destruct np; try discriminate.
    rewrite network_interface_eq in Hone.
    destruct (dict_has "addresses" d).
    + destruct (dict_pop "addresses" (VList []) d) as [ip_list n1].
      destruct (dict_pop "management" (VBool false) n1) as [mgmt_flag n2].
      destruct ip_list; try discriminate.
      apply bind_Ok in Hone. destruct Hone as ([port t1] & Hport & Hone).
      inversion Hone; subst.
      eapply handle_port_creation_resources_dict; eassumption.
    + destruct (dict_pop "management" (VBool false) d) as [flag n1].
      destruct (truthy flag).
      * apply bind_Ok in Hone. destruct Hone as ([port t1] & Hport & Hone).
        inversion Hone; subst.
        eapply handle_port_creation_resources_dict; eassumption.
      * inversion Hone; subst. exact Htd.
Qed.

Lemma vdu_server_resources_dict (self : TOSCAToHOT) (vdu_id : string)
  (vdu_dict td : value) (vd' props : dict) (td' : value) :
  vdu_server self vdu_id vdu_dict td = Ok (vd', props, td') ->
  exists t r, td' = VDict t /\ dict_get "resources" t = Some (VDict r).
Proof.
  unfold vdu_server. intros H.
  apply bind_Ok in H. destruct H as (tdA & Hadd & H).
  apply bind_Ok in H. destruct H as (image & _ & H).
  apply bind_Ok in H. destruct H as (flavor & _ & H).
  assert (HA : exists t r, tdA = VDict t /\ dict_get "resources" t = Some (VDict r)).
  { unfold add_server in Hadd. destruct td; try discriminate.
    apply bind_Ok in Hadd. destruct Hadd as (res & Hres & Hadd).
    apply setitem_Ok_dict in Hres. destruct Hres as (r & _ & ->).
    inversion Hadd; subst.
    eexists _, _. split; [reflexivity | apply dict_get_set_same]. }
  destruct vdu_dict; try discriminate.
  destruct (dict_has "network_interfaces" d).
  - unfold process_vdu_network_interfaces in H.
    apply bind_Ok in H. destruct H as (ifv & _ & H).
    destruct ifv; try discriminate.
    apply bind_Ok in H. destruct H as ([[ifs nl] t] & Hloop & H).
    inversion H; subst.
    eapply network_interfaces_loop_resources_dict; eassumption.
  - inversion H; subst. exact HA.
Qed.

(** The monitoring step of a unit always returns, and leaves the unit's
    other fields as they are. *)
Lemma vdu_monitoring_total (vdu_id : string) (vd mon : dict) :
  exists vd2 mon',
    vdu_monitoring vdu_id vd mon = Ok (vd2, mon') /\
    forall k, k <> "monitoring_policy" -> k <> "failure_policy" ->
              dict_get k vd2 = dict_get k vd.
Proof.
  unfold vdu_monitoring, py_get. cbn [bind].
  assert (Hset : forall policy vd0,
            dict_get "monitoring_policy" vd0 = Some policy ->
            exists mon',
              (policy0 <- getitem (VDict vd0) "monitoring_policy" ;;
               monitoring_dict <-
                 setitem2 (VDict (dict_set "vdus" (VDict []) mon))
                          "vdus" vdu_id policy0 ;;
               match monitoring_dict with
               | VDict m => Ok (vd0, m)
               | _ => Raise TypeError
               end) = Ok (vd0, mon')).
  { intros policy vd0 Hp. rewrite (getitem_VDict_Some _ _ _ Hp). cbn [bind].
    rewrite (setitem2_VDict _ [] "vdus" vdu_id policy)
      by apply dict_get_set_same.
    cbn [bind]. eexists. reflexivity. }
  destruct (dict_get "monitoring_policy" vd) as [policy|] eqn:Ep.
  - destruct (py_eq policy (VStr "ping") &&
              py_eq match dict_get "failure_policy" vd with
                    | Some x => x
                    | None => VStr "noop"
                    end (VStr "respawn"))%bool.
    + destruct (negb (py_eq policy (VStr "noop"))).
      * edestruct Hset as [mon' ->].
        { rewrite dict_get_del_other by discriminate. apply dict_get_set_same. }
        eexists _, _. split; [reflexivity|].
        intros k Hm Hf. rewrite dict_get_del_other by assumption.
        now apply dict_get_set_other.
      * eexists _, _. split; [reflexivity|].
        intros k Hm Hf. rewrite dict_get_del_other by assumption.
        now apply dict_get_set_other.
    + destruct (negb (py_eq policy (VStr "noop"))).
      * edestruct Hset as [mon' ->]; [exact Ep|].
        eexists _, _. split; reflexivity.
      * eexists _, _. split; reflexivity.
  - cbn [py_eq String.eqb Ascii.eqb Bool.eqb andb negb].
    eexists _, _. split; reflexivity.
Qed.

Lemma vdu_service_type_ext (self : TOSCAToHOT) (vdu_id : string)
  (vd1 vd2 : dict) :
  dict_get "service_type" vd1 = dict_get "service_type" vd2 ->
  vdu_service_type self vdu_id vd1 = vdu_service_type self vdu_id vd2.
Proof.
  intros H. unfold vdu_service_type, dict_has, getitem, py_getitem.
  now rewrite H.
Qed.

Lemma vdu_placement_config_key_ext (vd1 vd2 props : dict) :
  (forall k, k <> "network_interfaces" -> dict_get k vd1 = dict_get k vd2) ->
  vdu_placement_config_key vd1 props = vdu_placement_config_key vd2 props.
Proof.
  intros H. unfold vdu_placement_config_key, dict_has, getitem, py_getitem.
  rewrite (H "placement_policy"), (H "config"), (H "key_name") by discriminate.
  reflexivity.
Qed.

(** The unit translates when its steps do. *)
Lemma legacy_vdu_returns (st : legacy_locals) (vdu_id : string)
  (vd vd' props props1 props2 : dict) (td' : value) (self' : TOSCAToHOT) :
  vdu_server (l_self st) vdu_id (VDict vd) (l_template_dict st)
    = Ok (vd', props, td') ->
  vdu_user_data vd' props = Ok props1 ->
  vdu_placement_config_key vd props1 = Ok props2 ->
  vdu_service_type (l_self st) vdu_id vd = Ok self' ->
  exists st', legacy_vdu st vdu_id (VDict vd) = Ok st'.
Proof.
  intros Hs Hu Hp Hv.
  destruct (vdu_server_frame _ _ _ _ _ _ _ Hs) as (Hvd & _ & _).
  destruct (vdu_server_resources_dict _ _ _ _ _ _ _ Hs) as (t & r & -> & Hr).
  unfold legacy_vdu. rewrite Hs. cbn [bind]. rewrite Hu. cbn [bind].
  rewrite (vdu_placement_config_key_ext vd' vd) by exact Hvd.
  rewrite Hp. cbn [bind].
  destruct (vdu_monitoring_total vdu_id vd' (l_monitoring_dict st))
    as (vd2 & mon' & -> & Hk).
  cbn [bind].
  rewrite (vdu_service_type_ext _ _ vd2 vd), Hv.
  2:{ rewrite Hk by discriminate. apply Hvd. discriminate. }
  cbn [bind]. rewrite (setitem2_VDict _ _ _ _ _ Hr). cbn [bind].
  eexists. reflexivity.
Qed.

(** C8, as the code has it, for a unit whose earlier loop steps (image,
    flavor, network interfaces) succeed.  With exactly one of the two
    user-data fields the unit and the whole translation fail with the
    incomplete-user-data condition, and no template is returned.  With
    both fields the user-data step copies both onto the properties, the
    compute resource of every translation of the unit carries both, and
    the unit does translate whenever its placement, config and key-name
    step and its service-type step succeed.  With neither field the
    compute resource has neither, and the unit translates under the same
    condition. *)
Theorem user_data_pair (st : legacy_locals) (vdu_id : string)
  (vd vd' props : dict) (td' : value) :
  vdu_server (l_self st) vdu_id (VDict vd) (l_template_dict st)
    = Ok (vd', props, td') ->
  (xorb (dict_has "user_data" vd) (dict_has "user_data_format" vd) = true ->
   legacy_vdu st vdu_id (VDict vd) = Raise UserDataFormatNotFound /\
   forall self vnfd_dict dev_attrs vnfd_dict' template_dict pre rest,
     legacy_prelude self vnfd_dict dev_attrs = Ok (vnfd_dict', template_dict) ->
     py_get vnfd_dict' "vdus" (VDict [])
       = Ok (VDict (pre ++ (vdu_id, VDict vd) :: rest)) ->
     legacy_loop pre
       {| l_self := self; l_template_dict := template_dict;
          l_monitoring_dict := []; l_heat_template_yaml := None |} = Ok st ->
     generate_hot_from_legacy self vnfd_dict dev_attrs
       = Raise UserDataFormatNotFound) /\
  (forall user_data user_data_format,
     dict_get "user_data" vd = Some user_data ->
     dict_get "user_data_format" vd = Some user_data_format ->
     let props1 := dict_set "user_data" user_data
                     (dict_set "user_data_format" user_data_format props) in
     vdu_user_data vd' props = Ok props1 /\
     (forall st', legacy_vdu st vdu_id (VDict vd) = Ok st' ->
        resource_property (l_template_dict st') vdu_id "user_data"
          = Ok user_data /\
        resource_property (l_template_dict st') vdu_id "user_data_format"
          = Ok user_data_format) /\
     (forall props2 self',
        vdu_placement_config_key vd props1 = Ok props2 ->
        vdu_service_type (l_self st) vdu_id vd = Ok self' ->
        exists st', legacy_vdu st vdu_id (VDict vd) = Ok st')) /\
  (dict_get "user_data" vd = None ->
   dict_get "user_data_format" vd = None ->
   vdu_user_data vd' props = Ok props /\
   (forall st', legacy_vdu st vdu_id (VDict vd) = Ok st' ->
      resource_property (l_template_dict st') vdu_id "user_data"
        = Raise (KeyError "user_data") /\
      resource_property (l_template_dict st') vdu_id "user_data_format"
        = Raise (KeyError "user_data_format")) /\
   (forall props2 self',
      vdu_placement_config_key vd props = Ok props2 ->
      vdu_service_type (l_self st) vdu_id vd = Ok self' ->
      exists st', legacy_vdu st vdu_id (VDict vd) = Ok st')).
Proof.
  intros Hs.
  destruct (vdu_server_frame _ _ _ _ _ _ _ Hs) as (Hvd & Hpu & Hpf).
  assert (Hu : dict_get "user_data" vd' = dict_get "user_data" vd)
    by (apply Hvd; discriminate).
  assert (Hf : dict_get "user_data_format" vd' = dict_get "user_data_format" vd)
    by (apply Hvd; discriminate).
  split; [|split].
  - intros Hx.
    assert (Hraise : legacy_vdu st vdu_id (VDict vd) = Raise UserDataFormatNotFound).
    { unfold legacy_vdu. rewrite Hs. cbn [bind].
      unfold vdu_user_data, dict_has in *. rewrite Hu, Hf.
      destruct (dict_get "user_data" vd), (dict_get "user_data_format" vd);
        try discriminate; reflexivity. }
    split; [exact Hraise|].
    intros self vnfd_dict dev_attrs vnfd_dict' template_dict pre rest Hp Hv Hl.
    unfold generate_hot_from_legacy. rewrite Hp. cbn [bind].
    rewrite Hv. cbn [bind].
    rewrite legacy_loop_app, Hl. cbn [bind legacy_loop].
    rewrite Hraise. reflexivity.
  - intros ud udf Hud Hudf props1.
    assert (Hstep : vdu_user_data vd' props = Ok props1).
    { rewrite <- Hu in Hud. rewrite <- Hf in Hudf.
      unfold vdu_user_data, dict_has. rewrite Hud, Hudf. cbn [andb].
      repeat getitem_step. reflexivity. }
    split; [exact Hstep|]. split.
    + intros st' H.
      destruct (legacy_vdu_properties _ _ _ _ _ _ _ Hs H)
        as (p1 & p2 & H1 & H2 & Hres).
      rewrite Hstep in H1. inversion H1; subst p1.
      rewrite !Hres. split; apply getitem_VDict_Some.
      * rewrite (vdu_placement_config_key_frame _ _ _ "user_data" H2)
          by discriminate.
        apply dict_get_set_same.
      * rewrite (vdu_placement_config_key_frame _ _ _ "user_data_format" H2)
          by discriminate.
        unfold props1. rewrite dict_get_set_other by discriminate.
        apply dict_get_set_same.
    + intros props2 self' Hp Hv.
      exact (legacy_vdu_returns _ _ _ _ _ _ _ _ _ Hs Hstep Hp Hv).
  - intros Hud Hudf.
    assert (Hstep : vdu_user_data vd' props = Ok props).
    { unfold vdu_user_data, dict_has. rewrite Hu, Hf, Hud, Hudf. reflexivity. }
    split; [exact Hstep|]. split.
    + intros st' H.
      destruct (legacy_vdu_properties _ _ _ _ _ _ _ Hs H)
        as (p1 & p2 & H1 & H2 & Hres).
      rewrite Hstep in H1. inversion H1; subst p1.
      rewrite !Hres. unfold getitem, py_getitem.
      rewrite (vdu_placement_config_key_frame _ _ _ "user_data" H2)
        by discriminate.
      rewrite (vdu_placement_config_key_frame _ _ _ "user_data_format" H2)
        by discriminate.
      rewrite Hpu, Hpf. split; reflexivity.
    + intros props2 self' Hp Hv.
      exact (legacy_vdu_returns _ _ _ _ _ _ _ _ _ Hs Hstep Hp Hv).
Qed.

(** ** Port security (C4) *)

(** The properties of a synthesized port: those of [_make_port_dict] with
    the addresses, updated with the interface spec. *)
Lemma handle_port_creation_properties
  (self : TOSCAToHOT) (vdu_id : string) (np t r : dict) (network : value)
  (ips : list value) (flag : value) :
  dict_get "network" np = Some network ->
  dict_get "resources" t = Some (VDict r) ->
  (truthy flag = true -> exists o, dict_get "outputs" t = Some (VDict o)) ->
  exists template_dict' p0,
    handle_port_creation self vdu_id np (VDict t) ips flag
      = Ok (port_name vdu_id network, template_dict') /\
    dict_get "properties" (make_port_dict self) = Some (VDict p0) /\
    getpath template_dict' ["resources"; port_name vdu_id network; "type"]
      = Ok (VStr "OS::Neutron::Port") /\
    forall k,
      getpath template_dict'
              ["resources"; port_name vdu_id network; "properties"; k]
      = getitem (VDict (dict_update
                          (dict_set "fixed_ips" (fixed_ips_of ips) p0) np)) k.
Proof.
  intros Hnet Hres Hout.
  unfold handle_port_creation. repeat getitem_step.
  fold (port_name vdu_id network).
  set (port := port_name vdu_id network).
  assert (Htd : exists t1,
    (if truthy flag then make_mgmt_outputs_dict vdu_id port (VDict t)
     else Ok (VDict t)) = Ok (VDict t1) /\
    dict_get "resources" t1 = Some (VDict r)).
  { destruct (truthy flag).
    - destruct (Hout eq_refl) as [o Ho]. unfold make_mgmt_outputs_dict.
      repeat getitem_step. unfold setitem. cbn [bind].
      eexists. split; [reflexivity|].
      rewrite dict_get_set_other by discriminate. exact Hres.
    - eexists. split; [reflexivity | exact Hres]. }
  destruct Htd as (t1 & -> & Hres1). cbn [bind].
  unfold make_port_dict.
  destruct (truthy (unsupported_props self)).
  - cbn -[getitem setitem setitem2 dict_update port_name].
    repeat getitem_step. unfold setitem at 1. cbn [bind app].
    unfold setitem2. repeat getitem_step. unfold setitem. cbn [bind].
    eexists _, _. split; [reflexivity|]. split; [reflexivity|]. split.
    + cbn [getpath]. repeat getitem_step. reflexivity.
    + intros k. cbn [getpath]. repeat getitem_step.
      match goal with
      | |- bind ?c _ = ?rhs => change rhs with c; destruct c; reflexivity
      end.
  - cbn -[getitem setitem setitem2 dict_update port_name].
    repeat getitem_step. unfold setitem at 1. cbn [bind app].
    unfold setitem2. repeat getitem_step. unfold setitem. cbn [bind].
    eexists _, _. split; [reflexivity|]. split; [reflexivity|]. split.
    + cbn [getpath]. repeat getitem_step. reflexivity.
    + intros k. cbn [getpath]. repeat getitem_step.
      match goal with
      | |- bind ?c _ = ?rhs => change rhs with c; destruct c; reflexivity
      end.
Qed.

(** C4 as stated fails: the interface spec is merged into the port's
    properties last, so a spec that carries the key switches port
    security on.  Under an engine that supports the property the port of
    such a management interface has [port_security_enabled: true]; under
    one that does not, the spec's [value_specs] replaces the synthesized
    one. *)
Lemma port_security_enabled_by_spec :
  (exists vdu_dict properties template_dict,
     process_vdu_network_interfaces
       (get_unsupported_resource_props legacy_translator (fun _ _ => true))
       "vdu1" open_interface_unit [] empty_template
       = Ok (vdu_dict, properties, template_dict) /\
     getpath template_dict ["resources"; "vdu1-net_mgmt-port"; "type"]
       = Ok (VStr "OS::Neutron::Port") /\
     getpath template_dict ["resources"; "vdu1-net_mgmt-port"; "properties";
                            "port_security_enabled"]
       = Ok (VBool true)) /\
  (exists vdu_dict properties template_dict,
     process_vdu_network_interfaces
       (get_unsupported_resource_props legacy_translator (fun _ _ => false))
       "vdu1" open_compat_interface_unit [] empty_template
       = Ok (vdu_dict, properties, template_dict) /\
     getpath template_dict ["resources"; "vdu1-net_mgmt-port"; "type"]
       = Ok (VStr "OS::Neutron::Port") /\
     getpath template_dict ["resources"; "vdu1-net_mgmt-port"; "properties";
                            "value_specs"]
       = Ok (VDict [("port_security_enabled", VBool true)])).
Proof.
  split; eexists _, _, _; (split; [reflexivity|]); split; reflexivity.
Qed.

(** C4, as the code has it, for a run whose Unsupported-Property Map is
    the one that the capability probe computes.  A synthesized port
    switches port security off by default, under the key that the map
    gives: the property itself when the map does not record it for the
    port resource type, and the substitute that the map records for it
    ("value_specs") when it does.  The interface spec is merged last: when
    the spec carries that key, the port has the spec's value instead.  The
    other of the two keys is on the port only if the spec brings it. *)
Theorem port_security_default
  (self : TOSCAToHOT) (heat_client : string -> string -> bool)
  (vdu_id : string) (np t r : dict) (network : value)
  (ips : list value) (flag : value) :
  let probed := get_unsupported_resource_props self heat_client in
  let port := port_name vdu_id network in
  dict_get "network" np = Some network ->
  NoDup (dict_keys np) ->
  dict_get "resources" t = Some (VDict r) ->
  (truthy flag = true -> exists o, dict_get "outputs" t = Some (VDict o)) ->
  exists template_dict',
    handle_port_creation probed vdu_id np (VDict t) ips flag
      = Ok (port, template_dict') /\
    getpath template_dict' ["resources"; port; "type"]
      = Ok (VStr "OS::Neutron::Port") /\
    substitute_of (unsupported_props probed)
                  "OS::Neutron::Port" "port_security_enabled"
      = (if heat_client "OS::Neutron::Port" "port_security_enabled"
         then None else Some (VStr "value_specs")) /\
    getpath template_dict'
            ["resources"; port; "properties"; port_security_key probed]
      = Ok (match dict_get (port_security_key probed) np with
            | Some v => v
            | None => port_security_off probed
            end) /\
    forall k, k = "port_security_enabled" \/ k = "value_specs" ->
      k <> port_security_key probed ->
      dict_get k np = None ->
      getpath template_dict' ["resources"; port; "properties"; k]
        = Raise (KeyError k).
Proof.
  intros probed port Hnet Hnd Hres Hout.
  destruct (handle_port_creation_properties probed vdu_id np t r network
              ips flag Hnet Hres Hout)
    as (template_dict' & p0 & Hcall & Hp0 & Htype & Hprops).
  exists template_dict'.
  split; [exact Hcall|]. split; [exact Htype|].
  assert (Hget : forall k, dict_get k (dict_update
                     (dict_set "fixed_ips" (fixed_ips_of ips) p0) np)
                 = match dict_get k np with
                   | Some v => Some v
                   | None => dict_get k (dict_set "fixed_ips" (fixed_ips_of ips) p0)
                   end).
  { intros k. now rewrite dict_get_update, dict_get_rev. }
  subst probed port.
  unfold port_security_key, port_security_off, substitute_of in *.
  unfold get_unsupported_resource_props, make_port_dict, unsupported_of,
    HEAT_VERSION_INCOMPATIBILITY_MAP in *.
  cbn [fold_left set_unsupported_props unsupported_props fst snd] in *.
  destruct (heat_client "OS::Neutron::Port" "port_security_enabled").
  - cbn in Hp0. inversion Hp0; subst p0. clear Hp0.
    cbn [negb truthy dict_update dict_set dict_get fold_left String.eqb
         Ascii.eqb Bool.eqb fst snd].
    split; [reflexivity|]. split.
    + rewrite Hprops. unfold getitem, py_getitem. rewrite Hget.
      destruct (dict_get "port_security_enabled" np); reflexivity.
    + intros k [->| ->] Hne Hk; [now contradiction Hne|].
      rewrite Hprops. unfold getitem, py_getitem. rewrite Hget, Hk.
      reflexivity.
  - cbn in Hp0. inversion Hp0; subst p0. clear Hp0.
    cbn [negb truthy dict_update dict_set dict_get fold_left String.eqb
         Ascii.eqb Bool.eqb fst snd].
    split; [reflexivity|]. split.
    + rewrite Hprops. unfold getitem, py_getitem. rewrite Hget.
      destruct (dict_get "value_specs" np); reflexivity.
    + intros k [->| ->] Hne Hk; [|now contradiction Hne].
      rewrite Hprops. unfold getitem, py_getitem. rewrite Hget, Hk.
      reflexivity.
Qed.

(** * Further properties *)

#[local] Set Default Proof Using "Type".

(** ** Parameter resolution *)

Lemma iter_items_skip (step : string -> value -> value * result unit)
  (pre rest : dict) :
  (forall e, In e pre -> step (fst e) (snd e) = (snd e, Ok tt)) ->
  iter_items step (pre ++ rest) =
    let '(rest', r) := iter_items step rest in (pre ++ rest', r).
Proof.
  induction pre as [|[k v] pre IH]; intros H.
  - cbn [app]. now destruct (iter_items step rest).
  - cbn [app iter_items].
    pose proof (H (k, v) (or_introl eq_refl)) as Hk. cbn [fst snd] in Hk.
    rewrite Hk.
    rewrite IH by (intros e He; apply H; now right).
    now destruct (iter_items step rest).
Qed.

Lemma resolved_entry_step (rec : value -> value -> bool -> value * result unit)
  (paramvalues : value) (matched : bool) (e : string * value) :
  resolved_entry e = true ->
  update_params_entry rec paramvalues matched (fst e) (snd e) = (snd e, Ok tt).
Proof.
  destruct e as [k v]. unfold resolved_entry, update_params_entry. cbn [fst snd].
  destruct v; try reflexivity. intros H. now rewrite H.
Qed.

(** X1: a descriptor in which no entry holds a placeholder is left as it
    is, and resolution succeeds, whatever the caller-supplied values and
    the mode. *)
Theorem update_params_resolved_unchanged
  (items : dict) (paramvalues : value) (matched : bool) :
  forallb resolved_entry items = true ->
  update_params (VDict items) paramvalues matched = (VDict items, Ok tt).
Proof.
  intros H. rewrite update_params_unfold.
  rewrite <- (app_nil_r items) at 1.
  rewrite iter_items_skip.
  - cbn. now rewrite app_nil_r.
  - intros e He. apply resolved_entry_step.
    rewrite forallb_forall in H. now apply H.
Qed.

(** X2: whatever its outcome, resolution returns a dict with the keys of
    the descriptor, in the same order: it adds and removes no entry. *)
Theorem update_params_keeps_keys
  (items : dict) (paramvalues : value) (matched : bool) :
  exists items',
    fst (update_params (VDict items) paramvalues matched) = VDict items' /\
    dict_keys items' = dict_keys items.
Proof.
  rewrite update_params_unfold.
  destruct (iter_items _ items) as [items' r] eqn:E.
  exists items'. split; [reflexivity|].
  eapply iter_items_keys; exact E.
Qed.

(** X3: in substitution mode, a dict whose placeholders are all direct
    ([{get_input: name}] with [name] among the caller's values) is
    resolved in one pass: each placeholder entry becomes the value of its
    name, the other entries stay. *)
Theorem update_params_substitutes (items p : dict) :
  forallb (direct_placeholder p) items = true ->
  update_params (VDict items) (VDict p) true
    = (VDict (map (substitute_entry p) items), Ok tt).
Proof.
  intros H. rewrite update_params_unfold.
  assert (E : iter_items (update_params_entry update_params (VDict p) true) items
              = (map (substitute_entry p) items, Ok tt)).
  { induction items as [|[k v] items IH]; [reflexivity|].
    cbn [forallb] in H. apply andb_prop in H. destruct H as [He Hr].
    cbn [iter_items map]. rewrite (IH Hr).
    unfold substitute_entry, direct_placeholder in *.
    destruct (resolved_entry (k, v)) eqn:Hres.
    - pose proof (resolved_entry_step update_params (VDict p) true (k, v) Hres) as Hs.
      cbn [fst snd] in Hs. rewrite Hs. reflexivity.
    - cbn [orb fst snd] in He |- *.
      unfold resolved_entry in Hres. cbn [snd] in Hres.
      destruct v as [| | | | |vd]; try discriminate.
      apply Bool.negb_false_iff in Hres.
      unfold update_params_entry. rewrite Hres. cbn [negb].
      destruct (dict_get "get_input" vd) as [[| | |name| |]|] eqn:Hg;
        try discriminate.
      unfold dict_has at 1. rewrite Hg.
      unfold py_in, py_getitem. rewrite He.
      unfold dict_has in He. destruct (dict_get name p); [reflexivity|discriminate]. }
  rewrite E. reflexivity.
Qed.

(** X4: when the first entry that holds a placeholder cannot be resolved
    (in keyed mode its key is not among the caller's values; in
    substitution mode the name of its placeholder is not), resolution
    raises the missing-input condition with the key of that entry, not the
    name of the input, and the descriptor is as it was. *)
Theorem update_params_first_failure
  (pre post vd : dict) (k : string) (paramvalues : value) (matched : bool) :
  forallb resolved_entry pre = true ->
  str_in "get_input" (py_str (VDict vd)) = true ->
  (matched = false /\ contains k paramvalues = Ok false) \/
  (matched = true /\
   exists name, dict_get "get_input" vd = Some name /\
                py_in name paramvalues = Ok false) ->
  update_params (VDict (pre ++ (k, VDict vd) :: post)) paramvalues matched
    = (VDict (pre ++ (k, VDict vd) :: post), Raise (InputValuesMissing k)).
Proof.
  intros Hpre Hin Hcase. rewrite update_params_unfold.
  rewrite iter_items_skip.
  - cbn [iter_items].
    assert (Hs : update_params_entry update_params paramvalues matched k (VDict vd)
                 = (VDict vd, Raise (InputValuesMissing k))).
    { unfold update_params_entry. rewrite Hin. cbn [negb].
      destruct Hcase as [[-> Hc]|[-> (name & Hg & Hn)]].
      - cbn [negb]. now rewrite Hc.
      - cbn [negb]. unfold dict_has. rewrite Hg, Hn. reflexivity. }
    rewrite Hs. reflexivity.
  - intros e He. apply resolved_entry_step.
    rewrite forallb_forall in Hpre. now apply Hpre.
Qed.

(** X5: parameters in a legacy translation.  When the descriptor text
    holds no 'get_input', the caller's [param_values] are not read: the
    steps before the unit loop return the descriptor as it came.  When it
    does, a missing or empty [param_values] fails the translation with
    the missing-parameter condition, a text that does not load fails it
    with the not-well-formed condition, and a failure of the resolution
    is the failure of the translation. *)
Theorem legacy_parameter_errors
  (self : TOSCAToHOT) (f da : dict) (text : string) (vnfd_dict : value) :
  fields self = VDict f ->
  dict_has "template" f = false ->
  dict_has "template_url" f = false ->
  vnfd_yaml self = VStr text ->
  (str_in "get_input" text = false ->
   forall dev_attrs vnfd_dict' template_dict,
     legacy_prelude self vnfd_dict dev_attrs = Ok (vnfd_dict', template_dict) ->
     vnfd_dict' = vnfd_dict) /\
  (str_in "get_input" text = true ->
   (truthy (fst (dict_pop "param_values" VNone da)) = false ->
    generate_hot_from_legacy self vnfd_dict (VDict da)
      = Raise ParamYAMLInputMissing) /\
   (forall s, dict_get "param_values" da = Some (VStr s) -> s <> "" ->
      (yaml_load s = None ->
       generate_hot_from_legacy self vnfd_dict (VDict da)
         = Raise ParamYAMLNotWellFormed) /\
      (forall param_vattrs_dict partly e,
         yaml_load s = Some param_vattrs_dict ->
         update_params vnfd_dict param_vattrs_dict false = (partly, Raise e) ->
         generate_hot_from_legacy self vnfd_dict (VDict da) = Raise e))).
Proof.
  intros Hf Ht Hu Hy.
  assert (Hstart : forall dev_attrs,
    legacy_prelude self vnfd_dict dev_attrs =
      (let template_dict := dict_set "outputs" (VDict []) HEAT_TEMPLATE_BASE in
       vnfd_dict <-
         (if str_in "get_input" text
          then process_parameterized_input dev_attrs vnfd_dict
          else Ok vnfd_dict) ;;
       has_description <- contains "description" vnfd_dict ;;
       template_dict <-
         (if has_description : bool then
            description <- getitem vnfd_dict "description" ;;
            Ok (dict_set "description" description template_dict)
          else Ok template_dict) ;;
       Ok (vnfd_dict, VDict template_dict))).
  { intros dev_attrs. unfold legacy_prelude. rewrite Hf, Hy.
    unfold contains at 1 2 3, py_in. rewrite Ht, Hu. reflexivity. }
  split.
  - intros Hno dev_attrs vnfd_dict' template_dict H.
    rewrite Hstart, Hno in H. cbn [bind] in H.
    apply bind_Ok in H. destruct H as (b & _ & H).
    apply bind_Ok in H. destruct H as (t & _ & H).
    now inversion H.
  - intros Hin. unfold generate_hot_from_legacy. rewrite Hstart, Hin.
    split.
    + intros Hfalsy. unfold process_parameterized_input.
      destruct (dict_pop "param_values" VNone da) as [pv da'].
      cbn [fst] in Hfalsy. now rewrite Hfalsy.
    + intros s Hs Hne. unfold process_parameterized_input, dict_pop.
      rewrite Hs. cbn [truthy]. apply String.eqb_neq in Hne. rewrite Hne.
      cbn [negb]. split.
      * now intros ->.
      * intros pv partly e -> Hupd. now rewrite Hupd.
Qed.

(** ** Port synthesis *)

(** X6: on a template that has a [resources] dict (and an [outputs] dict
    when the flag is set), [_handle_port_creation] for a spec with a
    [network] succeeds.  The port is named "<unit>-<network>-port" and is
    an [OS::Neutron::Port]; every key of the interface spec is a property
    of the port with the spec's value, so the spec wins over the
    synthesized defaults; without a [fixed_ips] key in the spec, the port
    has one fixed-IP entry per address, in order; the other resources are
    as they were. *)
Theorem handle_port_creation_port
  (self : TOSCAToHOT) (vdu_id : string) (np t r : dict) (network : value)
  (ips : list value) (flag : value) :
  dict_get "network" np = Some network ->
  NoDup (dict_keys np) ->
  dict_get "resources" t = Some (VDict r) ->
  (truthy flag = true -> exists o, dict_get "outputs" t = Some (VDict o)) ->
  exists template_dict',
    handle_port_creation self vdu_id np (VDict t) ips flag
      = Ok (port_name vdu_id network, template_dict') /\
    getpath template_dict' ["resources"; port_name vdu_id network; "type"]
      = Ok (VStr "OS::Neutron::Port") /\
    (forall k v, dict_get k np = Some v ->
       getpath template_dict'
               ["resources"; port_name vdu_id network; "properties"; k] = Ok v) /\
    (dict_get "fixed_ips" np = None ->
     getpath template_dict'
             ["resources"; port_name vdu_id network; "properties"; "fixed_ips"]
       = Ok (fixed_ips_of ips)) /\
    (forall k, k <> port_name vdu_id network ->
       getpath template_dict' ["resources"; k] = getpath (VDict t) ["resources"; k]).
Proof.
  intros Hnet Hnd Hres Hout.
  unfold handle_port_creation. repeat getitem_step.
  fold (port_name vdu_id network).
  set (port := port_name vdu_id network).
  assert (Htd : exists t1,
    (if truthy flag then make_mgmt_outputs_dict vdu_id port (VDict t)
     else Ok (VDict t)) = Ok (VDict t1) /\
    dict_get "resources" t1 = Some (VDict r)).
  { destruct (truthy flag).
    - destruct (Hout eq_refl) as [o Ho]. unfold make_mgmt_outputs_dict.
      repeat getitem_step. unfold setitem. cbn [bind].
      eexists. split; [reflexivity|].
      rewrite dict_get_set_other by discriminate. exact Hres.
    - eexists. split; [reflexivity | exact Hres]. }
  destruct Htd as (t1 & -> & Hres1). cbn [bind].
  unfold make_port_dict.
  destruct (truthy (unsupported_props self)).
  - cbn -[getitem setitem setitem2 dict_update port_name].
    repeat getitem_step. unfold setitem at 1. cbn [bind app].
    unfold setitem2. repeat getitem_step. unfold setitem. cbn [bind].
    eexists. split; [reflexivity|].
    split; [|split; [|split]].
    + cbn [getpath]. repeat getitem_step. reflexivity.
    + intros k v Hk. cbn [getpath]. repeat getitem_step.
      erewrite getitem_VDict_Some; [reflexivity|].
      rewrite dict_get_update, dict_get_rev, Hk by assumption. reflexivity.
    + intros Hf. cbn [getpath]. repeat getitem_step.
      erewrite getitem_VDict_Some; [reflexivity|].
      rewrite dict_get_update, dict_get_rev, Hf by assumption. reflexivity.
    + intros k Hk. cbn [getpath]. repeat getitem_step.
      unfold getitem, py_getitem.
      rewrite dict_get_set_other by assumption. reflexivity.
  - cbn -[getitem setitem setitem2 dict_update port_name].
    repeat getitem_step. unfold setitem at 1. cbn [bind app].
    unfold setitem2. repeat getitem_step. unfold setitem. cbn [bind].
    eexists. split; [reflexivity|].
    split; [|split; [|split]].
    + cbn [getpath]. repeat getitem_step. reflexivity.
    + intros k v Hk. cbn [getpath]. repeat getitem_step.
      erewrite getitem_VDict_Some; [reflexivity|].
      rewrite dict_get_update, dict_get_rev, Hk by assumption. reflexivity.
    + intros Hf. cbn [getpath]. repeat getitem_step.
      erewrite getitem_VDict_Some; [reflexivity|].
      rewrite dict_get_update, dict_get_rev, Hf by assumption. reflexivity.
    + intros k Hk. cbn [getpath]. repeat getitem_step.
      unfold getitem, py_getitem.
      rewrite dict_get_set_other by assumption. reflexivity.
Qed.

Lemma handle_port_creation_network (self : TOSCAToHOT) (vdu_id : string)
  (np : dict) (td : value) (ips : list value) (flag : value) :
  dict_get "network" np = None ->
  handle_port_creation self vdu_id np td ips flag = Raise (KeyError "network").
Proof.
  intros H. unfold handle_port_creation.
  now rewrite (getitem_VDict_None _ _ H).
Qed.

(** X7: the entry that one interface spec adds to the unit's [networks]
    never carries the [addresses] or the [management] key: it is either a
    port reference or the spec with both keys popped.  A spec that needs a
    port (it has an address list, or a truthy management flag) but names
    no [network] raises [KeyError]. *)
Theorem network_interface_entry (self : TOSCAToHOT) (vdu_id : string)
  (np : dict) (template_dict : value) :
  (forall np' entry template_dict',
     network_interface self vdu_id (VDict np) template_dict
       = Ok (np', entry, template_dict') ->
     getitem entry "addresses" = Raise (KeyError "addresses") /\
     getitem entry "management" = Raise (KeyError "management")) /\
  (dict_get "network" np = None ->
   (exists ips, dict_get "addresses" np = Some (VList ips)) \/
   (dict_get "addresses" np = None /\
    exists flag, dict_get "management" np = Some flag /\ truthy flag = true) ->
   network_interface self vdu_id (VDict np) template_dict
     = Raise (KeyError "network")).
Proof.
  split.
  - intros np' entry td' H. rewrite network_interface_eq in H.
    destruct (dict_has "addresses" np) eqn:Ha.
    + destruct (dict_pop "addresses" (VList []) np) as [ip_list np1].
      destruct (dict_pop "management" (VBool false) np1) as [mgmt_flag np2].
      destruct ip_list; try discriminate.
      bind_inv H. destruct a as [port td1]. inversion H; subst.
      split; reflexivity.
    + pose proof (dict_pop_absent "management" (VBool false) np) as Hm.
      pose proof (dict_pop_other "addresses" "management" (VBool false) np) as Hadd.
      destruct (dict_pop "management" (VBool false) np) as [flag np1].
      cbn [snd] in Hm, Hadd.
      destruct (truthy flag).
      * bind_inv H. destruct a as [port td1]. inversion H; subst.
        split; reflexivity.
      * inversion H; subst. unfold dict_has in Ha.
        split; apply getitem_VDict_None; [|exact Hm].
        rewrite Hadd by discriminate.
        destruct (dict_get "addresses" np); [discriminate | reflexivity].
  - intros Hnet Hneed. rewrite network_interface_eq.
    destruct Hneed as [[ips Hips]|[Hno (flag & Hflag & Ht)]].
    + unfold dict_has, dict_pop. rewrite Hips.
      destruct (dict_get "management" (dict_del "addresses" np)) eqn:Em;
        rewrite handle_port_creation_network; try reflexivity.
      * rewrite dict_get_del_other by discriminate.
        now rewrite dict_get_del_other by discriminate.
      * now rewrite dict_get_del_other by discriminate.
    + unfold dict_has, dict_pop. rewrite Hno, Hflag, Ht.
      rewrite handle_port_creation_network; [reflexivity|].
      now rewrite dict_get_del_other by discriminate.
Qed.

(** X8: [_make_mgmt_outputs_dict] adds the output "mgmt_ip-<unit>", which
    reads the first fixed IP address of the port, and changes nothing
    else: the other outputs and the other sections of the template are as
    they were.  A template without [outputs] raises [KeyError]. *)
Theorem make_mgmt_outputs_dict_output (vdu_id port : string) (t : dict) :
  (forall o, dict_get "outputs" t = Some (VDict o) ->
   exists template_dict',
     make_mgmt_outputs_dict vdu_id port (VDict t) = Ok template_dict' /\
     getpath template_dict' ["outputs"; ("mgmt_ip-" ++ vdu_id)%string]
       = Ok (mgmt_output port) /\
     (forall k, k <> ("mgmt_ip-" ++ vdu_id)%string ->
        getpath template_dict' ["outputs"; k] = getpath (VDict t) ["outputs"; k]) /\
     (forall k, k <> "outputs" ->
        getitem template_dict' k = getitem (VDict t) k)) /\
  (dict_get "outputs" t = None ->
   make_mgmt_outputs_dict vdu_id port (VDict t) = Raise (KeyError "outputs")).
Proof.
  split.
  - intros o Ho. unfold make_mgmt_outputs_dict.
    repeat getitem_step. unfold setitem. cbn [bind].
    eexists. split; [reflexivity|]. split; [|split].
    + cbn [getpath]. repeat getitem_step. reflexivity.
    + intros k Hk. cbn [getpath].
      rewrite (getitem_VDict_Some _ _ _ Ho). repeat getitem_step.
      unfold getitem, py_getitem.
      rewrite dict_get_set_other by assumption. reflexivity.
    + intros k Hk. unfold getitem, py_getitem.
      rewrite dict_get_set_other by assumption. reflexivity.
  - intros Ho. unfold make_mgmt_outputs_dict.
    now rewrite (getitem_VDict_None _ _ Ho).
Qed.

Lemma network_interface_resources (self : TOSCAToHOT) (vdu_id : string)
  (network_param td np' entry td' : value) :
  network_interface self vdu_id network_param td = Ok (np', entry, td') ->
  (resource_count td' <= S (resource_count td))%nat.
Proof.
  destruct network_param; try discriminate.
  rewrite network_interface_eq. intros H.
  destruct (dict_has "addresses" d).
  - destruct (dict_pop "addresses" (VList []) d) as [ip_list np1].
    destruct (dict_pop "management" (VBool false) np1) as [mgmt_flag np2].
    destruct ip_list; try discriminate.
    bind_inv H. destruct a as [port td1]. inversion H; subst.
    eapply handle_port_creation_resources; eassumption.
  - destruct (dict_pop "management" (VBool false) d) as [flag np1].
    destruct (truthy flag).
    + bind_inv H. destruct a as [port td1]. inversion H; subst.
      eapply handle_port_creation_resources; eassumption.
    + inversion H; subst. lia.
Qed.

Lemma network_interfaces_loop_counts (self : TOSCAToHOT) (vdu_id : string)
  (ifs ifs' : dict) (nl nl' : list value) (td td' : value) :
  network_interfaces_loop self vdu_id ifs nl td = Ok (ifs', nl', td') ->
  length nl' = (length nl + length ifs)%nat /\
  dict_keys ifs' = dict_keys ifs /\
  (resource_count td' <= resource_count td + length ifs)%nat.
Proof.
  revert ifs' nl nl' td td'.
  induction ifs as [|[name np] ifs IH]; intros ifs' nl nl' td td' H.
  - cbn in H. inversion H; subst. cbn. repeat split; lia.
  - cbn [network_interfaces_loop] in H.
    bind_inv H. destruct a as [[np1 entry] td1].
    bind_inv H. destruct a as [[rest nl1] td2].
    inversion H; subst.
    apply network_interface_resources in Ha.
    apply IH in Ha0. destruct Ha0 as (Hl & Hk & Hc).
    rewrite length_app in Hl. cbn [length dict_keys map fst] in *.
    repeat split; [lia | now f_equal | lia].
Qed.

(** X9: [_process_vdu_network_interfaces] gives the unit's [networks] one
    entry per interface, keeps the names of the interfaces, and adds at
    most one resource per interface to the template. *)
Theorem process_vdu_network_interfaces_counts
  (self : TOSCAToHOT) (vdu_id : string) (vdu_dict properties ifs : dict)
  (template_dict : value) (vdu_dict' properties' : dict) (template_dict' : value) :
  dict_get "network_interfaces" vdu_dict = Some (VDict ifs) ->
  process_vdu_network_interfaces self vdu_id vdu_dict properties template_dict
    = Ok (vdu_dict', properties', template_dict') ->
  exists networks ifs',
    dict_get "networks" properties' = Some (VList networks) /\
    length networks = length ifs /\
    dict_get "network_interfaces" vdu_dict' = Some (VDict ifs') /\
    dict_keys ifs' = dict_keys ifs /\
    (resource_count template_dict'
       <= resource_count template_dict + length ifs)%nat.
Proof.
  intros Hifs H. unfold process_vdu_network_interfaces in H.
  rewrite (getitem_VDict_Some _ _ _ Hifs) in H. cbn [bind] in H.
  bind_inv H. destruct a as [[ifs' nl] td1]. inversion H; subst.
  apply network_interfaces_loop_counts in Ha. destruct Ha as (Hl & Hk & Hc).
  exists nl, ifs'. rewrite !dict_get_set_same. repeat split; assumption.
Qed.

(** ** Scaling expansion *)

(** X10: only the first scaling policy of a topology is expanded: the
    policies before it are passed over, and those after it, scaling or
    not, are not read at all. *)
Theorem scaling_first_policy_only
  (pre rest : list value) (policy_dict policy type properties : value)
  (name : string) (scale_resource_type : value) :
  Forall (other_policy SCALING_POLICY) pre ->
  first_item policy_dict = Ok (name, policy) ->
  getitem policy "type" = Ok type ->
  py_eq type (VStr SCALING_POLICY) = true ->
  getitem policy "properties" = Ok properties ->
  scaling_policies_loop (pre ++ policy_dict :: rest) scale_resource_type
    = convert_to_heat_scaling_policy properties scale_resource_type name.
Proof.
  intros Hpre Hf Ht He Hp.
  induction pre as [|q pre IH].
  - cbn [app scaling_policies_loop]. rewrite Hf. cbn [bind].
    rewrite Ht. cbn [bind]. rewrite He, Hp. reflexivity.
  - inversion Hpre as [|? ? (t & Hq & Hne) Hpre']; subst.
    cbn [app scaling_policies_loop].
    unfold policy_type in Hq.
    destruct (first_item q) as [[n p]|]; [|discriminate].
    cbn [bind] in Hq |- *. rewrite Hq. cbn [bind]. rewrite Hne.
    now apply IH.
Qed.

Lemma scaling_policies_loop_none (policies : list value) (srt : value) :
  Forall (other_policy SCALING_POLICY) policies ->
  scaling_policies_loop policies srt = Ok ([], []).
Proof.
  induction 1 as [|q policies (t & Hq & Hne) _ IH]; [reflexivity|].
  cbn [scaling_policies_loop]. unfold policy_type in Hq.
  destruct (first_item q) as [[n p]|]; [|discriminate].
  cbn [bind] in Hq |- *. rewrite Hq. cbn [bind]. now rewrite Hne.
Qed.

(** X11: for a topology without [policies], or whose policies are all of
    another type, scaling expansion reports that no scaling is needed and
    returns the bare scaling template with an empty [resources] and no
    group name. *)
Theorem generate_hot_scaling_without_policy
  (topology : dict) (scale_resource_type : value) :
  dict_get "policies" topology = None \/
  (exists policies, dict_get "policies" topology = Some (VList policies) /\
                    Forall (other_policy SCALING_POLICY) policies) ->
  generate_hot_scaling (VDict topology) scale_resource_type
    = Ok (false, [], scaling_template_without_resources).
Proof.
  intros [Hno|(policies & Hp & Hall)]; unfold generate_hot_scaling.
  - unfold contains, py_in, dict_has. rewrite Hno. reflexivity.
  - unfold contains, py_in, dict_has. rewrite Hp. cbn [bind].
    rewrite (getitem_VDict_Some _ _ _ Hp). cbn [bind py_iter].
    rewrite (scaling_policies_loop_none _ _ Hall). reflexivity.
Qed.

Lemma dict_keys_set_new (k : string) (v : value) (d : dict) :
  dict_get k d = None -> dict_keys (dict_set k v d) = dict_keys d ++ [k].
Proof.
  induction d as [|[k' v'] d IH]; [reflexivity|].
  cbn [dict_get dict_set]. destruct (String.eqb k k'); [discriminate|].
  intros H. cbn [dict_keys map fst app]. f_equal. now apply IH.
Qed.

(** X12: a scaling policy with all its fields expands into exactly three
    resources, in this order: the group "G1", "<name>_scale_out" and
    "<name>_scale_in"; the policy is mapped to the group "G1"; the group
    takes its sizes and cooldown from the policy and scales the given
    resource type; both policy resources point at the group. *)
Theorem scaling_policy_resources
  (policy_prp scale_resource_type : value) (name : string) (i : Z)
  (targets min_instances max_instances default_instances cooldown increment : value) :
  getitem policy_prp "targets" = Ok targets ->
  getitem policy_prp "min_instances" = Ok min_instances ->
  getitem policy_prp "max_instances" = Ok max_instances ->
  getitem policy_prp "default_instances" = Ok default_instances ->
  getitem policy_prp "cooldown" = Ok cooldown ->
  getitem policy_prp "increment" = Ok increment ->
  py_int increment = Ok i ->
  exists resources,
    convert_to_heat_scaling_policy policy_prp scale_resource_type name
      = Ok (resources, [(name, VStr "G1")]) /\
    dict_keys resources
      = ["G1"; get_scaling_policy_name "out" name;
         get_scaling_policy_name "in" name] /\
    dict_get "G1" resources
      = Some (VDict [("type", VStr "OS::Heat::AutoScalingGroup");
                     ("properties",
                      VDict [("min_size", min_instances);
                             ("max_size", max_instances);
                             ("desired_capacity", default_instances);
                             ("cooldown", cooldown);
                             ("resource",
                              VDict [("type", scale_resource_type)])])]) /\
    forall action, action = "out" \/ action = "in" ->
      getpath (VDict resources)
              [get_scaling_policy_name action name; "properties";
               "auto_scaling_group_id"]
        = Ok (VDict [("get_resource", VStr "G1")]).
Proof.
  intros Ht Hmin Hmax Hdef Hcd Hinc Hi.
  unfold convert_to_heat_scaling_policy, convert_to_heat_scaling_group.
  rewrite Ht, Hmin, Hmax, Hdef, Hcd, Hinc. cbn [bind]. rewrite Hi.
  cbn [bind]. unfold setitem2. repeat getitem_step. unfold setitem.
  cbn [bind].
  pose proof (scale_name_not_group "out" name) as Hog.
  pose proof (scale_name_not_group "in" name) as Hig.
  pose proof (scale_names_differ name) as Hoi.
  eexists. split; [reflexivity|].
  set (out_name := get_scaling_policy_name "out" name) in *.
  set (in_name := get_scaling_policy_name "in" name) in *.
  change (dict_set name (VStr (get_scale_group_name targets)) [])
    with [(name, VStr "G1")].
  unfold get_scale_group_name.
  assert (Ho : forall g, dict_get out_name [("G1", g)] = None).
  { intros g. cbn [dict_get]. apply String.eqb_neq in Hog. now rewrite Hog. }
  assert (Hi' : forall g v,
            dict_get in_name (dict_set out_name v [("G1", g)]) = None).
  { intros g v. rewrite dict_get_set_other by congruence.
    cbn [dict_get]. apply String.eqb_neq in Hig. now rewrite Hig. }
  split; [|split].
  - change (dict_set "G1" ?g []) with [("G1", g)].
    rewrite dict_keys_set_new by apply Hi'.
    rewrite dict_keys_set_new by apply Ho. reflexivity.
  - rewrite !dict_get_set_other by congruence. reflexivity.
  - intros action [->| ->]; fold out_name; fold in_name.
    + cbn [getpath]. unfold getitem at 1, py_getitem.
      rewrite dict_get_set_other by congruence.
      rewrite dict_get_set_same. cbn [bind].
      repeat getitem_step. reflexivity.
    + cbn [getpath]. unfold getitem at 1, py_getitem.
      rewrite dict_get_set_same. cbn [bind].
      repeat getitem_step. reflexivity.
Qed.

Lemma int_of_str_double_minus (p : positive) :
  int_of_str ("-" ++ string_of_Z (Z.neg p)) = None.
Proof.
  unfold string_of_Z. cbn [Z.to_int NilZero.string_of_int].
  assert (Hs : NilZero.string_of_uint (Pos.to_uint p)
               = NilEmpty.string_of_uint (Pos.to_uint p)).
  { assert (Hnil : Pos.to_uint p <> Decimal.Nil).
    { intros E. pose proof (DecimalPos.Unsigned.of_to p) as H.
      rewrite E in H. discriminate H. }
    unfold NilZero.string_of_uint. destruct (Pos.to_uint p); congruence. }
  pose proof (string_of_uint_digits (Pos.to_uint p)) as Hd.
  rewrite <- Hs in Hd.
  remember (NilZero.string_of_uint (Pos.to_uint p)) as digits eqn:Edigits.
  assert (Hne : digits <> EmptyString).
  { subst digits. rewrite Hs. destruct (Pos.to_uint p); discriminate. }
  unfold int_of_str. cbn [append].
  assert (Hr : rstrip (String "-" (String "-" digits))
               = String "-" (String "-" digits)).
  { cbn [rstrip]. rewrite (all_digits_rstrip digits Hd).
    destruct digits; [congruence | reflexivity]. }
  rewrite Hr. cbn [lstrip]. change (is_space "-") with false. cbv iota.
  unfold digits_to_Z. cbn [all_digits]. change (is_digit "-") with false.
  reflexivity.
Qed.

(** X13: for every integer increment [I], of either sign, the scale-in
    adjustment is the text made of "-" and the decimal numeral of [I].
    For a negative increment that text starts with two minus signs and is
    no numeral: [int] raises [ValueError] on it. *)
Theorem scale_in_text_any_increment
  (policy_prp scale_resource_type : value) (name : string) (I : Z)
  (targets min_instances max_instances default_instances cooldown : value) :
  getitem policy_prp "targets" = Ok targets ->
  getitem policy_prp "min_instances" = Ok min_instances ->
  getitem policy_prp "max_instances" = Ok max_instances ->
  getitem policy_prp "default_instances" = Ok default_instances ->
  getitem policy_prp "cooldown" = Ok cooldown ->
  getitem policy_prp "increment" = Ok (VInt I) ->
  scaling_adjustment_of "in" name
    (convert_to_heat_scaling_policy policy_prp scale_resource_type name)
    = Some (VStr ("-" ++ string_of_Z I)) /\
  (I < 0 -> py_int (VStr ("-" ++ string_of_Z I)) = Raise ValueError).
Proof.
  intros Ht Hmin Hmax Hdef Hcd Hinc. split.
  - unfold convert_to_heat_scaling_policy, convert_to_heat_scaling_group.
    rewrite Ht, Hmin, Hmax, Hdef, Hcd, Hinc. cbn [bind py_int].
    unfold setitem2. repeat getitem_step. unfold setitem. cbn [bind].
    unfold scaling_adjustment_of. rewrite dict_get_set_same.
    cbn -[string_of_Z]. reflexivity.
  - intros HI. destruct I as [|p|p]; try lia.
    cbn [py_int]. now rewrite int_of_str_double_minus.
Qed.

(** ** Alarm expansion *)

Lemma correlate_loop_none (policies : list value)
  (vnf mon_policy_hot sub_heat_dict : value) :
  Forall (other_policy SCALING_POLICY) policies ->
  correlate_loop policies vnf mon_policy_hot sub_heat_dict
    = Ok (mon_policy_hot, sub_heat_dict).
Proof.
  induction 1 as [|q policies (t & Hq & Hne) _ IH]; [reflexivity|].
  cbn [correlate_loop]. unfold policy_type in Hq.
  destruct (first_item q) as [[n p]|]; [|discriminate].
  cbn [bind] in Hq |- *. rewrite Hq. cbn [bind]. now rewrite Hne.
Qed.

(** X14: in a topology without scaling policy the alarm resource carries
    no [matching_metadata], only its type and the properties of the
    trigger, and the sub-template is returned as it came. *)
Theorem alarm_without_scaling
  (mon_policy vnf sub_heat_dict properties : value) (topology : dict) :
  convert_to_heat_monitoring_prop mon_policy vnf = Ok properties ->
  dict_get "policies" topology = None \/
  (exists policies, dict_get "policies" topology = Some (VList policies) /\
                    Forall (other_policy SCALING_POLICY) policies) ->
  convert_to_heat_monitoring_resource mon_policy vnf sub_heat_dict
                                      (VDict topology)
    = Ok (VDict [("type", VStr "OS::Aodh::Alarm"); ("properties", properties)],
          sub_heat_dict).
Proof.
  intros Hprop Hcase. unfold convert_to_heat_monitoring_resource.
  rewrite Hprop. cbn [bind].
  destruct Hcase as [Hno|(policies & Hp & Hall)];
    unfold contains, py_in, dict_has.
  - rewrite Hno. reflexivity.
  - rewrite Hp. cbn [bind]. rewrite (getitem_VDict_Some _ _ _ Hp).
    cbn [bind py_iter]. now rewrite correlate_loop_none.
Qed.

(** X15: when the service record holds a text [alarm_url], the alarm
    properties carry exactly that target as their one action if the text
    is not empty, and no action list if it is empty. *)
Theorem alarm_actions_with_url
  (mon_policy vnf properties : value) (vnf_attributes : dict) (url : string) :
  getitem vnf "attributes" = Ok (VDict vnf_attributes) ->
  dict_get "alarm_url" vnf_attributes = Some (VStr url) ->
  convert_to_heat_monitoring_prop mon_policy vnf = Ok properties ->
  alarm_actions_of (Ok properties)
    = if String.eqb url "" then None else Some (VList [VStr url]).
Proof.
  intros Hattr Hurl H. unfold convert_to_heat_monitoring_prop in H.
  bind_inv H. destruct a as [name mon_policy_dict].
  do 10 bind_inv H. rewrite Hattr in H. cbn [bind] in H.
  unfold py_get in H. rewrite Hurl in H. cbn [bind py_str truthy] in H.
  destruct (String.eqb url ""); cbn [negb] in H; inversion H; subst;
    reflexivity.
Qed.

Lemma alarm_policies_loop_none (policies : list value)
  (vnf topology heat_dict sub_heat_dict : value) :
  Forall (other_policy ALARMING_POLICY) policies ->
  alarm_policies_loop policies vnf topology heat_dict sub_heat_dict
    = Ok (false, [], heat_dict, sub_heat_dict).
Proof.
  induction 1 as [|q policies (t & Hq & Hne) _ IH]; [reflexivity|].
  cbn [alarm_policies_loop]. unfold policy_type in Hq.
  destruct (first_item q) as [[n p]|]; [|discriminate].
  cbn [bind] in Hq |- *. rewrite Hq. cbn [bind]. now rewrite Hne.
Qed.

Lemma alarm_policies_loop_found (pre rest : list value)
  (policy_dict policy type : value) (name : string)
  (vnf topology heat_dict sub_heat_dict : value) :
  Forall (other_policy ALARMING_POLICY) pre ->
  first_item policy_dict = Ok (name, policy) ->
  getitem policy "type" = Ok type ->
  py_eq type (VStr ALARMING_POLICY) = true ->
  alarm_policies_loop (pre ++ policy_dict :: rest) vnf topology
                      heat_dict sub_heat_dict
    = ('(mon_policy_hot, sub_heat_dict) <-
         convert_to_heat_monitoring_resource policy_dict vnf sub_heat_dict
                                             topology ;;
       heat_dict <- update_resources heat_dict [(name, mon_policy_hot)] ;;
       Ok (true, [(name, mon_policy_hot)], heat_dict, sub_heat_dict)).
Proof.
  intros Hpre Hf Ht He.
  induction pre as [|q pre IH].
  - cbn [app alarm_policies_loop]. rewrite Hf. cbn [bind].
    rewrite Ht. cbn [bind]. rewrite He. reflexivity.
  - inversion Hpre as [|? ? (t & Hq & Hne) Hpre']; subst.
    cbn [app alarm_policies_loop]. unfold policy_type in Hq.
    destruct (first_item q) as [[n p]|]; [|discriminate].
    cbn [bind] in Hq |- *. rewrite Hq. cbn [bind]. rewrite Hne.
    now apply IH.
Qed.

(** X16: for a topology without alarming policy, alarm expansion reports
    no alarm and no alarm resource; the template text of the run and the
    sub-template text are both the parsed template written out again, and
    nothing else of the translator changes. *)
Theorem generate_hot_alarm_resource_without_alarm
  (self : TOSCAToHOT) (topology : dict) (heat_dict : value) :
  simple_ordered_parse (heat_template_yaml self) = Ok heat_dict ->
  dict_get "policies" topology = None \/
  (exists policies, dict_get "policies" topology = Some (VList policies) /\
                    Forall (other_policy ALARMING_POLICY) policies) ->
  generate_hot_alarm_resource self (VDict topology)
    = Ok (set_heat_template_yaml self (VStr (yaml_dump heat_dict)),
          (false, [], VStr (yaml_dump heat_dict))).
Proof.
  intros Hparse Hcase. unfold generate_hot_alarm_resource.
  rewrite Hparse. cbn [bind].
  destruct Hcase as [Hno|(policies & Hp & Hall)];
    unfold contains, py_in, dict_has.
  - rewrite Hno. reflexivity.
  - rewrite Hp. cbn [bind]. rewrite (getitem_VDict_Some _ _ _ Hp).
    cbn [bind py_iter]. rewrite alarm_policies_loop_none by assumption.
    reflexivity.
Qed.

(** X17: only the first alarming policy of a topology is expanded.  Its
    alarm resource is added, under the policy's name, to the resources of
    the run's template, which is written out again; the sub-template text
    is the one that the correlation step returns, without the alarm
    resource. *)
Theorem generate_hot_alarm_resource_first_alarm
  (self : TOSCAToHOT) (topology h r : dict) (pre rest : list value)
  (policy_dict policy type mon_policy_hot sub_heat_dict : value) (name : string) :
  simple_ordered_parse (heat_template_yaml self) = Ok (VDict h) ->
  dict_get "resources" h = Some (VDict r) ->
  dict_get "policies" topology = Some (VList (pre ++ policy_dict :: rest)) ->
  Forall (other_policy ALARMING_POLICY) pre ->
  first_item policy_dict = Ok (name, policy) ->
  getitem policy "type" = Ok type ->
  py_eq type (VStr ALARMING_POLICY) = true ->
  convert_to_heat_monitoring_resource policy_dict (vnf self) (VDict h)
                                      (VDict topology)
    = Ok (mon_policy_hot, sub_heat_dict) ->
  generate_hot_alarm_resource self (VDict topology)
    = Ok (set_heat_template_yaml self
            (VStr (yaml_dump
                     (VDict (dict_set "resources"
                               (VDict (dict_set name mon_policy_hot r)) h)))),
          (true, [(name, mon_policy_hot)], VStr (yaml_dump sub_heat_dict))).
Proof.
  intros Hparse Hres Hp Hpre Hf Ht He Hconv.
  unfold generate_hot_alarm_resource. rewrite Hparse. cbn [bind].
  unfold contains, py_in, dict_has. rewrite Hp. cbn [bind].
  rewrite (getitem_VDict_Some _ _ _ Hp). cbn [bind py_iter].
  rewrite (alarm_policies_loop_found pre rest policy_dict policy type name)
    by assumption.
  rewrite Hconv. cbn [bind]. unfold update_resources.
  rewrite (getitem_VDict_Some _ _ _ Hres). cbn [bind]. reflexivity.
Qed.

(** ** Final assembly *)

Lemma generate_hot_scaling_resources (topology srt : value)
  (b : bool) (names main_dict : dict) :
  generate_hot_scaling topology srt = Ok (b, names, main_dict) ->
  exists r, dict_get "resources" main_dict = Some (VDict r).
Proof.
  unfold generate_hot_scaling. intros H.
  bind_inv H. bind_inv H. destruct a0 as [resources names'].
  inversion H; subst. eexists. reflexivity.
Qed.

Lemma setitem2_other (c : value) (k1 k2 : string) (v c' : value) (k : string) :
  setitem2 c k1 k2 v = Ok c' -> k <> k2 ->
  getpath c' [k1; k] = getpath c [k1; k].
Proof.
  unfold setitem2. intros H Hk. bind_inv H. bind_inv H.
  apply getitem_Ok_dict in Ha. destruct Ha as (d & -> & Hd).
  apply setitem_Ok_dict in Ha0. destruct Ha0 as (i & -> & ->).
  apply setitem_Ok_dict in H. destruct H as (d' & Hd' & ->).
  inversion Hd'; subst d'.
  cbn [getpath]. rewrite (getitem_VDict_Some _ _ _ Hd). repeat getitem_step.
  unfold getitem, py_getitem. rewrite dict_get_set_other by assumption.
  reflexivity.
Qed.

(** X18: when scaling expansion took place, [_handle_scaling] points the
    run at the main template: the [template] field and the record's
    [heat_template] are the main template text, whatever the record held
    before; the record's [scaling.yaml] is the run's flat template text
    and its [scaling_group_names] the serialized group names; the file
    map has the one entry [scaling.yaml], which is the sub-template text
    when an alarm was produced and the flat template text otherwise.  The
    other attributes of the record are as they were. *)
Theorem handle_scaling_expanded
  (self self1 : TOSCAToHOT) (vnfd_dict topology sub_heat_tpl_yaml : value)
  (scaling_group_names main_dict alarm_resource f v a : dict)
  (is_enabled_alarm : bool) :
  getitem vnfd_dict "topology_template" = Ok topology ->
  generate_hot_scaling topology (VStr "scaling.yaml")
    = Ok (true, scaling_group_names, main_dict) ->
  generate_hot_alarm_resource self topology
    = Ok (self1, (is_enabled_alarm, alarm_resource, sub_heat_tpl_yaml)) ->
  fields self = VDict f ->
  vnf self = VDict v ->
  dict_get "attributes" v = Some (VDict a) ->
  exists self' main_dict',
    handle_scaling self vnfd_dict = Ok self' /\
    (if is_enabled_alarm
     then update_resources (VDict main_dict) alarm_resource
     else Ok (VDict main_dict)) = Ok main_dict' /\
    getitem (fields self') "template" = Ok (VStr (yaml_dump main_dict')) /\
    getitem (fields self') "files"
      = Ok (VDict [("scaling.yaml",
                    if is_enabled_alarm then sub_heat_tpl_yaml
                    else heat_template_yaml self1)]) /\
    getpath (vnf self') ["attributes"; "heat_template"]
      = Ok (VStr (yaml_dump main_dict')) /\
    getpath (vnf self') ["attributes"; "scaling.yaml"]
      = Ok (heat_template_yaml self1) /\
    getpath (vnf self') ["attributes"; "scaling_group_names"]
      = Ok (VStr (json_dumps (VDict scaling_group_names))) /\
    forall k, k <> "heat_template" -> k <> "scaling.yaml" ->
              k <> "scaling_group_names" ->
      getpath (vnf self') ["attributes"; k] = getpath (vnf self) ["attributes"; k].
Proof.
  intros Htopo Hscal Halarm Hf Hv Ha.
  destruct (generate_hot_alarm_resource_frame _ _ _ _ Halarm) as [Hv1 Hf1].
  destruct (generate_hot_scaling_resources _ _ _ _ _ Hscal) as [r Hr].
  unfold handle_scaling.
  rewrite Htopo. cbn [bind]. rewrite Hscal. cbn [bind].
  rewrite Halarm. cbn [bind negb]. rewrite Bool.andb_false_r. cbn [bind].
  assert (Hmain : exists main_dict',
    (if is_enabled_alarm
     then update_resources (VDict main_dict) alarm_resource
     else Ok (VDict main_dict)) = Ok main_dict').
  { destruct is_enabled_alarm; [|eauto].
    unfold update_resources. rewrite (getitem_VDict_Some _ _ _ Hr).
    cbn [bind]. unfold setitem. eauto. }
  destruct Hmain as [main' Hmain]. rewrite Hmain. cbn [bind].
  rewrite Hf1, Hf. unfold setitem at 1 2. cbn [bind].
  unfold set_attribute. rewrite Hv.
  set (main_yaml := VStr (yaml_dump main')).
  destruct (setitem2 (VDict v) "attributes" "heat_template" main_yaml)
    as [vnf1|] eqn:E1.
  2:{ unfold setitem2 in E1. rewrite (getitem_VDict_Some _ _ _ Ha) in E1.
      discriminate E1. }
  cbn [bind].
  assert (Hattr : forall c k2 x c', setitem2 c "attributes" k2 x = Ok c' ->
            exists d a', c' = VDict d /\ dict_get "attributes" d = Some (VDict a')).
  { intros c k2 x c' H. unfold setitem2 in H. bind_inv H. bind_inv H.
    apply getitem_Ok_dict in Ha0. destruct Ha0 as (d & -> & Hd).
    apply setitem_Ok_dict in Ha1. destruct Ha1 as (i & -> & ->).
    apply setitem_Ok_dict in H. destruct H as (d' & Hd' & ->).
    inversion Hd'; subst d'. eexists _, _. split; [reflexivity|].
    apply dict_get_set_same. }
  assert (Hnext : forall c k2 x d a',
            c = VDict d -> dict_get "attributes" d = Some (VDict a') ->
            exists c', setitem2 c "attributes" k2 x = Ok c').
  { intros c k2 x d a' -> Hd. unfold setitem2.
    rewrite (getitem_VDict_Some _ _ _ Hd). cbn [bind]. unfold setitem.
    cbn [bind]. eauto. }
  destruct (Hattr _ _ _ _ E1) as (d1 & a1 & Hd1 & Ha1).
  destruct (Hnext vnf1 "scaling.yaml"
              (heat_template_yaml
                 (set_fields self1
                    (VDict (dict_set "files"
                       (VDict [("scaling.yaml",
                                if is_enabled_alarm then sub_heat_tpl_yaml
                                else heat_template_yaml self1)])
                       (dict_set "template" main_yaml f)))))
              d1 a1 Hd1 Ha1) as [vnf2 E2].
  rewrite E2. cbn [bind].
  destruct (Hattr _ _ _ _ E2) as (d2 & a2 & Hd2 & Ha2).
  destruct (Hnext vnf2 "scaling_group_names"
              (VStr (json_dumps (VDict scaling_group_names)))
              d2 a2 Hd2 Ha2) as [vnf3 E3].
  rewrite E3. cbn [bind].
  eexists _, main'. split; [reflexivity|]. split; [reflexivity|].
  cbn [fields vnf set_vnf set_fields].
  split; [|split; [|split; [|split; [|split]]]].
  - repeat getitem_step.
    unfold getitem, py_getitem.
    rewrite dict_get_set_other by discriminate.
    now rewrite dict_get_set_same.
  - apply getitem_VDict_Some, dict_get_set_same.
  - rewrite (setitem2_other _ _ _ _ _ "heat_template" E3) by discriminate.
    rewrite (setitem2_other _ _ _ _ _ "heat_template" E2) by discriminate.
    now apply setitem2_getpath in E1.
  - rewrite (setitem2_other _ _ _ _ _ "scaling.yaml" E3) by discriminate.
    now apply setitem2_getpath in E2.
  - now apply setitem2_getpath in E3.
  - intros k H1 H2 H3.
    rewrite (setitem2_other _ _ _ _ _ k E3) by assumption.
    rewrite (setitem2_other _ _ _ _ _ k E2) by assumption.
    rewrite (setitem2_other _ _ _ _ _ k E1) by assumption.
    reflexivity.
Qed.

(** ** Legacy translation *)

Lemma vdu_user_data_frame (vd props props' : dict) (k : string) :
  vdu_user_data vd props = Ok props' ->
  k <> "user_data" -> k <> "user_data_format" ->
  dict_get k props' = dict_get k props.
Proof.
  unfold vdu_user_data. intros H Hu Hf.
  destruct (dict_has "user_data" vd && dict_has "user_data_format" vd)%bool.
  - bind_inv H. bind_inv H. inversion H; subst.
    now rewrite !dict_get_set_other by assumption.
  - destruct (dict_has "user_data" vd || dict_has "user_data_format" vd)%bool;
      [discriminate|]. now inversion H.
Qed.

Lemma vdu_server_image (self : TOSCAToHOT) (vdu_id : string)
  (vd vd' props : dict) (td td' : value) :
  vdu_server self vdu_id (VDict vd) td = Ok (vd', props, td') ->
  exists image flavor,
    dict_get "vm_image" vd = Some image /\
    dict_get "instance_type" vd = Some flavor /\
    dict_get "image" props = Some image /\
    dict_get "flavor" props = Some flavor.
Proof.
  unfold vdu_server. intros H. do 3 bind_inv H.
  apply getitem_Ok_dict in Ha0. destruct Ha0 as (d0 & E0 & Hi).
  apply getitem_Ok_dict in Ha1. destruct Ha1 as (d1 & E1 & Hf).
  inversion E0; subst d0. inversion E1; subst d1.
  exists a0, a1. split; [exact Hi|]. split; [exact Hf|].
  destruct (dict_has "network_interfaces" vd).
  - unfold process_vdu_network_interfaces in H. bind_inv H.
    destruct a2; try discriminate. bind_inv H.
    destruct a2 as [[ifs nl] t]. inversion H; subst. split; reflexivity.
  - inversion H; subst. split; reflexivity.
Qed.

(** X19: a unit that the loop body translates has a compute resource
    under its own name, of type [OS::Nova::Server], whose [image] and
    [flavor] are the unit's [vm_image] and [instance_type]; and the
    template text of the run is the template as it stands after that
    unit. *)
Theorem legacy_vdu_compute_resource (st st' : legacy_locals)
  (vdu_id : string) (vd : dict) :
  legacy_vdu st vdu_id (VDict vd) = Ok st' ->
  exists image flavor,
    dict_get "vm_image" vd = Some image /\
    dict_get "instance_type" vd = Some flavor /\
    getpath (l_template_dict st') ["resources"; vdu_id; "type"]
      = Ok (VStr "OS::Nova::Server") /\
    resource_property (l_template_dict st') vdu_id "image" = Ok image /\
    resource_property (l_template_dict st') vdu_id "flavor" = Ok flavor /\
    l_heat_template_yaml st' = Some (yaml_dump (l_template_dict st')).
Proof.
  intros H.
  assert (Hs : exists vd' props td',
            vdu_server (l_self st) vdu_id (VDict vd) (l_template_dict st)
              = Ok (vd', props, td')).
  { unfold legacy_vdu in H. bind_inv H. destruct a as [[vd' props] td'].
    eauto. }
  destruct Hs as (vd' & props & td' & Hs).
  destruct (vdu_server_image _ _ _ _ _ _ _ Hs) as (image & flavor & Hi & Hf & Hpi & Hpf).
  destruct (legacy_vdu_properties _ _ _ _ _ _ _ Hs H)
    as (p1 & p2 & H1 & H2 & Hres).
  exists image, flavor. split; [exact Hi|]. split; [exact Hf|].
  split; [|split; [|split]].
  - unfold legacy_vdu in H. rewrite Hs in H. cbn [bind] in H.
    bind_inv H. bind_inv H. bind_inv H. destruct a1 as [vd2 mon].
    bind_inv H. bind_inv H. inversion H; subst st'. cbn [l_template_dict].
    apply setitem2_getpath in Ha3. cbn [getpath] in Ha3 |- *.
    destruct (getitem a2 "resources") as [r|]; [|discriminate].
    cbn [bind] in Ha3 |- *.
    destruct (getitem r vdu_id) as [u|]; [|discriminate].
    cbn [bind] in Ha3. inversion Ha3; subst u. cbn [bind].
    repeat getitem_step. reflexivity.
  - rewrite Hres. apply getitem_VDict_Some.
    rewrite (vdu_placement_config_key_frame _ _ _ "image" H2) by discriminate.
    rewrite (vdu_user_data_frame _ _ _ "image" H1) by discriminate.
    exact Hpi.
  - rewrite Hres. apply getitem_VDict_Some.
    rewrite (vdu_placement_config_key_frame _ _ _ "flavor" H2) by discriminate.
    rewrite (vdu_user_data_frame _ _ _ "flavor" H1) by discriminate.
    exact Hpf.
  - unfold legacy_vdu in H. rewrite Hs in H. cbn [bind] in H.
    bind_inv H. bind_inv H. bind_inv H. destruct a1 as [vd2 mon].
    bind_inv H. bind_inv H. inversion H; subst st'. reflexivity.
Qed.

Lemma py_eq_VStr (v : value) (s : string) :
  py_eq v (VStr s) = true -> v = VStr s.
Proof.
  destruct v; cbn [py_eq]; try discriminate.
  intros H. apply String.eqb_eq in H. now subst.
Qed.

(** X20: the monitoring step of a unit.  A unit without monitoring
    policy, or with the policy 'noop', changes neither the unit nor the
    monitoring document.  A unit with [monitoring_policy: ping] and
    [failure_policy: respawn] is rewritten: its policy becomes the
    structured form, its [failure_policy] is dropped, and the document
    holds the structured form under the unit's name.  Any other policy is
    put into the document under the unit's name as it is. *)
Theorem vdu_monitoring_cases (vdu_id : string) (vd mon : dict) :
  (dict_get "monitoring_policy" vd = None \/
   dict_get "monitoring_policy" vd = Some (VStr "noop") ->
   vdu_monitoring vdu_id vd mon = Ok (vd, mon)) /\
  (dict_get "monitoring_policy" vd = Some (VStr "ping") ->
   dict_get "failure_policy" vd = Some (VStr "respawn") ->
   exists vd' mon',
     vdu_monitoring vdu_id vd mon = Ok (vd', mon') /\
     dict_get "monitoring_policy" vd' = Some ping_respawn /\
     dict_get "failure_policy" vd' = None /\
     (forall k, k <> "monitoring_policy" -> k <> "failure_policy" ->
                dict_get k vd' = dict_get k vd) /\
     getpath (VDict mon') ["vdus"; vdu_id] = Ok ping_respawn) /\
  (forall policy failure_policy,
     dict_get "monitoring_policy" vd = Some policy ->
     py_get (VDict vd) "failure_policy" (VStr "noop") = Ok failure_policy ->
     py_eq policy (VStr "noop") = false ->
     (py_eq policy (VStr "ping") && py_eq failure_policy (VStr "respawn"))%bool
       = false ->
     exists mon',
       vdu_monitoring vdu_id vd mon = Ok (vd, mon') /\
       getpath (VDict mon') ["vdus"; vdu_id] = Ok policy).
Proof.
  split; [|split].
  - intros [H|H]; unfold vdu_monitoring, py_get; rewrite H; reflexivity.
  - intros Hm Hf. unfold vdu_monitoring, py_get. rewrite Hm, Hf.
    cbn [bind py_eq String.eqb Ascii.eqb Bool.eqb andb negb].
    fold ping_respawn.
    erewrite getitem_VDict_Some.
    2:{ rewrite dict_get_del_other by discriminate. apply dict_get_set_same. }
    cbn [bind]. unfold setitem2. repeat getitem_step. unfold setitem.
    cbn [bind]. eexists _, _. split; [reflexivity|].
    split; [|split; [|split]].
    + rewrite dict_get_del_other by discriminate. apply dict_get_set_same.
    + apply dict_get_del_same.
    + intros k H1 H2. rewrite dict_get_del_other by assumption.
      now apply dict_get_set_other.
    + cbn [getpath]. repeat getitem_step. reflexivity.
  - intros policy fp Hm Hf Hnoop Hping. unfold vdu_monitoring.
    unfold py_get at 1. rewrite Hm. cbn [bind]. rewrite Hf. cbn [bind].
    rewrite Hping, Hnoop. cbn [negb].
    rewrite (getitem_VDict_Some _ _ _ Hm). cbn [bind].
    unfold setitem2. repeat getitem_step. unfold setitem. cbn [bind].
    eexists. split; [reflexivity|].
    cbn [getpath]. repeat getitem_step. reflexivity.
Qed.

Lemma substring_length (n : nat) (s : string) :
  (String.length (String.substring 0 n s) <= n)%nat.
Proof.
  revert s. induction n as [|n IH]; intros s.
  - destruct s; cbn; lia.
  - destruct s as [|c s]; cbn; [lia|]. specialize (IH s). lia.
Qed.

Lemma truncate_metadata_get (m m' : dict) :
  truncate_metadata m = Ok m' ->
  dict_keys m' = dict_keys m /\
  forall k v, dict_get k m = Some v ->
    exists v', dict_get k m' = Some v' /\ py_slice_to 255 v = Ok v'.
Proof.
  revert m'. induction m as [|[k0 v0] m IH]; intros m' H.
  - cbn in H. inversion H; subst. split; [reflexivity|]. discriminate.
  - cbn [truncate_metadata] in H. bind_inv H. bind_inv H.
    inversion H; subst. destruct (IH a0 Ha0) as [Hk Hg].
    split; [cbn [dict_keys map fst] in *; now f_equal|].
    intros k v. cbn [dict_get]. destruct (String.eqb k k0).
    + intros E. inversion E; subst. eauto.
    + apply Hg.
Qed.

(** X21: the metadata of a unit that has a [config] mapping.  When the
    step succeeds, [config_drive] is true and every text value of the
    config is in the metadata under its key, cut to its first 255
    characters.  A config value that is neither text nor a list makes the
    truncation raise [TypeError]. *)
Theorem vdu_config_metadata (vd props c : dict) :
  dict_get "config" vd = Some (VDict c) ->
  NoDup (dict_keys c) ->
  dict_get "metadata" props = None ->
  dict_get "placement_policy" vd = None ->
  (forall props',
     vdu_placement_config_key vd props = Ok props' ->
     dict_get "config_drive" props' = Some (VBool true) /\
     forall k s, dict_get k c = Some (VStr s) ->
       getpath (VDict props') ["metadata"; k]
         = Ok (VStr (String.substring 0 255 s)) /\
       (String.length (String.substring 0 255 s) <= 255)%nat) /\
  (forall k v, dict_get k c = Some v -> unsliceable v = true ->
     vdu_placement_config_key vd props = Raise TypeError).
Proof.
  intros Hc Hnd Hm Hp.
  assert (Hupd : forall k, dict_get k (dict_update [] c) = dict_get k c).
  { intros k. rewrite dict_get_update, dict_get_rev by assumption.
    now destruct (dict_get k c). }
  assert (Heq : vdu_placement_config_key vd props =
    (m <- truncate_metadata (dict_update [] c) ;;
     let properties :=
       dict_set "metadata" (VDict m)
                (dict_set "config_drive" (VBool true) props) in
     if dict_has "key_name" vd then
       key_name <- getitem (VDict vd) "key_name" ;;
       Ok (dict_set "key_name" key_name properties)
     else Ok properties)).
  { unfold vdu_placement_config_key. unfold dict_has at 1 2.
    rewrite Hp, Hc. cbn [bind].
    rewrite dict_get_set_other by discriminate. rewrite Hm.
    rewrite (getitem_VDict_Some _ _ _ Hc). cbn [bind py_update].
    destruct (truncate_metadata (dict_update [] c)); reflexivity. }
  split.
  - intros props' H. rewrite Heq in H. bind_inv H.
    destruct (truncate_metadata_get _ _ Ha) as [_ Hg].
    assert (Hprops : forall k, k <> "key_name" ->
              dict_get k props'
              = dict_get k (dict_set "metadata" (VDict a)
                              (dict_set "config_drive" (VBool true) props))).
    { intros k Hk. destruct (dict_has "key_name" vd).
      - bind_inv H. inversion H; subst. now apply dict_get_set_other.
      - inversion H; subst. reflexivity. }
    split.
    + rewrite Hprops by discriminate.
      rewrite dict_get_set_other by discriminate. apply dict_get_set_same.
    + intros k s Hk. split; [|apply substring_length].
      cbn [getpath]. erewrite getitem_VDict_Some.
      2:{ rewrite Hprops by discriminate. apply dict_get_set_same. }
      cbn [bind]. rewrite <- Hupd in Hk.
      destruct (Hg _ _ Hk) as (v' & Hv' & Hs). cbn [py_slice_to] in Hs.
      inversion Hs; subst v'.
      rewrite (getitem_VDict_Some _ _ _ Hv'). reflexivity.
  - intros k v Hk Hu. rewrite Heq. rewrite <- Hupd in Hk.
    assert (Ht : truncate_metadata (dict_update [] c) = Raise TypeError).
    { revert Hk. generalize (dict_update [] c). intros m.
      induction m as [|[k0 v0] m IH]; [discriminate|].
      cbn [dict_get truncate_metadata]. destruct (String.eqb k k0).
      - intros E. inversion E; subst v0.
        destruct v; try discriminate; reflexivity.
      - intros E. specialize (IH E).
        destruct (py_slice_to 255 v0) as [x|e] eqn:Es.
        + cbn [bind]. now rewrite IH.
        + destruct v0; cbn in Es; inversion Es; reflexivity. }
    now rewrite Ht.
Qed.

(** X22: a unit with a [service_type] puts it, serialized under the key
    'service_type', into the attributes of the service record under the
    unit's name, and keeps the other attributes; a unit without one
    leaves the translator as it is. *)
Theorem vdu_service_type_attribute
  (self : TOSCAToHOT) (vdu_id : string) (vd v a : dict) :
  vnf self = VDict v ->
  dict_get "attributes" v = Some (VDict a) ->
  (dict_get "service_type" vd = None ->
   vdu_service_type self vdu_id vd = Ok self) /\
  (forall service_type, dict_get "service_type" vd = Some service_type ->
   exists self',
     vdu_service_type self vdu_id vd = Ok self' /\
     getpath (vnf self') ["attributes"; vdu_id]
       = Ok (VStr (json_dumps (VDict [("service_type", service_type)]))) /\
     (forall k, k <> vdu_id ->
        getpath (vnf self') ["attributes"; k] = getpath (vnf self) ["attributes"; k]) /\
     (forall k, k <> "attributes" -> getitem (vnf self') k = getitem (vnf self) k) /\
     fields self' = fields self /\
     unsupported_props self' = unsupported_props self).
Proof.
  intros Hv Ha. split.
  - intros H. unfold vdu_service_type, dict_has. now rewrite H.
  - intros s Hs. unfold vdu_service_type, dict_has. rewrite Hs.
    rewrite (getitem_VDict_Some _ _ _ Hs). cbn [bind]. rewrite Hv, Ha.
    unfold setitem. cbn [bind]. eexists. split; [reflexivity|].
    cbn [vnf set_vnf fields unsupported_props].
    split; [|split; [|split; [|split]]]; try reflexivity.
    + cbn [getpath]. repeat getitem_step. reflexivity.
    + intros k Hk. cbn [getpath]. rewrite (getitem_VDict_Some _ _ _ Ha).
      repeat getitem_step. unfold getitem, py_getitem.
      rewrite dict_get_set_other by assumption. reflexivity.
    + intros k Hk. unfold getitem, py_getitem.
      rewrite dict_get_set_other by assumption. reflexivity.
Qed.

Lemma setitem2_frame (c : value) (k1 k2 : string) (v c' : value) (k : string) :
  setitem2 c k1 k2 v = Ok c' -> k <> k1 -> getitem c' k = getitem c k.
Proof.
  unfold setitem2. intros H Hk. bind_inv H. bind_inv H.
  apply getitem_Ok_dict in Ha. destruct Ha as (d & -> & Hd).
  apply setitem_Ok_dict in H. destruct H as (d' & Hd' & ->).
  inversion Hd'; subst d'. unfold getitem, py_getitem.
  now rewrite dict_get_set_other by assumption.
Qed.

Lemma handle_port_creation_frame (self : TOSCAToHOT) (vdu_id : string)
  (np : dict) (td : value) (ips : list value) (flag : value)
  (port : string) (td' : value) (k : string) :
  handle_port_creation self vdu_id np td ips flag = Ok (port, td') ->
  k <> "resources" -> k <> "outputs" ->
  getitem td' k = getitem td k.
Proof.
  unfold handle_port_creation. intros H Hr Ho.
  bind_inv H. bind_inv H. do 5 bind_inv H. bind_inv H.
  inversion H; subst.
  rewrite (setitem2_frame _ _ _ _ _ k Ha6) by assumption.
  destruct (truthy flag); [|now inversion Ha0].
  unfold make_mgmt_outputs_dict in Ha0. bind_inv Ha0. bind_inv Ha0.
  apply getitem_Ok_dict in Ha7. destruct Ha7 as (d & -> & _).
  apply setitem_Ok_dict in Ha0. destruct Ha0 as (d' & Hd & ->).
  inversion Hd; subst d'. unfold getitem, py_getitem.
  now rewrite dict_get_set_other by assumption.
Qed.

Lemma network_interfaces_loop_frame (self : TOSCAToHOT) (vdu_id : string)
  (ifs ifs' : dict) (nl nl' : list value) (td td' : value) (k : string) :
  network_interfaces_loop self vdu_id ifs nl td = Ok (ifs', nl', td') ->
  k <> "resources" -> k <> "outputs" ->
  getitem td' k = getitem td k.
Proof.
  intros H Hr Ho. revert ifs' nl nl' td td' H.
  induction ifs as [|[name np] ifs IH]; intros ifs' nl nl' td td' H.
  - cbn in H. now inversion H.
  - cbn [network_interfaces_loop] in H.
    bind_inv H. destruct a as [[np1 entry] td1].
    bind_inv H. destruct a as [[rest nl1] td2].
    inversion H; subst.
    rewrite (IH _ _ _ _ _ Ha0).
    destruct np; try discriminate.
    rewrite network_interface_eq in Ha.
    destruct (dict_has "addresses" d).
    + destruct (dict_pop "addresses" (VList []) d) as [ip_list n1].
      destruct (dict_pop "management" (VBool false) n1) as [mgmt_flag n2].
      destruct ip_list; try discriminate.
      bind_inv Ha. destruct a as [port t1]. inversion Ha; subst.
      eapply handle_port_creation_frame; eassumption.
    + destruct (dict_pop "management" (VBool false) d) as [flag n1].
      destruct (truthy flag).
      * bind_inv Ha. destruct a as [port t1]. inversion Ha; subst.
        eapply handle_port_creation_frame; eassumption.
      * now inversion Ha.
Qed.

Lemma legacy_vdu_frame (st st' : legacy_locals) (vdu_id : string)
  (vdu_dict : value) :
  legacy_vdu st vdu_id vdu_dict = Ok st' ->
  (forall k, k <> "resources" -> k <> "outputs" ->
     getitem (l_template_dict st') k = getitem (l_template_dict st) k) /\
  fields (l_self st') = fields (l_self st) /\
  unsupported_props (l_self st') = unsupported_props (l_self st) /\
  vnfd_yaml (l_self st') = vnfd_yaml (l_self st) /\
  attributes (l_self st') = attributes (l_self st) /\
  l_heat_template_yaml st' = Some (yaml_dump (l_template_dict st')).
Proof.
  intros H. unfold legacy_vdu in H.
  bind_inv H. destruct a as [[vd props] td1].
  bind_inv H. bind_inv H. bind_inv H. destruct a1 as [vd2 mon].
  bind_inv H. bind_inv H. inversion H; subst st'.
  cbn [l_template_dict l_self l_heat_template_yaml].
  assert (Hself : fields a1 = fields (l_self st) /\
                  unsupported_props a1 = unsupported_props (l_self st) /\
                  vnfd_yaml a1 = vnfd_yaml (l_self st) /\
                  attributes a1 = attributes (l_self st)).
  { unfold vdu_service_type in Ha3.
    destruct (dict_has "service_type" vd2);
      [|inversion Ha3; subst; repeat split; reflexivity].
    apply bind_Ok in Ha3. destruct Ha3 as (s & _ & Ha3).
    destruct (vnf (l_self st)); try discriminate.
    apply bind_Ok in Ha3. destruct Ha3 as (x & _ & Ha3).
    inversion Ha3; subst. repeat split; reflexivity. }
  destruct Hself as (Hf & Hu & Hy & Hat).
  repeat split; try assumption.
  intros k Hr Ho.
  rewrite (setitem2_frame _ _ _ _ _ k Ha4) by assumption.
  unfold vdu_server in Ha.
  apply bind_Ok in Ha. destruct Ha as (tdA & Hadd0 & Ha).
  apply bind_Ok in Ha. destruct Ha as (image & _ & Ha).
  apply bind_Ok in Ha. destruct Ha as (flavor & _ & Ha).
  assert (Hadd : getitem tdA k = getitem (l_template_dict st) k).
  { unfold add_server in Hadd0. destruct (l_template_dict st); try discriminate.
    apply bind_Ok in Hadd0. destruct Hadd0 as (x & _ & Hadd0).
    inversion Hadd0; subst. unfold getitem, py_getitem.
    now rewrite dict_get_set_other by assumption. }
  rewrite <- Hadd.
  destruct vdu_dict; try discriminate.
  destruct (dict_has "network_interfaces" d); [|now inversion Ha].
  unfold process_vdu_network_interfaces in Ha.
  apply bind_Ok in Ha. destruct Ha as (ifv & _ & Ha).
  destruct ifv; try discriminate.
  apply bind_Ok in Ha. destruct Ha as ([[ifs nl] t] & Hloop & Ha).
  inversion Ha; subst.
  eapply network_interfaces_loop_frame; eassumption.
Qed.

Lemma legacy_loop_frame (vdus : dict) (st st' : legacy_locals) :
  legacy_loop vdus st = Ok st' ->
  (forall k, k <> "resources" -> k <> "outputs" ->
     getitem (l_template_dict st') k = getitem (l_template_dict st) k) /\
  fields (l_self st') = fields (l_self st) /\
  unsupported_props (l_self st') = unsupported_props (l_self st) /\
  vnfd_yaml (l_self st') = vnfd_yaml (l_self st) /\
  attributes (l_self st') = attributes (l_self st) /\
  (vdus <> [] ->
   l_heat_template_yaml st' = Some (yaml_dump (l_template_dict st'))).
Proof.
  revert st. induction vdus as [|[vdu_id vdu_dict] vdus IH]; intros st H.
  - cbn in H. inversion H; subst. repeat split; congruence.
  - cbn [legacy_loop] in H. bind_inv H.
    destruct (legacy_vdu_frame _ _ _ _ Ha) as (Ht & Hf & Hu & Hy & Hat & Hd).
    destruct (IH _ H) as (Ht' & Hf' & Hu' & Hy' & Hat' & Hd').
    repeat split; try congruence.
    + intros k Hr Ho. rewrite Ht' by assumption. now apply Ht.
    + intros _. destruct vdus as [|e vdus'].
      * cbn in H. inversion H; subst. exact Hd.
      * apply Hd'. discriminate.
Qed.

(** X23: a legacy translation that returns has produced the text of a
    template that starts from the template base: it carries the version
    "2013-05-23" and, when the resolved descriptor has a [description],
    that description.  The run leaves the fields, the unsupported-property
    map, the descriptor text and the descriptor attributes of the
    translator as they were, and its monitoring document is a dict. *)
Theorem generate_hot_from_legacy_template
  (self self' : TOSCAToHOT) (vnfd_dict dev_attrs vnfd_dict' template0 : value) :
  legacy_prelude self vnfd_dict dev_attrs = Ok (vnfd_dict', template0) ->
  generate_hot_from_legacy self vnfd_dict dev_attrs = Ok self' ->
  exists template_dict m,
    heat_template_yaml self' = VStr (yaml_dump template_dict) /\
    getitem template_dict "heat_template_version" = Ok (VStr "2013-05-23") /\
    (forall d, vnfd_dict' = VDict d ->
       dict_has "description" d = true ->
       getitem template_dict "description" = getitem vnfd_dict' "description") /\
    monitoring_dict self' = VDict m /\
    fields self' = fields self /\
    unsupported_props self' = unsupported_props self /\
    vnfd_yaml self' = vnfd_yaml self /\
    attributes self' = attributes self.
Proof.
  intros Hp H. unfold generate_hot_from_legacy in H. rewrite Hp in H.
  cbn [bind] in H.
  apply bind_Ok in H. destruct H as (vdus & Hvdus & H).
  destruct vdus as [| | | | |units]; try discriminate.
  apply bind_Ok in H. destruct H as (st & Hloop & H).
  destruct (legacy_loop_frame _ _ _ Hloop) as (Ht & Hf & Hu & Hy & Hat & Hd).
  cbn [l_template_dict l_self] in *.
  destruct (l_heat_template_yaml st) as [y|] eqn:Ey; [|discriminate].
  inversion H; subst self'.
  cbn [heat_template_yaml monitoring_dict fields unsupported_props vnfd_yaml
       attributes set_monitoring_dict set_heat_template_yaml].
  assert (Hne : units <> []).
  { intros ->. cbn in Hloop. inversion Hloop; subst st. discriminate Ey. }
  specialize (Hd Hne). inversion Hd; subst y.
  exists (l_template_dict st), (l_monitoring_dict st).
  split; [reflexivity|].
  unfold legacy_prelude in Hp.
  apply bind_Ok in Hp. destruct Hp as (b1 & _ & Hp).
  destruct b1; [discriminate|].
  apply bind_Ok in Hp. destruct Hp as (b2 & _ & Hp).
  destruct b2; [discriminate|].
  apply bind_Ok in Hp. destruct Hp as (has_input & _ & Hp).
  apply bind_Ok in Hp. destruct Hp as (resolved & _ & Hp).
  apply bind_Ok in Hp. destruct Hp as (has_description & Hhd & Hp).
  apply bind_Ok in Hp. destruct Hp as (t1 & Ht1 & Hp).
  inversion Hp; subst resolved template0. clear Hp.
  repeat split; try assumption.
  - rewrite Ht by discriminate.
    destruct has_description.
    + apply bind_Ok in Ht1. destruct Ht1 as (description & _ & Ht1).
      inversion Ht1; subst. reflexivity.
    + inversion Ht1; subst. reflexivity.
  - intros d0 -> Hdesc. rewrite Ht by discriminate.
    unfold contains, py_in in Hhd. rewrite Hdesc in Hhd.
    inversion Hhd; subst has_description.
    apply bind_Ok in Ht1. destruct Ht1 as (description & Hdescr & Ht1).
    inversion Ht1; subst.
    rewrite Hdescr. reflexivity.
Qed.

(** ** Descriptor and fields *)

Ltac in_cases H := cbn in H; repeat (destruct H as [H|H]); try contradiction.

Lemma override_keys_NoDup : NoDup ["stack_name"; "template_url"; "template"].
Proof.
  repeat (constructor; [intros H; in_cases H; discriminate H|]). constructor.
Qed.

Lemma serialized_keys_NoDup : NoDup ["files"; "parameters"].
Proof.
  repeat (constructor; [intros H; in_cases H; discriminate H|]). constructor.
Qed.

Lemma override_key_not_serialized (k : string) :
  In k ["stack_name"; "template_url"; "template"] ->
  ~ In k ["files"; "parameters"].
Proof. intros H Hin. in_cases H; subst k; in_cases Hin; discriminate Hin. Qed.

Lemma serialized_key_not_override (k : string) :
  k = "files" \/ k = "parameters" ->
  ~ In k ["stack_name"; "template_url"; "template"].
Proof. intros [->| ->] Hin; in_cases Hin; discriminate Hin. Qed.

Lemma other_key_not_override (k : string) :
  ~ In k ["stack_name"; "template_url"; "template"; "files"; "parameters"] ->
  ~ In k ["stack_name"; "template_url"; "template"].
Proof.
  intros H Hin. apply H. in_cases Hin; subst k; cbn;
    [left | right; left | right; right; left]; reflexivity.
Qed.

Lemma other_key_not_serialized (k : string) :
  ~ In k ["stack_name"; "template_url"; "template"; "files"; "parameters"] ->
  ~ In k ["files"; "parameters"].
Proof.
  intros H Hin. apply H. in_cases Hin; subst k; cbn;
    [right; right; right; left | right; right; right; right; left];
    reflexivity.
Qed.

Lemma dict_get_absent_del (k k' : string) (d : dict) :
  dict_get k d = None -> dict_get k (dict_del k' d) = None.
Proof.
  intros H. destruct (String.eqb_spec k k') as [->|Hne].
  - apply dict_get_del_same.
  - now rewrite dict_get_del_other.
Qed.

Lemma contains_VDict (k : string) (d : dict) :
  contains k (VDict d) = Ok (dict_has k d).
Proof. reflexivity. Qed.

Lemma pop_present_spec (keys : list string) (d taken : dict) (rest' : value) :
  pop_present keys (VDict d) = Ok (taken, rest') ->
  exists rest,
    rest' = VDict rest /\
    (forall k, In k keys -> dict_get k rest = None) /\
    (forall k, ~ In k keys -> dict_get k rest = dict_get k d) /\
    (forall k, In k keys -> dict_get k taken = dict_get k d) /\
    (forall k, ~ In k keys -> dict_get k taken = None) /\
    (forall k, dict_get k d = None -> dict_get k rest = None).
Proof.
  revert d taken rest'.
  induction keys as [|key keys IH]; intros d taken rest' H.
  - cbn in H. inversion H; subst. exists d.
    repeat split; try contradiction; auto.
  - cbn [pop_present] in H. rewrite contains_VDict in H. cbn [bind] in H.
    unfold dict_has in H.
    destruct (dict_get key d) as [v|] eqn:Ek.
    + cbn [py_pop] in H. rewrite Ek in H. cbn [bind] in H.
      apply bind_Ok in H. destruct H as ([taken0 rest0] & E & H).
      inversion H; subst taken rest'. clear H.
      destruct (IH _ _ _ E) as (rest & -> & H1 & H2 & H3 & H4 & H5).
      exists rest. split; [reflexivity|]. repeat split.
      * intros k [->|Hin].
        -- apply H5. apply dict_get_del_same.
        -- now apply H1.
      * intros k Hn. rewrite H2 by (intros Hin; apply Hn; now right).
        apply dict_get_del_other. intros ->. apply Hn. now left.
      * intros k Hin. cbn [dict_get].
        destruct (String.eqb_spec k key) as [->|Hne]; [now rewrite Ek|].
        destruct Hin as [->|Hin]; [congruence|].
        rewrite H3 by assumption. now apply dict_get_del_other.
      * intros k Hn. cbn [dict_get].
        destruct (String.eqb_spec k key) as [->|Hne].
        -- exfalso. apply Hn. now left.
        -- apply H4. intros Hin. apply Hn. now right.
      * intros k Hk. apply H5. now apply dict_get_absent_del.
    + destruct (IH _ _ _ H) as (rest & -> & H1 & H2 & H3 & H4 & H5).
      exists rest. split; [reflexivity|]. repeat split.
      * intros k [->|Hin]; [now apply H5 | now apply H1].
      * intros k Hn. apply H2. intros Hin. apply Hn. now right.
      * intros k [->|Hin].
        -- destruct (in_dec string_dec k keys) as [Hin|Hn].
           ++ now apply H3.
           ++ rewrite Ek. now apply H4.
        -- now apply H3.
      * intros k Hn. apply H4. intros Hin. apply Hn. now right.
      * exact H5.
Qed.

Lemma dict_get_None_keys (k : string) (d : dict) :
  dict_get k d = None -> ~ In k (dict_keys d).
Proof.
  induction d as [|[k' v'] d IH]; intros Hg Hin; [contradiction|].
  cbn [dict_get] in Hg.
  destruct (String.eqb_spec k k') as [->|Hne]; [discriminate|].
  destruct Hin as [Heq|Hin]; [cbn in Heq; congruence | now apply IH].
Qed.

Lemma pop_present_NoDup (keys : list string) (d taken : dict) (rest' : value) :
  NoDup keys -> pop_present keys (VDict d) = Ok (taken, rest') ->
  NoDup (dict_keys taken).
Proof.
  intros Hnd. revert d taken rest'.
  induction Hnd as [|key keys Hnotin Hnd IH]; intros d taken rest' H.
  - cbn in H. inversion H; subst. constructor.
  - cbn [pop_present] in H. rewrite contains_VDict in H. cbn [bind] in H.
    unfold dict_has in H.
    destruct (dict_get key d) as [v|] eqn:Ek.
    + cbn [py_pop] in H. rewrite Ek in H. cbn [bind] in H.
      apply bind_Ok in H. destruct H as ([taken0 rest0] & E & H).
      inversion H; subst taken rest'. clear H.
      cbn [dict_keys map fst]. constructor.
      * destruct (pop_present_spec _ _ _ _ E) as (rest & _ & _ & _ & _ & H4 & _).
        apply dict_get_None_keys. now apply H4.
      * eapply IH; exact E.
    + eapply IH; exact H.
Qed.

Lemma load_keys_spec (keys : list string) (f a f' : dict) (a'' : value) :
  load_keys keys f (VDict a) = Ok (f', a'') ->
  exists a',
    a'' = VDict a' /\
    (forall k, ~ In k keys ->
       dict_get k f' = dict_get k f /\ dict_get k a' = dict_get k a) /\
    (forall k, In k keys -> dict_get k a' = None) /\
    (forall k, dict_get k a = None -> dict_get k a' = None).
Proof.
  revert f a f' a''.
  induction keys as [|key keys IH]; intros f a f' a'' H.
  - cbn in H. inversion H; subst. exists a.
    repeat split; try contradiction; auto.
  - cbn [load_keys] in H. rewrite contains_VDict in H. cbn [bind] in H.
    unfold dict_has in H.
    destruct (dict_get key a) as [v|] eqn:Ek.
    + cbn [py_pop] in H. rewrite Ek in H. cbn [bind] in H.
      apply bind_Ok in H. destruct H as (x & Hx & H).
      destruct (IH _ _ _ _ H) as (a' & -> & H1 & H2 & H3).
      exists a'. split; [reflexivity|].
      split; [|split].
      * intros k Hn.
        assert (Hn' : ~ In k keys) by (intros Hin; apply Hn; now right).
        assert (Hne : k <> key) by (intros ->; apply Hn; now left).
        destruct (H1 k Hn') as (Hf & Ha). split.
        -- rewrite Hf. now apply dict_get_set_other.
        -- rewrite Ha. now apply dict_get_del_other.
      * intros k [->|Hin]; [apply H3, dict_get_del_same | now apply H2].
      * intros k Hk. apply H3. now apply dict_get_absent_del.
    + destruct (IH _ _ _ _ H) as (a' & -> & H1 & H2 & H3).
      exists a'. split; [reflexivity|].
      split; [|split].
      * intros k Hn. apply H1. intros Hin. apply Hn. now right.
      * intros k [->|Hin]; [now apply H3 | now apply H2].
      * exact H3.
Qed.

Lemma merge_keys_spec (keys : list string) (f d f' : dict) (d'' : value) :
  merge_keys keys f (VDict d) = Ok (f', d'') ->
  exists d',
    d'' = VDict d' /\
    (forall k, ~ In k keys ->
       dict_get k f' = dict_get k f /\ dict_get k d' = dict_get k d) /\
    (forall k, In k keys -> dict_get k d' = None) /\
    (forall k, dict_get k d = None -> dict_get k d' = None).
Proof.
  revert f d f' d''.
  induction keys as [|key keys IH]; intros f d f' d'' H.
  - cbn in H. inversion H; subst. exists d.
    repeat split; try contradiction; auto.
  - cbn [merge_keys] in H. rewrite contains_VDict in H. cbn [bind] in H.
    unfold dict_has in H.
    destruct (dict_get key d) as [v|] eqn:Ek.
    + destruct (match dict_get key f with Some t => t | None => VDict [] end)
        as [| | | | |target]; try discriminate.
      cbn [py_pop] in H. rewrite Ek in H. cbn [bind] in H.
      apply bind_Ok in H. destruct H as (x & Hx & H).
      apply bind_Ok in H. destruct H as (merged & Hm & H).
      destruct (IH _ _ _ _ H) as (d' & -> & H1 & H2 & H3).
      exists d'. split; [reflexivity|].
      split; [|split].
      * intros k Hn.
        assert (Hn' : ~ In k keys) by (intros Hin; apply Hn; now right).
        assert (Hne : k <> key) by (intros ->; apply Hn; now left).
        destruct (H1 k Hn') as (Hf & Ha). split.
        -- rewrite Hf. now apply dict_get_set_other.
        -- rewrite Ha. now apply dict_get_del_other.
      * intros k [->|Hin]; [apply H3, dict_get_del_same | now apply H2].
      * intros k Hk. apply H3. now apply dict_get_absent_del.
    + destruct (IH _ _ _ _ H) as (d' & -> & H1 & H2 & H3).
      exists d'. split; [reflexivity|].
      split; [|split].
      * intros k Hn. apply H1. intros Hin. apply Hn. now right.
      * intros k [->|Hin]; [now apply H3 | now apply H2].
      * exact H3.
Qed.

Lemma dict_get_update_NoDup (k : string) (d other : dict) :
  NoDup (dict_keys other) ->
  dict_get k (dict_update d other) =
    match dict_get k other with Some v => Some v | None => dict_get k d end.
Proof. intros H. now rewrite dict_get_update, dict_get_rev. Qed.

Lemma update_fields_steps
  (self self' : TOSCAToHOT) (a da : dict) (dev_attrs' : value) :
  attributes self = VDict a ->
  getitem (vnf self) "attributes" = Ok (VDict da) ->
  update_fields self = Ok (self', dev_attrs') ->
  exists f0 a0 f1 a1 taken da0 f2 da1,
    pop_present ["stack_name"; "template_url"; "template"] (VDict a)
      = Ok (f0, VDict a0) /\
    load_keys ["files"; "parameters"] f0 (VDict a0) = Ok (f1, VDict a1) /\
    pop_present ["stack_name"; "template_url"; "template"] (VDict da)
      = Ok (taken, VDict da0) /\
    merge_keys ["files"; "parameters"] (dict_update f1 taken) (VDict da0)
      = Ok (f2, VDict da1) /\
    self' = set_fields (set_attributes self (VDict a1)) (VDict f2) /\
    dev_attrs' = VDict da1.
Proof.
  intros Ha Hda H. unfold update_fields in H. rewrite Ha in H.
  apply bind_Ok in H. destruct H as ([f0 a0'] & E0 & H).
  destruct (pop_present_spec _ _ _ _ E0) as (a0 & -> & _).
  apply bind_Ok in H. destruct H as ([f1 a1'] & E1 & H).
  destruct (load_keys_spec _ _ _ _ _ E1) as (a1 & -> & _).
  rewrite Hda in H. cbn [bind py_copy] in H.
  apply bind_Ok in H. destruct H as ([taken da0'] & E2 & H).
  destruct (pop_present_spec _ _ _ _ E2) as (da0 & -> & _).
  apply bind_Ok in H. destruct H as ([f2 da1'] & E3 & H).
  destruct (merge_keys_spec _ _ _ _ _ E3) as (da1 & -> & _).
  inversion H; subst self' dev_attrs'.
  exists f0, a0, f1, a1, taken, da0, f2, da1. repeat split; assumption.
Qed.

Lemma update_fields_spec
  (self self' : TOSCAToHOT) (a da : dict) (dev_attrs' : value) :
  attributes self = VDict a ->
  getitem (vnf self) "attributes" = Ok (VDict da) ->
  update_fields self = Ok (self', dev_attrs') ->
  exists f a' da',
    fields self' = VDict f /\ attributes self' = VDict a' /\
    dev_attrs' = VDict da' /\ vnf self' = vnf self /\
    (forall k, In k ["stack_name"; "template_url"; "template"] ->
       dict_get k f = match dict_get k da with
                      | Some v => Some v
                      | None => dict_get k a
                      end /\
       dict_get k da' = None /\ dict_get k a' = None) /\
    (forall k, ~ In k ["stack_name"; "template_url"; "template";
                       "files"; "parameters"] ->
       dict_get k da' = dict_get k da /\ dict_get k a' = dict_get k a /\
       dict_get k f = None).
Proof.
  intros Ha Hda H.
  destruct (update_fields_steps _ _ _ _ _ Ha Hda H)
    as (f0 & a0 & f1 & a1 & taken & da0 & f2 & da1
        & E0 & E1 & E2 & E3 & -> & ->).
  exists f2, a1, da1.
  cbn [fields attributes vnf set_fields set_attributes].
  destruct (pop_present_spec _ _ _ _ E0)
    as (x0 & Hx0 & P1 & P2 & P3 & P4 & P5).
  inversion Hx0; subst x0. clear Hx0.
  destruct (pop_present_spec _ _ _ _ E2)
    as (y0 & Hy0 & Q1 & Q2 & Q3 & Q4 & Q5).
  inversion Hy0; subst y0. clear Hy0.
  destruct (load_keys_spec _ _ _ _ _ E1) as (x1 & Hx1 & L1 & L2 & L3).
  inversion Hx1; subst x1. clear Hx1.
  destruct (merge_keys_spec _ _ _ _ _ E3) as (y1 & Hy1 & M1 & M2 & M3).
  inversion Hy1; subst y1. clear Hy1.
  pose proof (pop_present_NoDup _ _ _ _ override_keys_NoDup E2) as Hnd.
  do 4 (split; [reflexivity|]). split.
  - intros k Hin.
    assert (Hk : ~ In k ["files"; "parameters"])
      by now apply override_key_not_serialized.
    split; [|split].
    + rewrite (proj1 (M1 k Hk)).
      rewrite dict_get_update_NoDup by exact Hnd.
      rewrite (Q3 k Hin), (proj1 (L1 k Hk)), (P3 k Hin). reflexivity.
    + apply M3. now apply Q1.
    + apply L3. now apply P1.
  - intros k Hn.
    assert (Hk : ~ In k ["files"; "parameters"])
      by now apply other_key_not_serialized.
    assert (Hk3 : ~ In k ["stack_name"; "template_url"; "template"])
      by now apply other_key_not_override.
    split; [|split].
    + rewrite (proj2 (M1 k Hk)). now apply Q2.
    + rewrite (proj2 (L1 k Hk)). now apply P2.
    + rewrite (proj1 (M1 k Hk)).
      rewrite dict_get_update_NoDup by exact Hnd.
      rewrite (Q4 k Hk3), (proj1 (L1 k Hk)). now apply P4.
Qed.

(** X24: [_update_fields] and the three override keys [stack_name],
    [template_url] and [template].  In the fields each of them has the
    value of the service record's attributes when the record has it,
    else the value of the descriptor's attributes, else no value.  The
    three keys are gone from the returned device attributes and from the
    translator's descriptor attributes; every attribute other than these
    three, [files] and [parameters] stays in both; the service record
    itself is not changed. *)
Theorem update_fields_overrides
  (self self' : TOSCAToHOT) (a da : dict) (dev_attrs' : value) :
  attributes self = VDict a ->
  getitem (vnf self) "attributes" = Ok (VDict da) ->
  update_fields self = Ok (self', dev_attrs') ->
  exists f a' da',
    fields self' = VDict f /\ attributes self' = VDict a' /\
    dev_attrs' = VDict da' /\ vnf self' = vnf self /\
    (forall k, In k ["stack_name"; "template_url"; "template"] ->
       dict_get k f = match dict_get k da with
                      | Some v => Some v
                      | None => dict_get k a
                      end /\
       dict_get k da' = None /\ dict_get k a' = None) /\
    (forall k, ~ In k ["stack_name"; "template_url"; "template";
                       "files"; "parameters"] ->
       dict_get k da' = dict_get k da /\ dict_get k a' = dict_get k a /\
       dict_get k f = None).
Proof. apply update_fields_spec. Qed.

Lemma load_keys_in (keys : list string) (f a f' : dict) (a' : value) :
  NoDup keys ->
  load_keys keys f (VDict a) = Ok (f', a') ->
  forall k, In k keys ->
    match dict_get k a with
    | Some v => exists x, json_loads v = Ok x /\ dict_get k f' = Some x
    | None => dict_get k f' = dict_get k f
    end.
Proof.
  intros Hnd. revert f a f' a'.
  induction Hnd as [|key keys Hnotin Hnd IH]; intros f a f' a' H k Hin;
    [contradiction|].
  cbn [load_keys] in H. rewrite contains_VDict in H. cbn [bind] in H.
  unfold dict_has in H.
  destruct (String.eqb_spec k key) as [->|Hne].
  - destruct (dict_get key a) as [v|] eqn:Ek.
    + cbn [py_pop] in H. rewrite Ek in H. cbn [bind] in H.
      apply bind_Ok in H. destruct H as (x & Hx & H).
      destruct (load_keys_spec _ _ _ _ _ H) as (a1 & _ & L1 & _).
      exists x. split; [exact Hx|].
      rewrite (proj1 (L1 key Hnotin)). apply dict_get_set_same.
    + destruct (load_keys_spec _ _ _ _ _ H) as (a1 & _ & L1 & _).
      apply (L1 key Hnotin).
  - destruct Hin as [->|Hin]; [congruence|].
    destruct (dict_get key a) as [v|] eqn:Ek.
    + cbn [py_pop] in H. rewrite Ek in H. cbn [bind] in H.
      apply bind_Ok in H. destruct H as (x & Hx & H).
      specialize (IH _ _ _ _ H k Hin).
      rewrite dict_get_del_other in IH by assumption.
      rewrite dict_get_set_other in IH by assumption. exact IH.
    + exact (IH _ _ _ _ H k Hin).
Qed.

Lemma merge_keys_in (keys : list string) (f d f' : dict) (d' : value) :
  NoDup keys ->
  merge_keys keys f (VDict d) = Ok (f', d') ->
  forall k, In k keys ->
    match dict_get k d with
    | Some w =>
        exists target loaded merged,
          match dict_get k f with Some x => x | None => VDict [] end
            = VDict target /\
          json_loads w = Ok loaded /\
          py_update target loaded = Ok merged /\
          dict_get k f' = Some (VDict merged)
    | None => dict_get k f' = dict_get k f
    end.
Proof.
  intros Hnd. revert f d f' d'.
  induction Hnd as [|key keys Hnotin Hnd IH]; intros f d f' d' H k Hin;
    [contradiction|].
  cbn [merge_keys] in H. rewrite contains_VDict in H. cbn [bind] in H.
  unfold dict_has in H.
  destruct (String.eqb_spec k key) as [->|Hne].
  - destruct (dict_get key d) as [w|] eqn:Ek.
    + destruct (match dict_get key f with Some t => t | None => VDict [] end)
        as [| | | | |target]; try discriminate.
      cbn [py_pop] in H. rewrite Ek in H. cbn [bind] in H.
      apply bind_Ok in H. destruct H as (x & Hx & H).
      apply bind_Ok in H. destruct H as (merged & Hm & H).
      destruct (merge_keys_spec _ _ _ _ _ H) as (d1 & _ & M1 & _).
      exists target, x, merged. repeat split; try assumption.
      rewrite (proj1 (M1 key Hnotin)). apply dict_get_set_same.
    + destruct (merge_keys_spec _ _ _ _ _ H) as (d1 & _ & M1 & _).
      apply (M1 key Hnotin).
  - destruct Hin as [->|Hin]; [congruence|].
    destruct (dict_get key d) as [w|] eqn:Ek.
    + destruct (match dict_get key f with Some t => t | None => VDict [] end)
        as [| | | | |target]; try discriminate.
      cbn [py_pop] in H. rewrite Ek in H. cbn [bind] in H.
      apply bind_Ok in H. destruct H as (x & Hx & H).
      apply bind_Ok in H. destruct H as (merged & Hm & H).
      specialize (IH _ _ _ _ H k Hin).
      rewrite dict_get_del_other in IH by assumption.
      rewrite dict_get_set_other in IH by assumption. exact IH.
    + exact (IH _ _ _ _ H k Hin).
Qed.

(** X25: [_update_fields] and the serialized keys [files] and
    [parameters].  When only the descriptor's attributes have the key,
    the field is the loaded value.  When the service record's attributes
    have it, the descriptor's value (if any) has loaded to a mapping, and
    the field is that mapping (an empty one if the descriptor has none)
    updated with what the record's value loads to; when that is a mapping
    too, the record's entries win key by key.  When neither has the key,
    the fields have no such key. *)
Theorem update_fields_merges
  (self self' : TOSCAToHOT) (a da : dict) (dev_attrs' : value) (key : string) :
  attributes self = VDict a ->
  getitem (vnf self) "attributes" = Ok (VDict da) ->
  update_fields self = Ok (self', dev_attrs') ->
  key = "files" \/ key = "parameters" ->
  exists f,
    fields self' = VDict f /\
    match dict_get key da with
    | None =>
        match dict_get key a with
        | None => dict_get key f = None
        | Some v => exists x, json_loads v = Ok x /\ dict_get key f = Some x
        end
    | Some w =>
        exists target loaded merged,
          match dict_get key a with
          | None => target = []
          | Some v => json_loads v = Ok (VDict target)
          end /\
          json_loads w = Ok loaded /\
          py_update target loaded = Ok merged /\
          dict_get key f = Some (VDict merged) /\
          (forall l, loaded = VDict l ->
             forall k, dict_get k merged
                       = match dict_get k (rev l) with
                         | Some x => Some x
                         | None => dict_get k target
                         end)
    end.
Proof.
  intros Ha Hda H Hkey.
  destruct (update_fields_steps _ _ _ _ _ Ha Hda H)
    as (f0 & a0 & f1 & a1 & taken & da0 & f2 & da1
        & E0 & E1 & E2 & E3 & -> & ->).
  exists f2. cbn [fields set_fields]. split; [reflexivity|].
  assert (Hin : In key ["files"; "parameters"]).
  { destruct Hkey as [->| ->]; cbn; [left | right; left]; reflexivity. }
  assert (Hn3 : ~ In key ["stack_name"; "template_url"; "template"])
    by now apply serialized_key_not_override.
  pose proof serialized_keys_NoDup as Hnd.
  destruct (pop_present_spec _ _ _ _ E0) as (x0 & Hx0 & _ & P2 & _ & P4 & _).
  inversion Hx0; subst x0. clear Hx0.
  destruct (pop_present_spec _ _ _ _ E2) as (y0 & Hy0 & _ & Q2 & _ & Q4 & _).
  inversion Hy0; subst y0. clear Hy0.
  pose proof (load_keys_in _ _ _ _ _ Hnd E1 key Hin) as HL.
  pose proof (merge_keys_in _ _ _ _ _ Hnd E3 key Hin) as HM.
  rewrite (P2 key Hn3) in HL. rewrite (P4 key Hn3) in HL.
  rewrite (Q2 key Hn3) in HM.
  assert (Hupd : dict_get key (dict_update f1 taken) = dict_get key f1).
  { rewrite dict_get_update_NoDup.
    - now rewrite (Q4 key Hn3).
    - eapply pop_present_NoDup; [apply override_keys_NoDup | exact E2]. }
  rewrite Hupd in HM.
  destruct (dict_get key da) as [w|].
  - destruct HM as (target & loaded & merged & Ht & Hl & Hm & Hf).
    exists target, loaded, merged.
    split; [|split; [exact Hl|split; [exact Hm|split; [exact Hf|]]]].
    + destruct (dict_get key a) as [v|].
      * destruct HL as (x & Hx & Hfx). rewrite Hfx in Ht. now subst x.
      * rewrite HL in Ht. now inversion Ht.
    + intros l -> k. cbn [py_update] in Hm. inversion Hm; subst merged.
      apply dict_get_update.
  - rewrite HM. destruct (dict_get key a) as [v|]; exact HL.
Qed.

Lemma get_unsupported_resource_props_fields (self : TOSCAToHOT)
  (heat_client : string -> string -> bool) :
  fields (get_unsupported_resource_props self heat_client) = fields self.
Proof. reflexivity. Qed.

(** X26: a legacy run cannot take a template of its own.  When the
    descriptor's attributes or the service record's attributes carry a
    [template] or a [template_url], [_update_fields] puts it into the
    fields, and the legacy translation that follows (after the capability
    probe) fails on its assertion, whatever the descriptor. *)
Theorem legacy_rejects_given_template
  (self self' : TOSCAToHOT) (a da : dict) (dev_attrs' : value) (key : string)
  (heat_client : string -> string -> bool) (vnfd_dict : value) :
  attributes self = VDict a ->
  getitem (vnf self) "attributes" = Ok (VDict da) ->
  update_fields self = Ok (self', dev_attrs') ->
  key = "template" \/ key = "template_url" ->
  dict_has key a = true \/ dict_has key da = true ->
  generate_hot_from_legacy (get_unsupported_resource_props self' heat_client)
                           vnfd_dict dev_attrs'
    = Raise AssertionError.
Proof.
  intros Ha Hda H Hkey Hhas.
  destruct (update_fields_spec _ _ _ _ _ Ha Hda H)
    as (f & a' & da' & Hf & _ & _ & _ & Hover & _).
  assert (Hin : In key ["stack_name"; "template_url"; "template"]).
  { destruct Hkey as [->| ->]; cbn;
      [right; right; left | right; left]; reflexivity. }
  destruct (Hover key Hin) as (Hfk & _ & _).
  assert (Hpresent : dict_has key f = true).
  { unfold dict_has in *. rewrite Hfk.
    destruct (dict_get key da); [reflexivity|].
    destruct Hhas as [Hh|Hh]; [|discriminate].
    destruct (dict_get key a); [reflexivity | discriminate]. }
  unfold generate_hot_from_legacy, legacy_prelude.
  rewrite get_unsupported_resource_props_fields, Hf.
  unfold contains, py_in. cbn [bind].
  destruct Hkey as [->| ->].
  - now rewrite Hpresent.
  - destruct (dict_has "template" f); [reflexivity|].
    now rewrite Hpresent.
Qed.

(** X27: [_get_vnfd] reads the descriptor text from the [vnfd] attribute
    of the record's descriptor ([None] when there is none) and keeps the
    other descriptor attributes for the run.  It works on a copy: neither
    it nor [_update_fields] after it changes the service record, whose
    descriptor still holds its [vnfd] text. *)
Theorem get_vnfd_copy (self : TOSCAToHOT) (vnfd : value) (a : dict) :
  getitem (vnf self) "vnfd" = Ok vnfd ->
  getitem vnfd "attributes" = Ok (VDict a) ->
  exists self1,
    get_vnfd self = Ok self1 /\
    vnfd_yaml self1
      = match dict_get "vnfd" a with Some text => text | None => VNone end /\
    (exists a', attributes self1 = VDict a' /\
                dict_get "vnfd" a' = None /\
                forall k, k <> "vnfd" -> dict_get k a' = dict_get k a) /\
    vnf self1 = vnf self /\
    forall self2 dev_attrs,
      update_fields self1 = Ok (self2, dev_attrs) ->
      vnf self2 = vnf self /\ vnfd_yaml self2 = vnfd_yaml self1.
Proof.
  intros Hv Ha. unfold get_vnfd. rewrite Hv. cbn [bind]. rewrite Ha.
  cbn [bind py_copy].
  pose proof (dict_pop_absent "vnfd" VNone a) as Habs.
  assert (Hother : forall k, k <> "vnfd" ->
            dict_get k (snd (dict_pop "vnfd" VNone a)) = dict_get k a)
    by (intros k Hk; now apply dict_pop_other).
  assert (Hfst : fst (dict_pop "vnfd" VNone a)
                 = match dict_get "vnfd" a with Some t => t | None => VNone end).
  { unfold dict_pop. now destruct (dict_get "vnfd" a). }
  destruct (dict_pop "vnfd" VNone a) as [text a'].
  cbn [fst snd] in *. eexists. split; [reflexivity|].
  cbn [vnfd_yaml attributes vnf set_vnfd_yaml set_attributes].
  split; [exact Hfst|]. split; [eauto|]. split; [reflexivity|].
  intros self2 dev_attrs H. unfold update_fields in H.
  cbn [attributes vnf set_vnfd_yaml set_attributes] in H.
  apply bind_Ok in H. destruct H as ([f0 a0] & _ & H).
  apply bind_Ok in H. destruct H as ([f1 a1] & _ & H).
  apply bind_Ok in H. destruct H as (va & _ & H).
  apply bind_Ok in H. destruct H as (da & _ & H).
  apply bind_Ok in H. destruct H as ([taken da0] & _ & H).
  apply bind_Ok in H. destruct H as ([f2 da1] & _ & H).
  inversion H; subst. split; reflexivity.
Qed.

Lemma pop_present_total (keys : list string) (d : dict) :
  exists taken rest, pop_present keys (VDict d) = Ok (taken, VDict rest).
Proof.
  revert d. induction keys as [|key keys IH]; intros d.
  - eexists _, _. reflexivity.
  - cbn [pop_present]. rewrite contains_VDict. cbn [bind]. unfold dict_has.
    destruct (dict_get key d) as [v|] eqn:Ek.
    + cbn [py_pop]. rewrite Ek. cbn [bind].
      destruct (IH (dict_del key d)) as (taken & rest & ->). cbn [bind].
      eexists _, _. reflexivity.
    + apply IH.
Qed.

(** X28: the order of failures in [_update_fields].  When the
    descriptor's [files] has loaded to something that is no mapping and
    the service record has [files] as well, the merge raises
    [AttributeError]: the field that the descriptor set has no [update],
    and the record's value is not loaded at all. *)
Theorem update_fields_unmergeable_files
  (self : TOSCAToHOT) (a da : dict) (v x : value) :
  attributes self = VDict a ->
  getitem (vnf self) "attributes" = Ok (VDict da) ->
  dict_get "files" a = Some v ->
  json_loads v = Ok x ->
  (forall t, x <> VDict t) ->
  (forall v', dict_get "parameters" a = Some v' ->
              exists x', json_loads v' = Ok x') ->
  dict_has "files" da = true ->
  update_fields self = Raise AttributeError.
Proof.
  intros Ha Hda Hv Hx Hnd Hp Hhas.
  assert (Hn3 : ~ In "files" ["stack_name"; "template_url"; "template"])
    by (apply serialized_key_not_override; now left).
  assert (Hp3 : ~ In "parameters" ["stack_name"; "template_url"; "template"])
    by (apply serialized_key_not_override; now right).
  unfold update_fields. rewrite Ha.
  destruct (pop_present_total ["stack_name"; "template_url"; "template"] a)
    as (f0 & a0 & E0).
  rewrite E0. cbn [bind].
  destruct (pop_present_spec _ _ _ _ E0) as (x0 & Hx0 & _ & P2 & _ & P4 & _).
  inversion Hx0; subst x0. clear Hx0.
  assert (Hload : exists f1 a1,
            load_keys ["files"; "parameters"] f0 (VDict a0) = Ok (f1, VDict a1) /\
            dict_get "files" f1 = Some x).
  { cbn [load_keys]. rewrite contains_VDict. cbn [bind]. unfold dict_has.
    rewrite (P2 _ Hn3), Hv. cbn [py_pop]. rewrite (P2 _ Hn3), Hv.
    cbn [bind]. rewrite Hx. cbn [bind].
    rewrite contains_VDict. cbn [bind]. unfold dict_has.
    rewrite dict_get_del_other by discriminate. rewrite (P2 _ Hp3).
    destruct (dict_get "parameters" a) as [v'|] eqn:Ev'.
    - cbn [py_pop]. rewrite dict_get_del_other by discriminate.
      rewrite (P2 _ Hp3), Ev'. cbn [bind].
      destruct (Hp v' eq_refl) as (x' & ->). cbn [bind].
      eexists _, _. split; [reflexivity|].
      rewrite dict_get_set_other by discriminate. apply dict_get_set_same.
    - eexists _, _. split; [reflexivity|]. apply dict_get_set_same. }
  destruct Hload as (f1 & a1 & -> & Hf1). cbn [bind].
  rewrite Hda. cbn [bind py_copy].
  destruct (pop_present_total ["stack_name"; "template_url"; "template"] da)
    as (taken & da0 & E2).
  rewrite E2. cbn [bind].
  destruct (pop_present_spec _ _ _ _ E2) as (y0 & Hy0 & _ & Q2 & _ & Q4 & _).
  inversion Hy0; subst y0. clear Hy0.
  cbn [merge_keys]. rewrite contains_VDict. cbn [bind].
  unfold dict_has in *. rewrite (Q2 _ Hn3).
  destruct (dict_get "files" da) as [w|]; [|discriminate].
  rewrite dict_get_update_NoDup
    by (eapply pop_present_NoDup; [apply override_keys_NoDup | exact E2]).
  rewrite (Q4 _ Hn3), Hf1.
  destruct x; try reflexivity. exfalso. now apply (Hnd d).
Qed.

End Externals.

(** * Instances *)

Lemma one_port_per_interface_witness :
  (forall np' entry template_dict',
     network_interface legacy_translator "vdu1" (VDict mgmt_interface)
                       empty_template = Ok (np', entry, template_dict') ->
     (resource_count template_dict' <= 1)%nat) /\
  exists template_dict',
    network_interface legacy_translator "vdu1" (VDict mgmt_interface)
                      empty_template
    = Ok (VDict [("network", VStr "net_mgmt")],
          VDict [("port", VDict [("get_resource", VStr "vdu1-net_mgmt-port")])],
          template_dict') /\
    resource_count template_dict' = 1%nat.
Proof.
  destruct (one_port_per_interface legacy_translator "vdu1" mgmt_interface
              empty_template) as (Hcount & Haddr & _).
  split.
  - exact Hcount.
  - rewrite (Haddr eq_refl). eexists. split; reflexivity.
Defined.


Lemma persisted_template_kept_witness :
  exists self',
    handle_scaling repr_dump repr_dump parse_flat translated plain_vnfd = Ok self' /\
    vnf self' = vnf translated.
Proof.
  epose proof (persisted_template_kept repr_dump repr_dump parse_flat
                 translated _ plain_vnfd) as H.
  edestruct H as [Hkeep _]; [reflexivity ..|].
  apply Hkeep. reflexivity.
Defined.

Lemma legacy_without_units_witness :
  generate_hot_from_legacy no_yaml repr_dump repr_dump legacy_translator
                           no_unit_vnfd (VDict [])
  = Raise (UnboundLocalError "heat_template_yaml").
Proof.
  exact (proj1 (legacy_without_units no_yaml repr_dump repr_dump
                  legacy_translator no_unit_vnfd (VDict []) eq_refl)).
Defined.

(** C8 as stated fails for a unit whose other fields do not translate.  A
    unit with a lone user-data field and no image fails with [KeyError]
    for the image, before the user-data fields are looked at; a unit with
    both fields and a number in its config fails with [TypeError] in the
    config step, so that no template with its compute resource is
    returned. *)
Lemma user_data_check_not_reached :
  (xorb (dict_has "user_data" imageless_unit)
        (dict_has "user_data_format" imageless_unit) = true /\
   generate_hot_from_legacy no_yaml repr_dump repr_dump legacy_translator
     (VDict [("vdus", VDict [("vdu1", VDict imageless_unit)])]) (VDict [])
   = Raise (KeyError "vm_image")) /\
  ((dict_has "user_data" numeric_config_unit
    && dict_has "user_data_format" numeric_config_unit)%bool = true /\
   generate_hot_from_legacy no_yaml repr_dump repr_dump legacy_translator
     (VDict [("vdus", VDict [("vdu1", VDict numeric_config_unit)])]) (VDict [])
   = Raise TypeError).
Proof. repeat split; reflexivity. Qed.

Lemma user_data_pair_witness :
  (legacy_vdu repr_dump repr_dump first_unit_locals "vdu1"
              (VDict lone_user_data_unit) = Raise UserDataFormatNotFound /\
   generate_hot_from_legacy no_yaml repr_dump repr_dump legacy_translator
     (VDict [("vdus", VDict [("vdu1", VDict lone_user_data_unit)])]) (VDict [])
   = Raise UserDataFormatNotFound) /\
  (exists st',
     legacy_vdu repr_dump repr_dump first_unit_locals "vdu1"
                (VDict complete_user_data_unit) = Ok st' /\
     resource_property (l_template_dict st') "vdu1" "user_data"
       = Ok (VStr "#!/bin/sh") /\
     resource_property (l_template_dict st') "vdu1" "user_data_format"
       = Ok (VStr "RAW")) /\
  (exists st',
     legacy_vdu repr_dump repr_dump first_unit_locals "vdu1"
                (VDict plain_unit) = Ok st' /\
     resource_property (l_template_dict st') "vdu1" "user_data"
       = Raise (KeyError "user_data") /\
     resource_property (l_template_dict st') "vdu1" "user_data_format"
       = Raise (KeyError "user_data_format")).
Proof.
  split; [|split].
  - edestruct (user_data_pair no_yaml repr_dump repr_dump first_unit_locals
                 "vdu1" lone_user_data_unit) as [Hlone _]; [reflexivity|].
    destruct (Hlone eq_refl) as [Hunit Hrun].
    split; [exact Hunit|].
    eapply (Hrun legacy_translator) with (pre := []) (rest := []); reflexivity.
  - edestruct (user_data_pair no_yaml repr_dump repr_dump first_unit_locals
                 "vdu1" complete_user_data_unit) as (_ & Hboth & _);
      [reflexivity|].
    destruct (Hboth (VStr "#!/bin/sh") (VStr "RAW") eq_refl eq_refl)
      as (_ & Hres & Hret).
    edestruct Hret as [st' Hst']; [reflexivity | reflexivity |].
    exists st'. split; [exact Hst' | exact (Hres st' Hst')].
  - edestruct (user_data_pair no_yaml repr_dump repr_dump first_unit_locals
                 "vdu1" plain_unit) as (_ & _ & Hnone); [reflexivity|].
    destruct (Hnone eq_refl eq_refl) as (_ & Hres & Hret).
    edestruct Hret as [st' Hst']; [reflexivity | reflexivity |].
    exists st'. split; [exact Hst' | exact (Hres st' Hst')].
Defined.

Lemma port_security_default_witness :
  exists template_dict',
    handle_port_creation
      (get_unsupported_resource_props legacy_translator (fun _ _ => false))
      "vdu1" [("network", VStr "net_mgmt")] empty_template
      [VStr "10.0.0.5"] (VBool true)
      = Ok ("vdu1-net_mgmt-port", template_dict') /\
    getpath template_dict'
            ["resources"; "vdu1-net_mgmt-port"; "properties"; "value_specs"]
      = Ok (VDict [("port_security_enabled", VBool false)]) /\
    getpath template_dict'
            ["resources"; "vdu1-net_mgmt-port"; "properties";
             "port_security_enabled"]
      = Raise (KeyError "port_security_enabled").
Proof.
  pose proof (port_security_default legacy_translator (fun _ _ => false)
                "vdu1" [("network", VStr "net_mgmt")]
                [("heat_template_version", VStr "2013-05-23");
                 ("outputs", VDict []); ("resources", VDict [])]
                [] (VStr "net_mgmt") [VStr "10.0.0.5"] (VBool true)) as Hthm.
  cbv zeta in Hthm.
  destruct Hthm as (td & Hcall & _ & _ & Hsec & Hother).
  - reflexivity.
  - constructor; [intros H; exact H | constructor].
  - reflexivity.
  - intros _. eexists. reflexivity.
  - exists td. split; [exact Hcall|]. split; [exact Hsec|].
    apply Hother; [left; reflexivity | discriminate | reflexivity].
Defined.

(** ** Instances of the further properties *)

Lemma update_params_resolved_unchanged_witness :
  update_params (VDict resolved_descriptor) first_unit_values false
    = (VDict resolved_descriptor, Ok tt).
Proof.
  apply (update_params_resolved_unchanged resolved_descriptor first_unit_values
           false).
  reflexivity.
Defined.

Lemma update_params_substitutes_witness :
  update_params (VDict flat_placeholders) (VDict flat_values) true
    = (VDict [("vm_image", VStr "cirros"); ("instance_type", VStr "m1.tiny");
              ("key_name", VStr "admin")], Ok tt).
Proof.
  apply (update_params_substitutes flat_placeholders flat_values).
  reflexivity.
Defined.

Lemma update_params_first_failure_witness :
  update_params (VDict flat_placeholders) (VDict [("key", VStr "admin")]) true
    = (VDict flat_placeholders, Raise (InputValuesMissing "vm_image")).
Proof.
  apply (update_params_first_failure []
           [("instance_type", VStr "m1.tiny");
            ("key_name", VDict [("get_input", VStr "key")])]
           [("get_input", VStr "image")] "vm_image"
           (VDict [("key", VStr "admin")]) true).
  - reflexivity.
  - reflexivity.
  - right. split; [reflexivity|]. exists (VStr "image"). split; reflexivity.
Defined.

Lemma scaling_first_policy_only_witness :
  scaling_policies_loop
    ([placement_policy_entry] ++ SP1_policy (VInt 1) :: [SP1_policy (VInt 5)])
    (VStr "scaling.yaml")
  = convert_to_heat_scaling_policy (SP1_properties (VInt 1))
      (VStr "scaling.yaml") "SP1".
Proof.
  apply (scaling_first_policy_only [placement_policy_entry]
           [SP1_policy (VInt 5)] (SP1_policy (VInt 1))
           (VDict [("type", VStr SCALING_POLICY);
                   ("properties", SP1_properties (VInt 1))])
           (VStr SCALING_POLICY)).
  - repeat constructor. eexists. split; reflexivity.
  - reflexivity.
  - reflexivity.
  - reflexivity.
  - reflexivity.
Defined.

Lemma generate_hot_scaling_without_policy_witness :
  generate_hot_scaling
    (VDict [("policies", VList [placement_policy_entry; cpu_alarm_policy])])
    (VStr "scaling.yaml")
  = Ok (false, [], scaling_template_without_resources).
Proof.
  apply (generate_hot_scaling_without_policy
           [("policies", VList [placement_policy_entry; cpu_alarm_policy])]).
  right. eexists. split; [reflexivity|].
  repeat constructor; eexists; split; reflexivity.
Defined.

Lemma scaling_policy_resources_witness :
  exists resources,
    convert_to_heat_scaling_policy (SP1_properties (VStr "2"))
      (VStr "scaling.yaml") "SP1" = Ok (resources, [("SP1", VStr "G1")]) /\
    dict_keys resources = ["G1"; "SP1_scale_out"; "SP1_scale_in"].
Proof.
  destruct (scaling_policy_resources (SP1_properties (VStr "2"))
              (VStr "scaling.yaml") "SP1" 2
              (VList [VStr "VDU1"]) (VInt 1) (VInt 3) (VInt 1) (VInt 60)
              (VStr "2") eq_refl eq_refl eq_refl eq_refl eq_refl eq_refl eq_refl)
    as (resources & H & Hk & _).
  exists resources. split; assumption.
Defined.

Lemma scale_in_text_any_increment_witness :
  scaling_adjustment_of "in" "SP1"
    (convert_to_heat_scaling_policy (SP1_properties (VInt (-3)))
       (VStr "scaling.yaml") "SP1") = Some (VStr "--3") /\
  py_int (VStr "--3") = Raise ValueError.
Proof.
  destruct (scale_in_text_any_increment (SP1_properties (VInt (-3)))
              (VStr "scaling.yaml") "SP1" (-3)
              (VList [VStr "VDU1"]) (VInt 1) (VInt 3) (VInt 1) (VInt 60)
              eq_refl eq_refl eq_refl eq_refl eq_refl eq_refl) as [H1 H2].
  split; [exact H1 | apply H2; reflexivity].
Defined.

Lemma alarm_without_scaling_witness :
  exists properties,
    convert_to_heat_monitoring_resource cpu_alarm_policy vnf_with_alarm_url
      flat_template (VDict [("policies", VList [cpu_alarm_policy])])
    = Ok (VDict [("type", VStr "OS::Aodh::Alarm"); ("properties", properties)],
          flat_template).
Proof.
  eexists.
  apply (alarm_without_scaling cpu_alarm_policy vnf_with_alarm_url
           flat_template _ [("policies", VList [cpu_alarm_policy])]).
  - reflexivity.
  - right. eexists. split; [reflexivity|].
    repeat constructor. eexists. split; reflexivity.
Defined.

Lemma alarm_actions_with_url_witness :
  alarm_actions_of
    (convert_to_heat_monitoring_prop cpu_alarm_policy vnf_with_alarm_url)
  = Some (VList [VStr "http://host/alarm"]).
Proof.
  exact (alarm_actions_with_url cpu_alarm_policy vnf_with_alarm_url _
           [("alarm_url", VStr "http://host/alarm")] "http://host/alarm"
           eq_refl eq_refl eq_refl).
Defined.

Lemma legacy_parameter_errors_witness :
  generate_hot_from_legacy no_yaml repr_dump repr_dump input_translator
    two_unit_descriptor (VDict []) = Raise ParamYAMLInputMissing.
Proof.
  destruct (legacy_parameter_errors no_yaml repr_dump repr_dump
              input_translator [] []
              "vdus: {vdu1: {vm_image: {get_input: image}}}"
              two_unit_descriptor eq_refl eq_refl eq_refl eq_refl)
    as [_ H].
  destruct (H eq_refl) as [Hmissing _]. apply Hmissing. reflexivity.
Defined.

Lemma handle_port_creation_port_witness :
  exists template_dict',
    handle_port_creation legacy_translator "vdu1" data_interface
      empty_template [VStr "10.0.0.5"] (VBool true)
      = Ok ("vdu1-net0-port", template_dict') /\
    getpath template_dict'
            ["resources"; "vdu1-net0-port"; "properties"; "vnic_type"]
      = Ok (VStr "direct") /\
    getpath template_dict'
            ["resources"; "vdu1-net0-port"; "properties"; "fixed_ips"]
      = Ok (VList [VDict [("ip_address", VStr "10.0.0.5")]]).
Proof.
  destruct (handle_port_creation_port legacy_translator "vdu1" data_interface
              [("heat_template_version", VStr "2013-05-23");
               ("outputs", VDict []); ("resources", VDict [])]
              [] (VStr "net0") [VStr "10.0.0.5"] (VBool true))
    as (td & H & _ & Hkeys & Hips & _).
  - reflexivity.
  - repeat constructor; cbn; intuition discriminate.
  - reflexivity.
  - intros _. eexists. reflexivity.
  - exists td. split; [exact H|]. split.
    + apply (Hkeys "vnic_type"). reflexivity.
    + apply Hips. reflexivity.
Defined.

Lemma network_interface_entry_witness :
  network_interface legacy_translator "vdu1"
    (VDict [("management", VBool true)]) empty_template
  = Raise (KeyError "network").
Proof.
  apply (network_interface_entry legacy_translator "vdu1"
           [("management", VBool true)] empty_template).
  - reflexivity.
  - right. split; [reflexivity|]. exists (VBool true). split; reflexivity.
Defined.

Lemma make_mgmt_outputs_dict_output_witness :
  exists template_dict',
    make_mgmt_outputs_dict "vdu1" "vdu1-net0-port" empty_template
      = Ok template_dict' /\
    getpath template_dict' ["outputs"; "mgmt_ip-vdu1"]
      = Ok (mgmt_output "vdu1-net0-port").
Proof.
  destruct (make_mgmt_outputs_dict_output "vdu1" "vdu1-net0-port"
              [("heat_template_version", VStr "2013-05-23");
               ("outputs", VDict []); ("resources", VDict [])]) as [H _].
  destruct (H [] eq_refl) as (td & H1 & H2 & _).
  exists td. split; assumption.
Defined.

Lemma process_vdu_network_interfaces_counts_witness :
  exists vdu_dict' properties' template_dict' networks,
    process_vdu_network_interfaces legacy_translator "vdu1"
      [("network_interfaces",
        VDict [("management", VDict mgmt_interface);
               ("pkt_in", VDict data_interface)])]
      [("image", VStr "cirros"); ("flavor", VStr "m1.tiny")]
      empty_template = Ok (vdu_dict', properties', template_dict') /\
    dict_get "networks" properties' = Some (VList networks) /\
    length networks = 2%nat /\
    (resource_count template_dict' <= 2)%nat.
Proof.
  edestruct (process_vdu_network_interfaces_counts legacy_translator "vdu1"
               [("network_interfaces",
                 VDict [("management", VDict mgmt_interface);
                        ("pkt_in", VDict data_interface)])]
               [("image", VStr "cirros"); ("flavor", VStr "m1.tiny")]
               [("management", VDict mgmt_interface);
                ("pkt_in", VDict data_interface)]
               empty_template)
    as (nl & ifs' & H1 & H2 & _ & _ & H5); [reflexivity | reflexivity |].
  eexists _, _, _, nl. split; [reflexivity|].
  split; [exact H1|]. split; [exact H2 | exact H5].
Defined.

Lemma generate_hot_alarm_resource_without_alarm_witness :
  generate_hot_alarm_resource repr_dump parse_flat translated (VDict [])
  = Ok (set_heat_template_yaml translated (VStr (repr_dump flat_template)),
        (false, [], VStr (repr_dump flat_template))).
Proof.
  apply (generate_hot_alarm_resource_without_alarm repr_dump parse_flat
           translated [] flat_template).
  - reflexivity.
  - left. reflexivity.
Defined.

Lemma generate_hot_alarm_resource_first_alarm_witness :
  exists self' mon_policy_hot sub_heat_dict,
    generate_hot_alarm_resource repr_dump parse_flat translated
      (VDict alarm_only_topology)
    = Ok (self',
          (true, [("vdu_hcpu_usage_scaling_out", mon_policy_hot)],
           VStr (repr_dump sub_heat_dict))).
Proof.
  eexists _, _, _.
  eapply (generate_hot_alarm_resource_first_alarm repr_dump parse_flat
            translated alarm_only_topology _ _ [placement_policy_entry] []
            cpu_alarm_policy).
  - reflexivity.
  - reflexivity.
  - reflexivity.
  - repeat constructor. eexists. split; reflexivity.
  - reflexivity.
  - reflexivity.
  - reflexivity.
  - reflexivity.
Defined.

Lemma handle_scaling_expanded_witness :
  exists self' main_yaml,
    handle_scaling repr_dump repr_dump parse_flat translated scaling_vnfd
      = Ok self' /\
    getitem (fields self') "template" = Ok main_yaml /\
    getpath (vnf self') ["attributes"; "heat_template"] = Ok main_yaml.
Proof.
  epose proof (handle_scaling_expanded repr_dump repr_dump parse_flat
                 translated _ scaling_vnfd) as Hthm.
  edestruct Hthm
    as (self' & main' & H & _ & Ht & _ & Hh & _);
    [reflexivity | reflexivity | reflexivity | reflexivity | reflexivity
     | reflexivity |].
  exists self'. eexists. split; [exact H|]. split; [exact Ht | exact Hh].
Defined.

Lemma legacy_vdu_compute_resource_witness :
  exists st',
    legacy_vdu repr_dump repr_dump first_unit_locals "vdu1"
               (VDict configured_unit) = Ok st' /\
    resource_property (l_template_dict st') "vdu1" "image" = Ok (VStr "cirros") /\
    resource_property (l_template_dict st') "vdu1" "flavor" = Ok (VStr "m1.tiny").
Proof.
  eexists. split; [reflexivity|].
  epose proof (legacy_vdu_compute_resource repr_dump repr_dump
                 first_unit_locals _ "vdu1" configured_unit) as Hthm.
  edestruct Hthm
    as (image & flavor & Hi & Hf & _ & Himg & Hfl & _); [reflexivity|].
  cbv in Hi, Hf. inversion Hi; subst image. inversion Hf; subst flavor.
  split; [exact Himg | exact Hfl].
Defined.

Lemma vdu_monitoring_cases_witness :
  exists vd' mon',
    vdu_monitoring "vdu1"
      [("vm_image", VStr "cirros"); ("instance_type", VStr "m1.tiny");
       ("monitoring_policy", VStr "ping"); ("failure_policy", VStr "respawn")]
      [] = Ok (vd', mon') /\
    dict_get "failure_policy" vd' = None /\
    getpath (VDict mon') ["vdus"; "vdu1"] = Ok ping_respawn.
Proof.
  destruct (vdu_monitoring_cases "vdu1"
              [("vm_image", VStr "cirros"); ("instance_type", VStr "m1.tiny");
               ("monitoring_policy", VStr "ping");
               ("failure_policy", VStr "respawn")] []) as (_ & Hping & _).
  destruct (Hping eq_refl eq_refl) as (vd' & mon' & H & _ & Hf & _ & Hm).
  exists vd', mon'. split; [exact H|]. split; [exact Hf | exact Hm].
Defined.

Lemma vdu_config_metadata_witness :
  exists props',
    vdu_placement_config_key configured_unit
      [("image", VStr "cirros"); ("flavor", VStr "m1.tiny")] = Ok props' /\
    dict_get "config_drive" props' = Some (VBool true) /\
    getpath (VDict props') ["metadata"; "param0"]
      = Ok (VStr (String.substring 0 255 "key0")).
Proof.
  eexists. split; [reflexivity|].
  destruct (vdu_config_metadata configured_unit
              [("image", VStr "cirros"); ("flavor", VStr "m1.tiny")]
              [("param0", VStr "key0"); ("param1", VStr "key1")])
    as [Hok _].
  - reflexivity.
  - repeat constructor; cbn; intuition discriminate.
  - reflexivity.
  - reflexivity.
  - destruct (Hok _ eq_refl) as [Hdrive Hmeta].
    split; [exact Hdrive|]. apply (Hmeta "param0" "key0"). reflexivity.
Defined.

Lemma vdu_service_type_attribute_witness :
  exists self',
    vdu_service_type repr_dump legacy_translator "vdu1" configured_unit
      = Ok self' /\
    getpath (vnf self') ["attributes"; "vdu1"]
      = Ok (VStr (repr_dump (VDict [("service_type", VStr "firewall")]))).
Proof.
  destruct (vdu_service_type_attribute repr_dump legacy_translator "vdu1"
              configured_unit
              [("id", VStr "vnf-1"); ("attributes", VDict [])] []
              eq_refl eq_refl) as [_ H].
  destruct (H (VStr "firewall") eq_refl) as (self' & H1 & H2 & _).
  exists self'. split; assumption.
Defined.

Lemma generate_hot_from_legacy_template_witness :
  exists self' template_dict,
    generate_hot_from_legacy no_yaml repr_dump repr_dump legacy_translator
      described_unit_vnfd (VDict []) = Ok self' /\
    heat_template_yaml self' = VStr (repr_dump template_dict) /\
    getitem template_dict "heat_template_version" = Ok (VStr "2013-05-23") /\
    getitem template_dict "description" = Ok (VStr "demo").
Proof.
  epose proof (generate_hot_from_legacy_template no_yaml repr_dump repr_dump
                 legacy_translator _ described_unit_vnfd (VDict [])) as Hthm.
  edestruct Hthm
    as (td & m & Hy & Hv & Hd & _); [reflexivity | reflexivity |].
  eexists _, td. split; [reflexivity|]. split; [exact Hy|].
  split; [exact Hv|]. exact (Hd _ eq_refl eq_refl).
Defined.

Lemma update_fields_overrides_witness :
  exists self' dev_attrs' f,
    update_fields sample_loads (described_translator record_attributes)
      = Ok (self', dev_attrs') /\
    fields self' = VDict f /\
    dict_get "stack_name" f = Some (VStr "from_record") /\
    getitem dev_attrs' "stack_name" = Raise (KeyError "stack_name").
Proof.
  epose proof (update_fields_overrides sample_loads
                 (described_translator record_attributes) _
                 (dict_del "vnfd" descriptor_attributes) record_attributes)
    as Hthm.
  edestruct Hthm
    as (f & a' & da' & Hf & _ & Hd & _ & Hover & _);
    [reflexivity | reflexivity | reflexivity |].
  destruct (Hover "stack_name" (or_introl eq_refl)) as (Hs & Hgone & _).
  eexists _, _, f. split; [reflexivity|]. split; [exact Hf|].
  split; [exact Hs|]. rewrite Hd. now apply getitem_VDict_None.
Defined.

Lemma update_fields_merges_witness :
  exists self' dev_attrs' f,
    update_fields sample_loads (described_translator record_attributes)
      = Ok (self', dev_attrs') /\
    fields self' = VDict f /\
    dict_get "parameters" f
      = Some (VDict [("flavor", VStr "large"); ("zone", VStr "nova")]).
Proof.
  epose proof (update_fields_merges sample_loads
                 (described_translator record_attributes) _
                 (dict_del "vnfd" descriptor_attributes) record_attributes
                 _ "parameters") as Hthm.
  edestruct Hthm
    as (f & Hf & Hm);
    [reflexivity | reflexivity | reflexivity | right; reflexivity |].
  cbn [record_attributes dict_get String.eqb Ascii.eqb Bool.eqb] in Hm.
  destruct Hm as (t & l & m & Ht & Hl & Hm & Hp & _).
  cbv in Hl, Ht. inversion Hl; subst l. inversion Ht; subst t.
  cbv in Hm. inversion Hm; subst m.
  eexists _, _, f. split; [reflexivity|]. split; [exact Hf | exact Hp].
Defined.

Lemma legacy_rejects_given_template_witness :
  exists self' dev_attrs',
    update_fields sample_loads
      (described_translator [("template", VStr "heat_template_version: x")])
      = Ok (self', dev_attrs') /\
    generate_hot_from_legacy no_yaml repr_dump repr_dump
      (get_unsupported_resource_props self' (fun _ _ => true))
      described_unit_vnfd dev_attrs' = Raise AssertionError.
Proof.
  eexists _, _. split; [reflexivity|].
  eapply (legacy_rejects_given_template no_yaml repr_dump repr_dump sample_loads
            (described_translator [("template", VStr "heat_template_version: x")])
            _ (dict_del "vnfd" descriptor_attributes)
            [("template", VStr "heat_template_version: x")]
            _ "template").
  - reflexivity.
  - reflexivity.
  - reflexivity.
  - left. reflexivity.
  - right. reflexivity.
Defined.

Lemma get_vnfd_copy_witness :
  exists self1,
    get_vnfd (fresh_translator record_attributes) = Ok self1 /\
    vnfd_yaml self1 = VStr "vdus: {}" /\
    vnf self1 = recorded_vnf record_attributes.
Proof.
  destruct (get_vnfd_copy sample_loads (fresh_translator record_attributes)
              (VDict [("attributes", VDict descriptor_attributes)])
              descriptor_attributes eq_refl eq_refl)
    as (self1 & H & Hy & _ & Hv & _).
  exists self1. split; [exact H|]. split; [exact Hy | exact Hv].
Defined.

Lemma update_fields_unmergeable_files_witness :
  update_fields sample_loads
    (set_attributes (fresh_translator [("files", VStr "B")])
                    (VDict [("files", VStr "C")]))
    = Raise AttributeError.
Proof.
  apply (update_fields_unmergeable_files sample_loads
           (set_attributes (fresh_translator [("files", VStr "B")])
                           (VDict [("files", VStr "C")]))
           [("files", VStr "C")] [("files", VStr "B")]
           (VStr "C") (VList [VStr "user_data.sh"])).
  - reflexivity.
  - reflexivity.
  - reflexivity.
  - reflexivity.
  - intros t H. discriminate H.
  - intros v' H. discriminate H.
  - reflexivity.
Defined.
